(** * Carry-forward and completion engine of the daily task tracker

    A shallow embedding of
      - [src/utils/timezone.ts]               (module [Timezone]),
      - the [Tasks] page component             (module [Tasks]),
      - [src/components/tasks/TaskCard.tsx]    (module [TaskCard]),
    together with the parts of their collaborators that the code calls:
    the luxon date library (module [Luxon]), the Supabase client (module
    [Supabase]) and the helper module [@/utils/taskDuration] (module
    [TaskDuration]).

    Conventions.
      - An instant (a [timestamptz] column, an ISO string with an offset,
        luxon's [ts]) is a [Z]: milliseconds since 1970-01-01T00:00:00Z.
      - A calendar date (a [date] column, a ['yyyy-MM-dd'] string) is a
        [Date] record of year, month and day; a ['HH:mm:ss'] string is a
        [TimeOfDay] record.  Formatting and parsing are the identity on
        these components.
      - A time zone is its offset function: instant -> minutes east of UTC. *)

From Stdlib Require Import ZArith List String Ascii Bool Lia.
From Stdlib Require Import DecimalString Permutation Sorted.
Import ListNotations.
Local Open Scope string_scope.
Local Open Scope Z_scope.

(** ** Proleptic Gregorian calendar ([Date.UTC] and [getUTC*] of JavaScript) *)

Module Civil.

Record Date := mkDate { year : Z; month : Z; day : Z }.

Definition msPerDay : Z := 86400000.
Definition msPerMinute : Z := 60000.

(** Position of a date inside its 400-year era (eras start on 1 March). *)
Definition doe_of_civ (yoe m d : Z) : Z :=
  let mp := (m + 9) mod 12 in
  let doy := (153 * mp + 2) / 5 + d - 1 in
  yoe * 365 + yoe / 4 - yoe / 100 + doy.

Definition civ_of_doe (doe : Z) : Z * Z * Z :=
  let yoe := (doe - doe / 1460 + doe / 36524 - doe / 146096) / 365 in
  let doy := doe - (365 * yoe + yoe / 4 - yoe / 100) in
  let mp := (5 * doy + 2) / 153 in
  let d := doy - (153 * mp + 2) / 5 + 1 in
  let m := if mp <? 10 then mp + 3 else mp - 9 in
  (yoe, m, d).

(** Days since 1970-01-01 of a civil date. *)
Definition days_from_civil (dt : Date) : Z :=
  let y := if month dt <=? 2 then year dt - 1 else year dt in
  let era := y / 400 in
  let yoe := y - era * 400 in
  era * 146097 + doe_of_civ yoe (month dt) (day dt) - 719468.

(** Civil date of a day number. *)
Definition civil_from_days (z : Z) : Date :=
  let z' := z + 719468 in
  let era := z' / 146097 in
  let doe := z' - era * 146097 in
  let '(yoe, m, d) := civ_of_doe doe in
  let y := yoe + era * 400 in
  mkDate (if m <=? 2 then y + 1 else y) m d.

Definition date_eqb (a b : Date) : bool :=
  (year a =? year b) && (month a =? month b) && (day a =? day b).

(** Postgres compares [date] values chronologically. *)
Definition date_ltb (a b : Date) : bool :=
  days_from_civil a <? days_from_civil b.

End Civil.

(** ** luxon: the operations of [DateTime] that the code calls

    luxon is a dependency of the repository; the definitions follow its
    implementation ([datetime.js], [impl/diff.js], [impl/zoneUtil.js]). *)

Module Luxon.
Import Civil.

(** [Zone#offset(ts)]: minutes east of UTC at instant [ts]. *)
Definition Zone := Z -> Z.

Definition utcInstance : Zone := fun _ => 0.

(** The component object [c] of a [DateTime]. *)
Record Obj := mkObj {
  c_year : Z; c_month : Z; c_day : Z;
  c_hour : Z; c_minute : Z; c_second : Z; c_millisecond : Z }.

Record TimeOfDay := mkTime { hour : Z; minute : Z; second : Z }.

(** A valid [DateTime]: instant, zone and the offset [o] it carries.
    An invalid one is [None] at the places that can produce it. *)
Record DateTime := mkDT { ts : Z; zone : Zone; o : Z }.

Definition tsToObj (t offset : Z) : Obj :=
  let t := t + offset * 60 * 1000 in
  let d := civil_from_days (t / msPerDay) in
  let r := t mod msPerDay in
  mkObj (year d) (month d) (day d)
        (r / 3600000) ((r / 60000) mod 60) ((r / 1000) mod 60) (r mod 1000).

Definition objToLocalTS (obj : Obj) : Z :=
  days_from_civil (mkDate (c_year obj) (c_month obj) (c_day obj)) * msPerDay
  + c_hour obj * 3600000 + c_minute obj * 60000 + c_second obj * 1000
  + c_millisecond obj.

Definition fixOffset (localTS o : Z) (tz : Zone) : Z * Z :=
  let utcGuess := localTS - o * 60 * 1000 in
  let o2 := tz utcGuess in
  if o =? o2 then (utcGuess, o)
  else
    let utcGuess := utcGuess - (o2 - o) * 60 * 1000 in
    let o3 := tz utcGuess in
    if o2 =? o3 then (utcGuess, o2)
    else (localTS - Z.min o2 o3 * 60 * 1000, Z.max o2 o3).

Definition objToTS (obj : Obj) (offset : Z) (zone : Zone) : Z * Z :=
  fixOffset (objToLocalTS obj) offset zone.

Definition c (dt : DateTime) : Obj := tsToObj (ts dt) (o dt).

(** [clone(inst, { ts, o })]: the constructor keeps the old components
    when the instant is unchanged and otherwise asks the zone again. *)
Definition clone (inst : DateTime) (ts' : Z) : DateTime :=
  if ts' =? ts inst then inst
  else mkDT ts' (zone inst) (zone inst ts').

(** [setZone(zone)] on a [DateTime] whose offset is the zone's own. *)
Definition setZone (dt : DateTime) (z : Zone) : DateTime :=
  mkDT (ts dt) z (z (ts dt)).

(** [setZone(zone, { keepLocalTime: true })]. *)
Definition setZoneKeepLocalTime (dt : DateTime) (z : Zone) : DateTime :=
  let offsetGuess := z (ts dt) in
  let '(newTS, _) := objToTS (c dt) offsetGuess z in
  mkDT newTS z (z newTS).

Definition toUTC (dt : DateTime) : DateTime := setZone dt utcInstance.

(** [toISO()] of a UTC [DateTime] names its instant. *)
Definition toISO (dt : DateTime) : Z := ts dt.
Definition valueOf (dt : DateTime) : Z := ts dt.

(** [DateTime.now()]; the system zone is replaced by [setZone] before
    any component is read, UTC stands for it. *)
Definition now (clock : Z) : DateTime := mkDT clock utcInstance 0.

(** [startOf('day')] = [set({hour: 0, minute: 0, second: 0, millisecond: 0})]. *)
Definition startOfDay (dt : DateTime) : DateTime :=
  let cur := c dt in
  let mixed := mkObj (c_year cur) (c_month cur) (c_day cur) 0 0 0 0 in
  let '(ts', _) := objToTS mixed (o dt) (zone dt) in
  clone dt ts'.

(** [toFormat('yyyy-MM-dd')] and [toFormat('HH:mm:ss')]. *)
Definition toFormat_date (dt : DateTime) : Date :=
  mkDate (c_year (c dt)) (c_month (c dt)) (c_day (c dt)).

Definition toFormat_time (dt : DateTime) : TimeOfDay :=
  mkTime (c_hour (c dt)) (c_minute (c dt)) (c_second (c dt)).

(** [DateTime.fromObject(obj, { zone })]: the provisional offset is the
    zone's offset now. *)
Definition fromObject (clock : Z) (obj : Obj) (z : Zone) : DateTime :=
  let offsetProvis := z clock in
  let '(tsFinal, offsetFinal) := objToTS obj offsetProvis z in
  mkDT tsFinal z offsetFinal.

(** [DateTime.fromISO('yyyy-MM-dd', { zone })]. *)
Definition fromISO_date (clock : Z) (d : Date) (z : Zone) : DateTime :=
  fromObject clock (mkObj (year d) (month d) (day d) 0 0 0 0) z.

(** [DateTime.fromISO("yyyy-MM-dd'T'HH:mm", { zone })]. *)
Definition fromISO_local (clock : Z) (d : Date) (h mi : Z) (z : Zone) : DateTime :=
  fromObject clock (mkObj (year d) (month d) (day d) h mi 0 0) z.

(** [DateTime.fromISO(instant, { zone: 'UTC' })] of a stored instant. *)
Definition fromISO_instant (t : Z) : DateTime := mkDT t utcInstance 0.

(** [DateTime.fromFormat(`${date} ${time}`, 'yyyy-MM-dd HH:mm:ss', { zone })]. *)
Definition fromFormat (clock : Z) (d : Date) (t : TimeOfDay) (z : Zone) : DateTime :=
  fromObject clock
    (mkObj (year d) (month d) (day d) (hour t) (minute t) (second t) 0) z.

(** [plus({ days: n })] for a whole number of days ([adjustTime]); the
    clamp of the day to the month's length is the identity, year and
    month being unchanged. *)
Definition plusDays (inst : DateTime) (n : Z) : DateTime :=
  let cur := c inst in
  let c' := mkObj (c_year cur) (c_month cur) (c_day cur + n)
                  (c_hour cur) (c_minute cur) (c_second cur) (c_millisecond cur) in
  let '(ts', _) := fixOffset (objToLocalTS c') (o inst) (zone inst) in
  clone inst ts'.

(** [dayDiff] of [impl/diff.js]. *)
Definition utcDayStart (dt : DateTime) : Z :=
  valueOf (startOfDay (setZoneKeepLocalTime dt utcInstance)).

Definition dayDiff (earlier later : DateTime) : Z :=
  (utcDayStart later - utcDayStart earlier) / msPerDay.

(** A [Duration] in days: [whole + num / den], the fraction being the
    share of the last, incomplete day. *)
Record Days := mkDays { whole : Z; num : Z; den : Z }.

Definition negate (d : Days) : Days := mkDays (- whole d) (- num d) (den d).

(** [Math.floor(duration.days)] (for [den <> 0]). *)
Definition floorDays (d : Days) : Z := whole d + num d / den d.

(** [highOrderDiffs] for [units = ['days']]: cursor, days, high water
    mark, and whether the high water mark is the cursor object itself. *)
Definition highOrderDiffs (earlier later : DateTime)
  : DateTime * Z * DateTime * bool :=
  let d0 := dayDiff earlier later in
  let highWater := plusDays earlier d0 in
  if valueOf highWater >? valueOf later then
    let d1 := d0 - 1 in
    let cursor := plusDays earlier d1 in
    if valueOf cursor >? valueOf later then
      (plusDays earlier (d1 - 1), d1 - 1, cursor, false)
    else (cursor, d1, highWater, false)
  else (highWater, d0, highWater, true).

Definition diffImpl (earlier later : DateTime) : Days :=
  let '(cursor, days, highWater, same) := highOrderDiffs earlier later in
  let remainingMillis := valueOf later - valueOf cursor in
  let '(highWater, same) :=
    if valueOf highWater <? valueOf later
    then (plusDays cursor 1, false) else (highWater, same) in
  if same then mkDays days 0 1
  else mkDays days remainingMillis (valueOf highWater - valueOf cursor).

(** [this.diff(other, 'days')]. *)
Definition diff (this other : DateTime) : Days :=
  let otherIsLater := valueOf other >? valueOf this in
  let earlier := if otherIsLater then this else other in
  let later := if otherIsLater then other else this in
  let diffed := diffImpl earlier later in
  if otherIsLater then negate diffed else diffed.

(** [normalizeZone]: ["utc"] and ["gmt"] in any case are the fixed UTC
    zone; every other identifier is looked up ([tzdb]: the IANA
    database of the runtime together with luxon's offset specifiers);
    an unknown one gives an invalid zone. *)
Definition lower_ascii (a : ascii) : ascii :=
  let n := nat_of_ascii a in
  if (Nat.leb 65 n && Nat.leb n 90)%bool then ascii_of_nat (n + 32) else a.

Fixpoint toLowerCase (s : string) : string :=
  match s with
  | EmptyString => EmptyString
  | String a r => String (lower_ascii a) (toLowerCase r)
  end.

Definition normalizeZone (tzdb : string -> option Zone) (input : string)
  : option Zone :=
  let lowered := toLowerCase input in
  if (String.eqb lowered "utc" || String.eqb lowered "gmt")%bool
  then Some utcInstance
  else tzdb input.

(** [isLeapYear] and [daysInMonth] of [impl/util.js]; with them
    [hasInvalidGregorianData] decides whether a parsed date is one. *)
Definition isLeapYear (y : Z) : bool :=
  (Z.rem y 4 =? 0) && (negb (Z.rem y 100 =? 0) || (Z.rem y 400 =? 0)).

Definition daysInMonth (y m : Z) : Z :=
  let modMonth := (m - 1) mod 12 + 1 in
  let modYear := y + (m - modMonth) / 12 in
  if modMonth =? 2 then (if isLeapYear modYear then 29 else 28)
  else nth (Z.to_nat (modMonth - 1)) [31; 0; 31; 30; 31; 30; 31; 31; 30; 31; 30; 31] 0.

(** *** Zones without a transition nearby (used to state properties) *)

(** Local day [d] at offset [k], and no other offset from the local day
    before to the local day after. *)
Definition settled (z : Zone) (d k : Z) : Prop :=
  forall t, (d - 1) * msPerDay <= t + k * msPerMinute < (d + 2) * msPerDay ->
            z t = k.

(** The zone is settled around local day [d], at an offset that is
    within a day of [k0]. *)
Definition calm (z : Zone) (k0 d : Z) : Prop :=
  exists k, settled z d k /\ -1440 <= k - k0 <= 1440.

(** The offsets that [fixOffset] can settle on for the local time [l]
    and the guess [o]: the guess, or the zone's offset at one of the two
    instants it probes. *)
Definition probed_offset (z : Zone) (o l k : Z) : Prop :=
  let o2 := z (l - o * 60 * 1000) in
  let o3 := z (l - o2 * 60 * 1000) in
  k = o \/ k = o2 \/ k = o3.

(** The instant [t] falls on local day [d] at offset [k]. *)
Definition on_day (t k d : Z) : Prop :=
  d * msPerDay <= t + k * msPerMinute < (d + 1) * msPerDay.

End Luxon.

(** ** [src/utils/timezone.ts] *)

Module Timezone.
Import Civil Luxon.

(** [profileTimezone || 'UTC'] *)
Definition getUserTimezone (profileTimezone : option string) : string :=
  match profileTimezone with
  | Some s => if String.eqb s "" then "UTC" else s
  | None => "UTC"
  end.

(** A [datetime-local] input value, ["yyyy-MM-dd'T'HH:mm"]. *)
Record LocalInput := mkLocal { li_date : Date; li_hour : Z; li_minute : Z }.

(** [null] when the zone is not valid. *)
Definition localToUtcISO (tzdb : string -> option Zone) (clock : Z)
    (localInput : LocalInput) (timezone : string) : option Z :=
  match normalizeZone tzdb timezone with
  | Some z =>
      let dt := fromISO_local clock (li_date localInput) (li_hour localInput)
                              (li_minute localInput) z in
      Some (toISO (toUTC dt))
  | None => None
  end.

(** [toFormat("yyyy-MM-dd'T'HH:mm")] *)
Definition toFormat_local (dt : DateTime) : LocalInput :=
  mkLocal (toFormat_date dt) (c_hour (c dt)) (c_minute (c dt)).

(** The string ["Invalid DateTime"] ([None]) when the zone is not valid. *)
Definition utcToLocalISO (tzdb : string -> option Zone) (utcISO : Z)
    (timezone : string) : option LocalInput :=
  match normalizeZone tzdb timezone with
  | Some z => Some (toFormat_local (setZone (fromISO_instant utcISO) z))
  | None => None
  end.

Definition startOfTodayInZone (tzdb : string -> option Zone) (clock : Z)
    (timezone : string) : option DateTime :=
  match normalizeZone tzdb timezone with
  | Some z => Some (startOfDay (setZone (now clock) z))
  | None => None
  end.

Definition startOfTomorrowInZone (tzdb : string -> option Zone) (clock : Z)
    (timezone : string) : option DateTime :=
  match normalizeZone tzdb timezone with
  | Some z => Some (startOfDay (plusDays (setZone (now clock) z) 1))
  | None => None
  end.

End Timezone.

(** ** The Supabase client: rows, point updates, storage, thrown errors *)

Module Supabase.
Import Civil Luxon.

Record Task := mkTask {
  id : string;
  user_id : string;
  title : string;
  description : option string;
  start_time : Z;
  end_time : option Z;
  total_time_minutes : option Z;
  status : string;
  image_path : option string;
  consecutive_missed_days : Z;
  task_date : Date;
  original_date : Date }.

Record Profile := mkProfile { profile_user_id : string; timezone : option string }.

Record File := mkFile { file_name : string; file_content : string }.

(** A thrown or returned error object. *)
Record Error := mkError { error_name : string; message : string }.

(** The payload of [.update({...})]: the columns it names. *)
Record TaskUpdate := mkUpdate {
  set_task_date : option Date;
  set_start_time : option Z;
  set_consecutive_missed_days : option Z;
  set_status : option string;
  set_end_time : option (option Z);
  set_total_time_minutes : option (option Z);
  set_image_path : option (option string) }.

Definition override {A} (new : option A) (old : A) : A :=
  match new with Some v => v | None => old end.

Definition apply_update (u : TaskUpdate) (t : Task) : Task :=
  mkTask (id t) (user_id t) (title t) (description t)
         (override (set_start_time u) (start_time t))
         (override (set_end_time u) (end_time t))
         (override (set_total_time_minutes u) (total_time_minutes t))
         (override (set_status u) (status t))
         (override (set_image_path u) (image_path t))
         (override (set_consecutive_missed_days u) (consecutive_missed_days t))
         (override (set_task_date u) (task_date t))
         (original_date t).

Record Database := mkDb {
  profiles : list Profile;
  tasks : list Task;
  task_images : list (string * File) }.

(** What the client cannot control: the clock, the zone database of the
    runtime, the signed-in user, and which requests the backend refuses. *)
Record Env := mkEnv {
  clock : Z;
  tzdb : string -> option Zone;
  session : option string;
  select_error : option Error;
  update_error : string -> option Error;
  upload_error : string -> option Error }.

(** [from("profiles").select("timezone").eq("user_id", uid).single()] *)
Definition select_profile (db : Database) (uid : string) : option Profile :=
  match filter (fun p => String.eqb (profile_user_id p) uid) (profiles db) with
  | [p] => Some p
  | _ => None
  end.

Definition invalid_date_literal : Error :=
  mkError "PostgrestError" "invalid input syntax for type date".

(** [from("tasks").select(...).eq("user_id", uid).eq("status", "pending")
    .lt("task_date", today)]; an invalid date literal is refused. *)
Definition select_pending_before (env : Env) (db : Database) (uid : string)
    (today : option Date) : Error + list Task :=
  match select_error env, today with
  | Some e, _ => inl e
  | None, None => inl invalid_date_literal
  | None, Some today =>
      inr (filter (fun t => String.eqb (user_id t) uid
                            && String.eqb (status t) "pending"
                            && date_ltb (task_date t) today)%bool (tasks db))
  end.

Fixpoint insert_by_start (t : Task) (l : list Task) : list Task :=
  match l with
  | [] => [t]
  | x :: r => if start_time t <? start_time x then t :: l
              else x :: insert_by_start t r
  end.

(** [from("tasks").select("*").eq("user_id", uid).eq("task_date", today)
    .order("start_time", { ascending: true })] *)
Definition select_for_day (env : Env) (db : Database) (uid : string)
    (today : option Date) : Error + list Task :=
  match select_error env, today with
  | Some e, _ => inl e
  | None, None => inl invalid_date_literal
  | None, Some today =>
      inr (fold_right insert_by_start []
             (filter (fun t => String.eqb (user_id t) uid
                               && date_eqb (task_date t) today)%bool (tasks db)))
  end.

(** [from("tasks").update(u).eq("id", key)]: the rows, and [{ error }]. *)
Definition update_task (env : Env) (db : Database) (u : TaskUpdate)
    (key : string) : Database * option Error :=
  match update_error env key with
  | Some e => (db, Some e)
  | None =>
      (mkDb (profiles db)
            (map (fun t => if String.eqb (id t) key then apply_update u t else t)
                 (tasks db))
            (task_images db), None)
  end.

(** [storage.from("task-images").upload(path, file)] *)
Definition upload (env : Env) (db : Database) (path : string) (f : File)
    : Database * option Error :=
  match upload_error env path with
  | Some e => (db, Some e)
  | None => (mkDb (profiles db) (tasks db) ((path, f) :: task_images db), None)
  end.

End Supabase.

(** ** Component state and the effects of an event handler *)

Module React.
Import Supabase.

(** State of the [Tasks] page ([useState]). *)
Record PageState := mkPage {
  st_tasks : list Task;
  st_loading : bool;
  st_userTimezone : string }.

(** State of one [TaskCard]. *)
Record CardState := mkCard {
  st_showCompleteDialog : bool;
  st_uploadingImage : bool }.

Inductive Event :=
| ConsoleError (label : string) (e : Error)
| Toast (toast_title toast_description : string) (destructive : bool).

Record World := mkWorld {
  db : Database;
  page : PageState;
  card : CardState;
  events : list Event }.

(** An asynchronous function body: it changes the world and either
    returns or throws; what it changed before a throw stays changed. *)
Definition Action (A : Type) : Type := World -> World * (Error + A).

Definition ret {A} (a : A) : Action A := fun w => (w, inr a).

Definition bind {A B} (m : Action A) (k : A -> Action B) : Action B :=
  fun w => match m w with
           | (w', inr a) => k a w'
           | (w', inl e) => (w', inl e)
           end.

Definition throw {A} (e : Error) : Action A := fun w => (w, inl e).

Definition try_catch {A} (body : Action A) (handler : Error -> Action A)
  : Action A :=
  fun w => match body w with
           | (w', inr a) => (w', inr a)
           | (w', inl e) => handler e w'
           end.

Definition finally {A} (body : Action A) (cleanup : Action unit) : Action A :=
  fun w => match body w with
           | (w', r) => match cleanup w' with
                        | (w'', inr _) => (w'', r)
                        | (w'', inl e) => (w'', inl e)
                        end
           end.

(** An action under which the database only moves along [R]. *)
Definition keeps (R : Database -> Database -> Prop) {A} (m : Action A) : Prop :=
  forall w, R (db w) (db (fst (m w))).

Definition get_db : Action Database := fun w => (w, inr (db w)).

Definition emit (ev : Event) : Action unit :=
  fun w => (mkWorld (db w) (page w) (card w) (events w ++ [ev]), inr tt).

Definition set_page (f : PageState -> PageState) : Action unit :=
  fun w => (mkWorld (db w) (f (page w)) (card w) (events w), inr tt).

Definition set_card (f : CardState -> CardState) : Action unit :=
  fun w => (mkWorld (db w) (page w) (f (card w)) (events w), inr tt).

Definition setTasks (l : list Task) : Action unit :=
  set_page (fun p => mkPage l (st_loading p) (st_userTimezone p)).
Definition setLoading (b : bool) : Action unit :=
  set_page (fun p => mkPage (st_tasks p) b (st_userTimezone p)).
Definition setUserTimezone (tz : string) : Action unit :=
  set_page (fun p => mkPage (st_tasks p) (st_loading p) tz).
Definition setShowCompleteDialog (b : bool) : Action unit :=
  set_card (fun c => mkCard b (st_uploadingImage c)).
Definition setUploadingImage (b : bool) : Action unit :=
  set_card (fun c => mkCard (st_showCompleteDialog c) b).

(** Awaiting a request of the Supabase client: it resolves with its
    [error] field. *)
Definition send_update (env : Env) (u : TaskUpdate) (key : string)
  : Action (option Error) :=
  fun w => let '(d, err) := update_task env (db w) u key in
           (mkWorld d (page w) (card w) (events w), inr err).

Definition send_upload (env : Env) (path : string) (f : File)
  : Action (option Error) :=
  fun w => let '(d, err) := upload env (db w) path f in
           (mkWorld d (page w) (card w) (events w), inr err).

(** The world after running a handler to its end. *)
Definition run {A} (m : Action A) (w : World) : World := fst (m w).

End React.

Declare Scope action_scope.
Delimit Scope action_scope with action.
Notation "x <- m ;; k" := (React.bind m (fun x => k))
  (at level 61, m at next level, right associativity) : action_scope.
Notation "m ;;; k" := (React.bind m (fun _ => k))
  (at level 61, right associativity) : action_scope.

(** ** The [Tasks] page *)

Module Tasks.
Import Civil Luxon Timezone Supabase React.
Local Open Scope action_scope.

(** [useState([])], [useState(true)], [useState("UTC")] *)
Definition initialState : PageState := mkPage [] true "UTC".

(** [n || 0] on a number. *)
Definition or_zero (n : Z) : Z := if n =? 0 then 0 else n.

(** [`${n}`] for an integer. *)
Definition show (n : Z) : string := NilZero.string_of_int (Z.to_int n).

(** All requests are sent; a Supabase request resolves (with its
    [error] field) and never rejects. *)
Fixpoint Promise_all {A} (requests : list (Action A)) : Action (list A) :=
  match requests with
  | [] => ret []
  | r :: rest => a <- r ;; l <- Promise_all rest ;; ret (a :: l)
  end.

Section Render.
(** One run of the component function.  [userTimezone] is the [const]
    that [useState] returned in this render; the functions below are
    the closures this render created, and all of them see that value
    for as long as they run. *)
Variable env : Env.
Variable userTimezone : string.

Definition fetchUserTimezone : Action unit :=
  match session env with
  | Some user =>
      d <- get_db ;;
      match select_profile d user with
      | Some profile =>
          match timezone profile with
          | Some tz => if String.eqb tz "" then ret tt else setUserTimezone tz
          | None => ret tt
          end
      | None => ret tt
      end
  | None => ret tt
  end.

(** The body of [pendingTasks.map((task) => ...)]: the payload of the
    update of one task.  [{ zone: userTimezone }] is the zone that
    [todayStart] carries. *)
Definition rollover (todayStart : DateTime) (today : Date) (task : Task)
  : TaskUpdate :=
  let zone := zone todayStart in
  let daysMissed :=
    floorDays (diff todayStart (fromISO_date (clock env) (task_date task) zone)) in
  let originalStartDt := setZone (fromISO_instant (start_time task)) zone in
  let timeOfDay := toFormat_time originalStartDt in
  let newStartDt := fromFormat (clock env) today timeOfDay zone in
  let newStartTimeUtc := toISO (toUTC newStartDt) in
  mkUpdate (Some today) (Some newStartTimeUtc)
           (Some (or_zero (consecutive_missed_days task) + daysMissed))
           None None None None.

Definition carryForwardTasks : Action unit :=
  try_catch
    (match session env with
     | None => ret tt
     | Some user =>
         let todayStart := startOfTodayInZone (tzdb env) (clock env) userTimezone in
         let today := option_map toFormat_date todayStart in
         d <- get_db ;;
         match select_pending_before env d user today with
         | inl fetchError => throw fetchError
         | inr pendingTasks =>
             match todayStart, today, pendingTasks with
             | Some todayStart, Some today, _ :: _ =>
                 let updates :=
                   map (fun task => send_update env (rollover todayStart today task)
                                                (id task))
                       pendingTasks in
                 _ <- Promise_all updates ;; ret tt
             | _, _, _ => ret tt
             end
         end
     end)
    (fun error => emit (ConsoleError "Carry-forward error:" error)).

Definition fetchTasks : Action unit :=
  finally
    (try_catch
       (match session env with
        | None => ret tt
        | Some user =>
            let today :=
              option_map toFormat_date
                (startOfTodayInZone (tzdb env) (clock env) userTimezone) in
            d <- get_db ;;
            match select_for_day env d user today with
            | inl error => throw error
            | inr data => setTasks data
            end
        end)
       (fun error => emit (Toast "Error" (message error) true)))
    (setLoading false).

Definition initializeTasks : Action unit :=
  fetchUserTimezone ;;; carryForwardTasks ;;; fetchTasks.

End Render.

(** [useEffect(() => { initializeTasks(); }, [])]: after the first
    render, the [initializeTasks] of that render runs once. *)
Definition mount (env : Env) : Action unit :=
  fun w => initializeTasks env (st_userTimezone (page w)) w.

Inductive BadgeVariant := default | destructive | secondary | outline.

Record StatusInfo := mkInfo {
  bgClass : string; textClass : string;
  badgeVariant : BadgeVariant; label : string }.

Definition getTaskStatusInfo (task : Task) : StatusInfo :=
  if String.eqb (status task) "completed" then
    mkInfo "bg-valid-bg border-valid/30" "text-valid-foreground" default "Completed"
  else if consecutive_missed_days task >=? 3 then
    mkInfo "bg-expired-bg border-expired/30" "text-expired-foreground" destructive
           ("Overdue " ++ show (consecutive_missed_days task) ++ " days")
  else if consecutive_missed_days task >? 0 then
    mkInfo "bg-expiring-bg border-expiring/30" "text-expiring-foreground" secondary
           ("Carried " ++ show (consecutive_missed_days task) ++ " day"
            ++ (if consecutive_missed_days task >? 1 then "s" else ""))
  else
    mkInfo "bg-card border-border/80" "text-foreground" outline "Pending".

Definition messages : list string :=
  [ "Bro… 3 days? Too lazy or too legendary? 😂";
    "Your task is crying… finish it 😭😂";
    "Even your alarm gave up on you! 🤦‍♂️";
    "3 days later... still waiting 😴";
    "This task has trust issues now 💔" ].

(** [pick] is the value of [Math.floor(Math.random() * messages.length)],
    which the runtime draws; an index past the end reads [undefined]. *)
Definition getFunnyMessage (pick : nat) (days : Z) : option string :=
  if days >=? 3 then nth_error messages pick else None.

End Tasks.

(** ** [src/components/tasks/TaskCard.tsx] *)

Module TaskCard.
Import Civil Luxon Timezone Supabase React.
Local Open Scope action_scope.

(** [name.split(".").pop()] *)
Fixpoint last_segment (s : string) (segment : string) : string :=
  match s with
  | EmptyString => segment
  | String a r =>
      if Ascii.eqb a "."%char then last_segment r ""
      else last_segment r (segment ++ String a "")
  end.

(** [useState(DateTime.now().setZone(userTimezone)
    .toFormat("yyyy-MM-dd'T'HH:mm"))]: the completion time the dialog
    opens with; [None] is the string ["Invalid DateTime"]. *)
Definition initialCompletionTime (tzdb : string -> option Zone) (clock : Z)
    (userTimezone : string) : option LocalInput :=
  match normalizeZone tzdb userTimezone with
  | Some z => Some (toFormat_local (setZone (now clock) z))
  | None => None
  end.

Section Card.
(** [calculateTaskDuration] and [formatDuration] are imported from
    [@/utils/taskDuration]; [onRefresh] is a prop. *)
Variable calculateTaskDuration : Z -> option Z -> string -> Error + Z.
Variable formatDuration : Z -> string.
Variable env : Env.
Variable task : Task.
Variable onRefresh : Action unit.
Variable userTimezone : string.

Definition not_authenticated : Error := mkError "Error" "Not authenticated".

Definition handleComplete (completionTime : LocalInput)
    (completionImage : option File) : Action unit :=
  finally
    (try_catch
       (let utcCompletionTime :=
          localToUtcISO (tzdb env) (clock env) completionTime userTimezone in
        match calculateTaskDuration (start_time task) utcCompletionTime
                                    userTimezone with
        | inl thrown => throw thrown
        | inr durationMinutes =>
            imagePath <-
              match completionImage with
              | Some image =>
                  setUploadingImage true ;;;
                  match session env with
                  | None => throw not_authenticated
                  | Some user =>
                      let fileExt := last_segment (file_name image) "" in
                      let fileName :=
                        user ++ "/" ++ id task ++ "-completion-"
                             ++ Tasks.show (clock env) ++ "." ++ fileExt in
                      uploadError <- send_upload env fileName image ;;
                      match uploadError with
                      | Some e => throw e
                      | None => ret (Some fileName)
                      end
                  end
              | None => ret (image_path task)
              end ;;
            error <-
              send_update env
                (mkUpdate None None None (Some "completed")
                          (Some utcCompletionTime) (Some (Some durationMinutes))
                          (Some imagePath))
                (id task) ;;
            match error with
            | Some e => throw e
            | None =>
                (* the title ends with a party emoji *)
                emit (Toast "Task completed!"
                            ("Great job! You took "
                             ++ formatDuration durationMinutes ++ ".") false) ;;;
                setShowCompleteDialog false ;;;
                onRefresh
            end
        end)
       (fun error => emit (Toast "Error" (message error) true)))
    (setUploadingImage false).

End Card.

End TaskCard.

(** ** [@/utils/taskDuration] *)

Module TaskDuration.
Import Supabase.

Definition validation_error : Error :=
  mkError "ValidationError" "Completion time is earlier than the start time".

(** Modelled from the spec: the module [@/utils/taskDuration] is not part
    of the sources at hand.  [computeDuration(startInstant, endInstant)]
    is [floor((endInstant - startInstant) in seconds / 60)] and fails with
    a ValidationError if [endInstant < startInstant]; a completion time
    that is no instant at all is rejected the same way.  The third
    argument is the time zone the caller passes along. *)
Definition calculateTaskDuration (startInstant : Z) (endInstant : option Z)
    (timezone : string) : Error + Z :=
  match endInstant with
  | None => inl validation_error
  | Some endInstant =>
      if endInstant <? startInstant then inl validation_error
      else
        let seconds := (endInstant - startInstant) / 1000 in
        inr (seconds / 60)
  end.

(** Modelled from the spec: [formatDuration(minutes)] renders values
    below 60 as minutes only and values from 60 on as hours plus the
    remaining minutes, 75 being "1h 15m". *)
Definition formatDuration (minutes : Z) : string :=
  if minutes <? 60 then Tasks.show minutes ++ "m"
  else Tasks.show (minutes / 60) ++ "h " ++ Tasks.show (minutes mod 60) ++ "m".

End TaskDuration.

(** ** Vocabulary of the reconciliation pass *)

Module Pass.
Import Civil Luxon Timezone Supabase React Tasks.

(** The ['yyyy-MM-dd'] string that a pass computes as [today]. *)
Definition resolved_today (env : Env) (userTimezone : string) : option Date :=
  option_map toFormat_date
    (startOfTodayInZone (tzdb env) (clock env) userTimezone).

(** The filter of the candidate query, on one row. *)
Definition candidate (user : string) (today : Date) (t : Task) : bool :=
  (String.eqb (user_id t) user && String.eqb (status t) "pending"
   && date_ltb (task_date t) today)%bool.

(** One update request arriving at one row. *)
Definition arrive (env : Env) (u : TaskUpdate) (key : string) (t : Task) : Task :=
  match update_error env key with
  | Some _ => t
  | None => if String.eqb (id t) key then apply_update u t else t
  end.

(** All requests of a pass arriving at one row, in the order sent. *)
Definition arrive_all (env : Env) (payload : Task -> TaskUpdate)
    (pending : list Task) (t : Task) : Task :=
  fold_left (fun t' p => arrive env (payload p) (id p) t') pending t.

(** What a pass makes of one row. *)
Definition rolled (env : Env) (todayStart : DateTime) (today : Date)
    (user : string) (t : Task) : Task :=
  if candidate user today t then
    match update_error env (id t) with
    | Some _ => t
    | None => apply_update (rollover env todayStart today t) t
    end
  else t.

(** The fields a rollover does not name. *)
Definition same_frame (t t' : Task) : Prop :=
  id t' = id t /\ user_id t' = user_id t /\ title t' = title t
  /\ description t' = description t /\ status t' = status t
  /\ end_time t' = end_time t /\ total_time_minutes t' = total_time_minutes t
  /\ image_path t' = image_path t /\ original_date t' = original_date t.

(** The three rolled fields: as they were, or as one payload has them. *)
Definition kept_fields (t t' : Task) : Prop :=
  task_date t' = task_date t /\ start_time t' = start_time t
  /\ consecutive_missed_days t' = consecutive_missed_days t.

Definition written_fields (u : TaskUpdate) (t' : Task) : Prop :=
  Some (task_date t') = set_task_date u
  /\ Some (start_time t') = set_start_time u
  /\ Some (consecutive_missed_days t') = set_consecutive_missed_days u.

(** The columns a payload names. *)
Definition names_rolled_columns_only (u : TaskUpdate) : Prop :=
  set_task_date u <> None /\ set_start_time u <> None
  /\ set_consecutive_missed_days u <> None
  /\ set_status u = None /\ set_end_time u = None
  /\ set_total_time_minutes u = None /\ set_image_path u = None.

(** The local wall clock of a stored instant in a zone. *)
Definition local_date (z : Zone) (instant : Z) : Date :=
  toFormat_date (setZone (fromISO_instant instant) z).

Definition local_time (z : Zone) (instant : Z) : TimeOfDay :=
  toFormat_time (setZone (fromISO_instant instant) z).

(** The instant at which the wall clock of a zone at offset [k] shows
    [today] and [tod]. *)
Definition wall_clock_instant (today : Date) (tod : TimeOfDay) (k : Z) : Z :=
  objToLocalTS (mkObj (year today) (month today) (day today)
                      (hour tod) (minute tod) (second tod) 0)
  - k * msPerMinute.

(** The instant [y-m-dTh:mi:sZ]. *)
Definition instant (y m d h mi s : Z) : Z :=
  objToLocalTS (mkObj y m d h mi s 0).

(** *** Scenario A of the specification *)

Definition Asia_Kolkata : Zone := fun _ => 330.

Definition scenarioA_task : Task :=
  mkTask "task-A" "user-1" "Evening walk" None
         (instant 2025 1 10 13 30 0) None None "pending" None 0
         (mkDate 2025 1 10) (mkDate 2025 1 10).

Definition scenarioA_rolled : Task :=
  mkTask "task-A" "user-1" "Evening walk" None
         (instant 2025 1 13 13 30 0) None None "pending" None 3
         (mkDate 2025 1 13) (mkDate 2025 1 10).

End Pass.

(** ** Vocabulary of the completion flow *)

Module Completion.
Import Civil Luxon Timezone Supabase React.

(** The storage path of a completion photo. *)
Definition completion_path (user : string) (task : Task) (clock : Z)
    (image : File) : string :=
  user ++ "/" ++ id task ++ "-completion-" ++ Tasks.show clock ++ "."
       ++ TaskCard.last_segment (file_name image) "".

(** The world after a completion that was abandoned: the database as it
    was, the upload flag cleared, and one error toast. *)
Definition abandoned (w : World) (e : Error) : World :=
  mkWorld (db w) (page w) (mkCard (st_showCompleteDialog (card w)) false)
          (events w ++ [Toast "Error" (message e) true]).

(** Rows keep their rolled fields. *)
Definition rolled_fields_kept (d d' : Database) : Prop :=
  Forall2 Pass.kept_fields (tasks d) (tasks d').

End Completion.

(** ** Vocabulary of the properties of the page, the card and the helpers *)

Module Behaviour.
Import Civil Luxon Timezone Supabase React Tasks.

(** A value that a [datetime-local] control holds: a date of the
    calendar and a time of day to the minute. *)
Definition well_formed (i : LocalInput) : Prop :=
  1 <= month (li_date i) <= 12
  /\ 1 <= day (li_date i) <= daysInMonth (year (li_date i)) (month (li_date i))
  /\ 0 <= li_hour i <= 23 /\ 0 <= li_minute i <= 59.

(** The filter of the list query, on one row. *)
Definition listed (user : string) (today : Date) (t : Task) : bool :=
  (String.eqb (user_id t) user && date_eqb (task_date t) today)%bool.

Definition by_start_time (a b : Task) : Prop := start_time a <= start_time b.

(** What a pass writes to the console. *)
Definition pass_events (env : Env) (userTimezone : string) : list Event :=
  match session env with
  | None => []
  | Some _ =>
      match select_error env, normalizeZone (tzdb env) userTimezone with
      | Some e, _ => [ConsoleError "Carry-forward error:" e]
      | None, None => [ConsoleError "Carry-forward error:" invalid_date_literal]
      | None, Some _ => []
      end
  end.

(** A row after the completion of the task with id [key]. *)
Definition completed_as (key : string) (endInstant : option Z) (minutes : Z)
    (imagePath : option string) (t : Task) : Task :=
  if String.eqb (id t) key then
    mkTask (id t) (user_id t) (title t) (description t) (start_time t)
           endInstant (Some minutes) "completed" imagePath
           (consecutive_missed_days t) (task_date t) (original_date t)
  else t.

(** The rows with another id are as they were, every row keeps its id,
    the profiles are as they were, and the image store has only grown. *)
Definition other_rows_kept (key : string) (d d' : Database) : Prop :=
  profiles d' = profiles d
  /\ Forall2 (fun t t' => id t' = id t /\ (id t <> key -> t' = t))
             (tasks d) (tasks d')
  /\ exists added, task_images d' = (added ++ task_images d)%list.

Fixpoint has_dot (s : string) : bool :=
  match s with
  | EmptyString => false
  | String a r => Ascii.eqb a "."%char || has_dot r
  end.

(** A row rolled to local day [D] in a zone of the one offset [k]. *)
Definition rolled_to (D k : Z) (t : Task) : Task :=
  mkTask (id t) (user_id t) (title t) (description t)
         (D * msPerDay - k * msPerMinute
          + (start_time t + k * msPerMinute) mod msPerDay / 1000 * 1000)
         (end_time t) (total_time_minutes t) (status t) (image_path t)
         (consecutive_missed_days t + (D - days_from_civil (task_date t)))
         (civil_from_days D) (original_date t).

End Behaviour.

(** ** Sample data *)

Module Examples.
Import Civil Luxon Timezone Supabase React Tasks Pass.

(** New York in 2025: EST until 2025-03-09T07:00Z, EDT until
    2025-11-02T06:00Z, EST after. *)
Definition America_New_York : Zone :=
  fun t => if t <? instant 2025 3 9 7 0 0 then -300
           else if t <? instant 2025 11 2 6 0 0 then -240
           else -300.

Definition zones (name : string) : option Zone :=
  if String.eqb name "Asia/Kolkata" then Some Asia_Kolkata
  else if String.eqb name "America/New_York" then Some America_New_York
  else None.

Definition no_error : string -> option Error := fun _ => None.

Definition fresh_card : CardState := mkCard false false.

(** A user in Kolkata opens the page at 2025-01-12T20:00:00Z, which is
    01:30 on 13 January there; a task of 12 January, 09:00, is still
    pending. *)
Definition kolkata_night : Env :=
  mkEnv (instant 2025 1 12 20 0 0) zones (Some "user-1") None no_error no_error.

Definition task_of_the_12th : Task :=
  mkTask "task-B" "user-1" "Water the plants" None
         (instant 2025 1 12 3 30 0) None None "pending" None 0
         (mkDate 2025 1 12) (mkDate 2025 1 12).

Definition task_of_the_12th_rolled : Task :=
  mkTask "task-B" "user-1" "Water the plants" None
         (instant 2025 1 13 3 30 0) None None "pending" None 1
         (mkDate 2025 1 13) (mkDate 2025 1 12).

Definition kolkata_world : World :=
  mkWorld (mkDb [mkProfile "user-1" (Some "Asia/Kolkata")] [task_of_the_12th] [])
          initialState fresh_card [].

(** Scenario A, at 2025-01-13T06:00:00Z. *)
Definition scenarioA_env : Env :=
  mkEnv (instant 2025 1 13 6 0 0) zones (Some "user-1") None no_error no_error.

Definition scenarioA_world : World :=
  mkWorld (mkDb [mkProfile "user-1" (Some "Asia/Kolkata")] [scenarioA_task] [])
          initialState fresh_card [].

(** The user in Kolkata opens the page at 2025-01-12T19:00:00Z, which is
    00:30 on 13 January there; the task of Scenario A and the task of
    12 January are both pending. *)
Definition kolkata_after_midnight : Env :=
  mkEnv (instant 2025 1 12 19 0 0) zones (Some "user-1") None no_error no_error.

Definition kolkata_first_render : World :=
  mkWorld (mkDb [mkProfile "user-1" (Some "Asia/Kolkata")]
                [scenarioA_task; task_of_the_12th] [])
          initialState fresh_card [].

(** The task of Scenario A rolled to 12 January, the UTC date of that
    instant. *)
Definition scenarioA_rolled_in_UTC : Task :=
  mkTask "task-A" "user-1" "Evening walk" None
         (instant 2025 1 12 13 30 0) None None "pending" None 2
         (mkDate 2025 1 12) (mkDate 2025 1 10).

(** A user in New York on 2025-03-11 at 15:00Z, two days after the clocks
    went forward; one task is left over from 7 March, 19:00 EST, one is
    completed, one is for today. *)
Definition new_york_env : Env :=
  mkEnv (instant 2025 3 11 15 0 0) zones (Some "user-2") None no_error no_error.


Definition task_of_march_7 : Task :=
  mkTask "task-N" "user-2" "Call home" (Some "before dinner")
         (instant 2025 3 8 0 0 0) None None "pending" None 1
         (mkDate 2025 3 7) (mkDate 2025 3 6).

Definition task_done : Task :=
  mkTask "task-D" "user-2" "Pay rent" None
         (instant 2025 3 5 15 0 0) (Some (instant 2025 3 5 15 20 0)) (Some 20)
         "completed" None 2 (mkDate 2025 3 5) (mkDate 2025 3 3).

Definition task_for_today : Task :=
  mkTask "task-T" "user-2" "Gym" None
         (instant 2025 3 11 22 0 0) None None "pending" None 0
         (mkDate 2025 3 11) (mkDate 2025 3 11).

Definition new_york_world : World :=
  mkWorld (mkDb [mkProfile "user-2" (Some "America/New_York")]
                [task_of_march_7; task_done; task_for_today] [])
          (mkPage [] true "America/New_York") fresh_card [].

(** The same table at the first render of the page. *)
Definition new_york_first_render : World :=
  mkWorld (db new_york_world) initialState fresh_card [].

(** The task of 7 March rolled to 11 March at 19:00 in New York
    (23:00Z), and rolled to 11 March at 00:00Z, which in New York is
    20:00 on 10 March. *)
Definition task_of_march_7_at_19 : Task :=
  mkTask "task-N" "user-2" "Call home" (Some "before dinner")
         (instant 2025 3 11 23 0 0) None None "pending" None 5
         (mkDate 2025 3 11) (mkDate 2025 3 6).

Definition task_of_march_7_at_20 : Task :=
  mkTask "task-N" "user-2" "Call home" (Some "before dinner")
         (instant 2025 3 11 0 0 0) None None "pending" None 5
         (mkDate 2025 3 11) (mkDate 2025 3 6).

(** New York on 9 March 2025 at 15:00Z, the day the clocks went forward
    from 02:00 to 03:00; a task of 7 March, 02:30 EST, is still pending. *)
Definition new_york_change_day : Env :=
  mkEnv (instant 2025 3 9 15 0 0) zones (Some "user-2") None no_error no_error.

Definition task_at_half_past_two : Task :=
  mkTask "task-G" "user-2" "Night shift" None
         (instant 2025 3 7 7 30 0) None None "pending" None 0
         (mkDate 2025 3 7) (mkDate 2025 3 7).

Definition task_at_half_past_two_rolled : Task :=
  mkTask "task-G" "user-2" "Night shift" None
         (instant 2025 3 9 7 30 0) None None "pending" None 2
         (mkDate 2025 3 9) (mkDate 2025 3 7).

Definition change_day_world : World :=
  mkWorld (mkDb [mkProfile "user-2" (Some "America/New_York")]
                [task_at_half_past_two] [])
          (mkPage [] true "America/New_York") fresh_card [].

(** Sao Paulo in the summer of 2018-19: at 00:00 on 2018-11-04 the clocks
    went forward to 01:00 (03:00Z), so that day has no local midnight; at
    00:00 on 2019-02-17 they went back to 23:00 (02:00Z). *)
Definition America_Sao_Paulo : Zone :=
  fun t => if t <? instant 2018 11 4 3 0 0 then -180
           else if t <? instant 2019 2 17 2 0 0 then -120
           else -180.

Definition zones_of_brazil (name : string) : option Zone :=
  if String.eqb name "America/Sao_Paulo" then Some America_Sao_Paulo else None.

(** A user in Sao Paulo on 2018-11-05 at 13:00 local time (15:00Z); a task
    of the day before, 20:00 local time, is still pending. *)
Definition sao_paulo_env : Env :=
  mkEnv (instant 2018 11 5 15 0 0) zones_of_brazil (Some "user-3") None
        no_error no_error.

Definition task_of_november_4 : Task :=
  mkTask "task-S" "user-3" "Buy bread" None
         (instant 2018 11 4 22 0 0) None None "pending" None 0
         (mkDate 2018 11 4) (mkDate 2018 11 4).

Definition task_of_november_4_after : Task :=
  mkTask "task-S" "user-3" "Buy bread" None
         (instant 2018 11 5 22 0 0) None None "pending" None 0
         (mkDate 2018 11 5) (mkDate 2018 11 4).

Definition sao_paulo_world : World :=
  mkWorld (mkDb [mkProfile "user-3" (Some "America/Sao_Paulo")]
                [task_of_november_4] [])
          (mkPage [] true "America/Sao_Paulo") fresh_card [].

Definition photo : File := mkFile "proof.final.jpg" "...".

Definition storage_down : string -> option Error :=
  fun _ => Some (mkError "StorageError" "upload failed").

Definition new_york_storage_down : Env :=
  mkEnv (instant 2025 3 11 15 0 0) zones (Some "user-2") None no_error storage_down.

(** Two days after Scenario A. *)
Definition scenarioA_later : Env :=
  mkEnv (instant 2025 1 15 6 0 0) zones (Some "user-1") None no_error no_error.

Definition scenarioA_rolled_later : Task :=
  mkTask "task-A" "user-1" "Evening walk" None
         (instant 2025 1 15 13 30 0) None None "pending" None 5
         (mkDate 2025 1 15) (mkDate 2025 1 10).

(** A task of today that was completed after four missed days. *)
Definition task_done_late : Task :=
  mkTask "task-L" "user-2" "File taxes" None
         (instant 2025 3 11 14 0 0) (Some (instant 2025 3 11 14 45 0)) (Some 45)
         "completed" None 4 (mkDate 2025 3 11) (mkDate 2025 3 7).

Definition task_for_today_completed (imagePath : option string) : Task :=
  mkTask "task-T" "user-2" "Gym" None
         (instant 2025 3 11 22 0 0) (Some (instant 2025 3 11 23 30 0)) (Some 20)
         "completed" imagePath 0 (mkDate 2025 3 11) (mkDate 2025 3 11).

Definition permission_denied : Error := mkError "PostgrestError" "permission denied".
Definition failed_to_fetch : Error := mkError "FetchError" "Failed to fetch".

(** New York with a backend that refuses every update, one that refuses
    every query, and nobody signed in. *)
Definition new_york_read_only : Env :=
  mkEnv (instant 2025 3 11 15 0 0) zones (Some "user-2") None
        (fun _ => Some permission_denied) no_error.

Definition new_york_offline : Env :=
  mkEnv (instant 2025 3 11 15 0 0) zones (Some "user-2") (Some failed_to_fetch)
        no_error no_error.

Definition signed_out : Env :=
  mkEnv (instant 2025 3 11 15 0 0) zones None None no_error no_error.

(** The table with a row of another user in it. *)
Definition shared_world : World :=
  mkWorld (mkDb [mkProfile "user-2" (Some "America/New_York")]
                [task_of_march_7; task_of_the_12th; task_for_today] [])
          (mkPage [] true "America/New_York") fresh_card [].

(** Stand-ins for the helpers of [@/utils/taskDuration]. *)
Definition twenty_minutes : Z -> option Z -> string -> Error + Z :=
  fun _ _ _ => inr 20.

Definition invalid_time_value : Error := mkError "RangeError" "Invalid time value".

Definition helper_throws : Z -> option Z -> string -> Error + Z :=
  fun _ _ _ => inl invalid_time_value.

Definition in_minutes : Z -> string := fun m => show m ++ " min".

End Examples.

(** * Properties *)

(** ** Calendar arithmetic *)

Module CivilFacts.
Import Civil.

(** Year of era and day of year, as [civ_of_doe] finds them. *)
Lemma year_of_era_bounds doe :
  0 <= doe < 146097 ->
  let yoe := (doe - doe / 1460 + doe / 36524 - doe / 146096) / 365 in
  0 <= yoe < 400 /\ 0 <= doe - (365 * yoe + yoe / 4 - yoe / 100) <= 365.
Proof. intros H yoe. subst yoe. Z.to_euclidean_division_equations; lia. Qed.

Lemma month_index_bounds doy :
  0 <= doy <= 365 -> 0 <= (5 * doy + 2) / 153 <= 11.
Proof. intros H. Z.to_euclidean_division_equations; lia. Qed.

Lemma doe_of_civ_of_doe doe :
  0 <= doe < 146097 ->
  let '(yoe, m, d) := civ_of_doe doe in
  0 <= yoe < 400 /\ doe_of_civ yoe m d = doe.
Proof.
  intros H. unfold civ_of_doe.
  pose proof (year_of_era_bounds doe H) as [Hy Hdoy]. cbv zeta in Hy, Hdoy.
  set (yoe := (doe - doe / 1460 + doe / 36524 - doe / 146096) / 365) in *.
  set (doy := doe - (365 * yoe + yoe / 4 - yoe / 100)) in *.
  pose proof (month_index_bounds doy Hdoy) as Hmp.
  set (mp := (5 * doy + 2) / 153) in *.
  split; [exact Hy|]. unfold doe_of_civ.
  assert (Hm : ((if mp <? 10 then mp + 3 else mp - 9) + 9) mod 12 = mp).
  { destruct (mp <? 10) eqn:E.
    - replace (mp + 3 + 9) with (mp + 1 * 12) by lia.
      rewrite Z.mod_add by lia. apply Z.mod_small. lia.
    - apply Z.ltb_ge in E. replace (mp - 9 + 9) with mp by lia.
      apply Z.mod_small. lia. }
  rewrite Hm. subst doy. lia.
Qed.

(** [Date.UTC] undoes [getUTCFullYear]/[getUTCMonth]/[getUTCDate]. *)
Lemma days_from_civil_from_days z :
  days_from_civil (civil_from_days z) = z.
Proof.
  unfold civil_from_days.
  set (z' := z + 719468).
  set (era := z' / 146097).
  set (doe := z' - era * 146097).
  assert (Hdoe : 0 <= doe < 146097).
  { subst doe era. pose proof (Z.div_mod z' 146097 ltac:(lia)) as E.
    pose proof (Z.mod_pos_bound z' 146097 ltac:(lia)). lia. }
  pose proof (doe_of_civ_of_doe doe Hdoe) as Hok.
  destruct (civ_of_doe doe) as [[yoe m] d]. destruct Hok as [Hy Hd].
  unfold days_from_civil. cbn [year month day].
  assert (Hy' : (if m <=? 2
                 then (if m <=? 2 then yoe + era * 400 + 1 else yoe + era * 400) - 1
                 else (if m <=? 2 then yoe + era * 400 + 1 else yoe + era * 400))
                = yoe + era * 400) by (destruct (m <=? 2); lia).
  rewrite Hy'.
  assert (Hera : (yoe + era * 400) / 400 = era).
  { rewrite Z.div_add by lia. rewrite Z.div_small by lia. lia. }
  rewrite Hera.
  replace (yoe + era * 400 - era * 400) with yoe by lia.
  rewrite Hd. subst doe z'. lia.
Qed.

End CivilFacts.

(** ** luxon on a zone without a transition nearby *)

Module LuxonFacts.
Import Civil Luxon CivilFacts.

Lemma fixed_offset_settled (z : Zone) k :
  (forall t, z t = k) -> forall d, settled z d k.
Proof. intros H d t _. apply H. Qed.

Lemma days_from_civil_plus y m d n :
  days_from_civil (mkDate y m (d + n)) = days_from_civil (mkDate y m d) + n.
Proof. unfold days_from_civil, doe_of_civ. cbn [year month day]. lia. Qed.

Lemma objToLocalTS_tsToObj t off :
  objToLocalTS (tsToObj t off) = t + off * msPerMinute.
Proof.
  unfold objToLocalTS, tsToObj. cbn [c_year c_month c_day c_hour c_minute c_second c_millisecond].
  replace (mkDate (year (civil_from_days ((t + off * 60 * 1000) / msPerDay)))
                  (month (civil_from_days ((t + off * 60 * 1000) / msPerDay)))
                  (day (civil_from_days ((t + off * 60 * 1000) / msPerDay))))
    with (civil_from_days ((t + off * 60 * 1000) / msPerDay))
    by (destruct (civil_from_days _); reflexivity).
  rewrite days_from_civil_from_days.
  unfold msPerDay, msPerMinute. Z.to_euclidean_division_equations. lia.
Qed.

Lemma objToLocalTS_midnight t off :
  objToLocalTS (mkObj (c_year (tsToObj t off)) (c_month (tsToObj t off))
                      (c_day (tsToObj t off)) 0 0 0 0)
  = (t + off * msPerMinute) / msPerDay * msPerDay.
Proof.
  unfold objToLocalTS, tsToObj. cbn [c_year c_month c_day c_hour c_minute c_second c_millisecond].
  replace (mkDate (year (civil_from_days ((t + off * 60 * 1000) / msPerDay)))
                  (month (civil_from_days ((t + off * 60 * 1000) / msPerDay)))
                  (day (civil_from_days ((t + off * 60 * 1000) / msPerDay))))
    with (civil_from_days ((t + off * 60 * 1000) / msPerDay))
    by (destruct (civil_from_days _); reflexivity).
  rewrite days_from_civil_from_days.
  unfold msPerMinute. replace (off * 60 * 1000) with (off * 60000) by lia. lia.
Qed.

Lemma on_day_div t k d : on_day t k d -> (t + k * msPerMinute) / msPerDay = d.
Proof.
  unfold on_day, msPerDay. intros H.
  symmetry. apply Z.div_unique with (r := t + k * msPerMinute - d * 86400000); lia.
Qed.

(** [fixOffset] finds the instant whose local time is [l] when the zone
    is settled around the day of [l] and the guess is not off by more
    than a day. *)
Lemma fixOffset_settled z d k l o0 :
  settled z d k ->
  d * msPerDay <= l < (d + 1) * msPerDay ->
  -1440 <= k - o0 <= 1440 ->
  fixOffset l o0 z = (l - k * msPerMinute, k).
Proof.
  intros Hs Hl Ho. unfold fixOffset.
  assert (H2 : z (l - o0 * 60 * 1000) = k).
  { apply Hs. unfold msPerDay, msPerMinute in *. lia. }
  assert (H3 : z (l - k * 60 * 1000) = k).
  { apply Hs. unfold msPerDay, msPerMinute in *. lia. }
  cbv zeta. rewrite H2.
  destruct (o0 =? k) eqn:E.
  - apply Z.eqb_eq in E. subst o0. f_equal. unfold msPerMinute. lia.
  - replace (l - o0 * 60 * 1000 - (k - o0) * 60 * 1000) with (l - k * 60 * 1000) by lia.
    rewrite H3, Z.eqb_refl. f_equal. unfold msPerMinute. lia.
Qed.

Lemma fixOffset_probes l o z :
  exists k, probed_offset z o l k /\ fst (fixOffset l o z) = l - k * msPerMinute.
Proof.
  unfold fixOffset, probed_offset. cbv zeta.
  set (o2 := z (l - o * 60 * 1000)).
  replace (l - o * 60 * 1000 - (o2 - o) * 60 * 1000) with (l - o2 * 60 * 1000) by lia.
  set (o3 := z (l - o2 * 60 * 1000)).
  destruct (o =? o2) eqn:E1.
  - exists o. split; [left; reflexivity|]. cbn [fst]. unfold msPerMinute. lia.
  - destruct (o2 =? o3) eqn:E2.
    + exists o2. split; [right; left; reflexivity|]. cbn [fst]. unfold msPerMinute. lia.
    + exists (Z.min o2 o3). split; [|cbn [fst]; unfold msPerMinute; lia].
      destruct (Z.min_spec o2 o3) as [[_ ->]|[_ ->]]; auto.
Qed.

Lemma zone_startOfDay dt : zone (startOfDay dt) = zone dt.
Proof.
  unfold startOfDay. destruct (objToTS _ (o dt) (zone dt)) as [ts' o'].
  unfold clone. destruct (ts' =? ts dt); reflexivity.
Qed.

Lemma settled_at z d k t :
  settled z d k -> on_day t k d -> z t = k.
Proof. intros Hs Ht. apply Hs. unfold on_day, msPerDay in *. lia. Qed.

(** [DateTime.now().setZone(z).startOf('day')] *)
Lemma startOfDay_now z d k clock :
  settled z d k -> on_day clock k d ->
  startOfDay (setZone (now clock) z) = mkDT (d * msPerDay - k * msPerMinute) z k.
Proof.
  intros Hs Hc. pose proof (settled_at _ _ _ _ Hs Hc) as Hk.
  unfold startOfDay, setZone, now, c, objToTS. cbn [ts zone o]. rewrite Hk.
  rewrite objToLocalTS_midnight, (on_day_div _ _ _ Hc).
  rewrite (fixOffset_settled z d k) by (auto; unfold msPerDay; lia).
  unfold clone. cbn [ts zone o].
  destruct (d * msPerDay - k * msPerMinute =? clock) eqn:E.
  - apply Z.eqb_eq in E. rewrite E. reflexivity.
  - f_equal. apply Hs. unfold msPerDay, msPerMinute. lia.
Qed.

Lemma toFormat_date_at_midnight z d k :
  toFormat_date (mkDT (d * msPerDay - k * msPerMinute) z k) = civil_from_days d.
Proof.
  unfold toFormat_date, c, tsToObj. cbn [ts o c_year c_month c_day].
  replace ((d * msPerDay - k * msPerMinute + k * 60 * 1000) / msPerDay) with d.
  - destruct (civil_from_days d); reflexivity.
  - unfold msPerMinute. replace (d * msPerDay - k * 60000 + k * 60 * 1000) with (d * msPerDay) by lia.
    unfold msPerDay. rewrite Z.div_mul; lia.
Qed.

(** [DateTime.fromISO(date, { zone })] *)
Lemma fromISO_date_settled z clock dt k :
  settled z (days_from_civil dt) k ->
  -1440 <= k - z clock <= 1440 ->
  fromISO_date clock dt z
  = mkDT (days_from_civil dt * msPerDay - k * msPerMinute) z k.
Proof.
  intros Hs Hk. unfold fromISO_date, fromObject, objToTS.
  assert (E : objToLocalTS (mkObj (year dt) (month dt) (day dt) 0 0 0 0)
              = days_from_civil dt * msPerDay).
  { unfold objToLocalTS. cbn [c_year c_month c_day c_hour c_minute c_second c_millisecond].
    destruct dt; cbn [year month day]. lia. }
  rewrite E.
  rewrite (fixOffset_settled z (days_from_civil dt) k) by (auto; unfold msPerDay; lia).
  reflexivity.
Qed.

Lemma utcDayStart_spec dt :
  utcDayStart dt = (ts dt + o dt * msPerMinute) / msPerDay * msPerDay.
Proof.
  unfold utcDayStart, setZoneKeepLocalTime, objToTS, c.
  rewrite objToLocalTS_tsToObj.
  assert (F : forall l, fixOffset l 0 utcInstance = (l, 0)).
  { intros l. unfold fixOffset, utcInstance. cbn. f_equal. lia. }
  change (utcInstance (ts dt)) with 0. rewrite F.
  unfold startOfDay, c, objToTS. cbn [ts zone o].
  change (utcInstance (ts dt + o dt * msPerMinute)) with 0.
  rewrite objToLocalTS_midnight, F. unfold clone, valueOf. cbn [ts zone o].
  replace (ts dt + o dt * msPerMinute + 0 * msPerMinute)
    with (ts dt + o dt * msPerMinute) by lia.
  destruct (_ =? _) eqn:E; cbn [ts]; [apply Z.eqb_eq in E; lia | reflexivity].
Qed.

Lemma plusDays_settled z d k inst n :
  zone inst = z ->
  settled z d k ->
  (ts inst + o inst * msPerMinute) + n * msPerDay = d * msPerDay ->
  -1440 <= k - o inst <= 1440 ->
  ts (plusDays inst n) = d * msPerDay - k * msPerMinute.
Proof.
  intros Hz Hs Hl Ho. unfold plusDays.
  assert (E : objToLocalTS
                (mkObj (c_year (c inst)) (c_month (c inst)) (c_day (c inst) + n)
                       (c_hour (c inst)) (c_minute (c inst)) (c_second (c inst))
                       (c_millisecond (c inst)))
              = objToLocalTS (c inst) + n * msPerDay).
  { unfold objToLocalTS. cbn [c_year c_month c_day c_hour c_minute c_second c_millisecond].
    rewrite days_from_civil_plus. lia. }
  rewrite E. unfold c at 1. rewrite objToLocalTS_tsToObj, Hl, Hz.
  rewrite (fixOffset_settled z d k) by (auto; unfold msPerDay; lia).
  unfold clone. destruct (_ =? _) eqn:E'; cbn [ts]; [apply Z.eqb_eq in E'; lia | reflexivity].
Qed.

Lemma diff_settled z D k Dt k' :
  settled z D k -> Dt < D -> -1440 <= k - k' <= 1440 ->
  floorDays (diff (mkDT (D * msPerDay - k * msPerMinute) z k)
                  (mkDT (Dt * msPerDay - k' * msPerMinute) z k'))
  = D - Dt.
Proof.
  intros Hs Hlt Hk.
  set (today := mkDT (D * msPerDay - k * msPerMinute) z k).
  set (other := mkDT (Dt * msPerDay - k' * msPerMinute) z k').
  assert (Hhw : ts (plusDays other (D - Dt)) = ts today).
  { subst today. cbn [ts]. apply (plusDays_settled z D k); auto;
      subst other; cbn [ts o zone]; unfold msPerDay, msPerMinute; lia. }
  assert (Hdd : dayDiff other today = D - Dt).
  { unfold dayDiff. rewrite !utcDayStart_spec. subst today other. cbn [ts o].
    replace (D * msPerDay - k * msPerMinute + k * msPerMinute) with (D * msPerDay) by lia.
    replace (Dt * msPerDay - k' * msPerMinute + k' * msPerMinute) with (Dt * msPerDay) by lia.
    unfold msPerDay. rewrite !Z.div_mul by lia.
    replace (D * 86400000 - Dt * 86400000) with ((D - Dt) * 86400000) by lia.
    apply Z.div_mul. lia. }
  unfold diff, valueOf.
  assert (Hcmp : (ts other >? ts today) = false).
  { subst today other. cbn [ts]. rewrite Z.gtb_ltb. apply Z.ltb_ge.
    unfold msPerDay, msPerMinute. lia. }
  rewrite Hcmp. unfold diffImpl, highOrderDiffs, valueOf. rewrite Hdd, Hhw.
  assert (Hgt : (ts today >? ts today) = false) by (rewrite Z.gtb_ltb; apply Z.ltb_irrefl).
  rewrite Hgt, Hhw, Z.ltb_irrefl. unfold floorDays. cbn [whole num den].
  rewrite Z.div_0_l by lia. lia.
Qed.

(** The wall clock put back on another day. *)
Lemma wall_clock_rebuilt r D :
  0 <= r < msPerDay ->
  let T := D * msPerDay + r / 3600000 * 3600000 + (r / 60000) mod 60 * 60000
           + (r / 1000) mod 60 * 1000 + 0 in
  D * msPerDay <= T < (D + 1) * msPerDay
  /\ (T mod msPerDay) / 3600000 = r / 3600000
  /\ ((T mod msPerDay) / 60000) mod 60 = (r / 60000) mod 60
  /\ ((T mod msPerDay) / 1000) mod 60 = (r / 1000) mod 60
  /\ (T mod msPerDay) mod 1000 = 0.
Proof.
  intros Hr T.
  assert (HT : T = D * msPerDay + r / 1000 * 1000).
  { subst T. unfold msPerDay in *. Z.to_euclidean_division_equations. lia. }
  assert (Hin : D * msPerDay <= T < (D + 1) * msPerDay).
  { rewrite HT. unfold msPerDay in *. Z.to_euclidean_division_equations. lia. }
  assert (Hmod : T mod msPerDay = r / 1000 * 1000).
  { symmetry. apply Z.mod_unique with (q := D); [left|]; unfold msPerDay in *; lia. }
  split; [exact Hin|]. rewrite Hmod. clear. 
  repeat split; Z.to_euclidean_division_equations; lia.
Qed.

End LuxonFacts.

(** ** The reconciliation pass, row by row *)

Module PassFacts.
Import Civil Luxon Timezone Supabase React Tasks Pass CivilFacts LuxonFacts.

Lemma or_zero_id n : or_zero n = n.
Proof. unfold or_zero. destruct (n =? 0) eqn:E; [apply Z.eqb_eq in E; lia | reflexivity]. Qed.

Lemma arrive_id env u key t : id (arrive env u key t) = id t.
Proof.
  unfold arrive. destruct (update_error env key); [reflexivity|].
  destruct (String.eqb (id t) key); reflexivity.
Qed.

Lemma send_update_spec env u key w :
  send_update env u key w
  = (mkWorld (mkDb (profiles (db w)) (map (arrive env u key) (tasks (db w)))
                   (task_images (db w)))
             (page w) (card w) (events w), inr (update_error env key)).
Proof.
  unfold send_update, update_task, arrive.
  destruct w as [[ps ts imgs] pg cd ev]. cbn [db page card events profiles tasks task_images].
  destruct (update_error env key); [|reflexivity].
  rewrite map_id. reflexivity.
Qed.

(** The requests of a pass leave everything but the task rows alone, and
    each row sees them one after the other. *)
Lemma Promise_all_updates env payload pending :
  forall w, exists errs,
    Promise_all (map (fun task => send_update env (payload task) (id task)) pending) w
    = (mkWorld (mkDb (profiles (db w))
                     (map (arrive_all env payload pending) (tasks (db w)))
                     (task_images (db w)))
               (page w) (card w) (events w), inr errs).
Proof.
  induction pending as [|p rest IH]; intros w.
  - exists []. cbn. unfold ret. rewrite map_id.
    destruct w as [[ps ts imgs] pg cd ev]; reflexivity.
  - cbn [map Promise_all]. unfold bind at 1. rewrite send_update_spec.
    set (w1 := mkWorld _ _ _ _). destruct (IH w1) as [errs Hrest].
    unfold bind at 1. rewrite Hrest. exists (update_error env (id p) :: errs).
    unfold ret. subst w1. cbn [db page card events profiles tasks task_images].
    do 3 f_equal. rewrite map_map. apply map_ext. intros t. reflexivity.
Qed.

Lemma arrive_all_cons env payload p rest t :
  arrive_all env payload (p :: rest) t
  = arrive_all env payload rest (arrive env (payload p) (id p) t).
Proof. reflexivity. Qed.

Lemma arrive_all_other env payload pending :
  forall t, (forall p, In p pending -> id p <> id t) ->
            arrive_all env payload pending t = t.
Proof.
  induction pending as [|p rest IH]; intros t H; [reflexivity|].
  rewrite arrive_all_cons.
  assert (E : arrive env (payload p) (id p) t = t).
  { unfold arrive. destruct (update_error env (id p)); [reflexivity|].
    destruct (String.eqb (id t) (id p)) eqn:E; [|reflexivity].
    apply String.eqb_eq in E. exfalso. apply (H p); [left; reflexivity | congruence]. }
  rewrite E. apply IH. intros q Hq. apply H. right. exact Hq.
Qed.

Lemma same_id_same_row (rows : list Task) :
  NoDup (map id rows) ->
  forall a b, In a rows -> In b rows -> id a = id b -> a = b.
Proof.
  induction rows as [|x r IH]; intros Hnd a b Ha Hb E; [destruct Ha|].
  cbn [map] in Hnd. inversion Hnd as [|? ? Hx Hr]; subst.
  destruct Ha as [->|Ha], Hb as [->|Hb]; auto.
  - exfalso. apply Hx. rewrite E. apply in_map. exact Hb.
  - exfalso. apply Hx. rewrite <- E. apply in_map. exact Ha.
Qed.

Lemma arrive_all_self env payload pending :
  NoDup (map id pending) ->
  forall t, In t pending ->
  arrive_all env payload pending t
  = match update_error env (id t) with
    | Some _ => t
    | None => apply_update (payload t) t
    end.
Proof.
  induction pending as [|p rest IH]; intros Hnd t Hin; [destruct Hin|].
  cbn [map] in Hnd. inversion Hnd as [|? ? Hp Hr]; subst.
  rewrite arrive_all_cons.
  destruct Hin as [->|Hin].
  - rewrite arrive_all_other.
    + unfold arrive. destruct (update_error env (id t)); [reflexivity|].
      rewrite String.eqb_refl. reflexivity.
    + intros q Hq E. rewrite arrive_id in E. apply Hp. rewrite <- E.
      apply in_map. exact Hq.
  - assert (Hne : id t <> id p).
    { intros E. apply Hp. rewrite <- E. apply in_map. exact Hin. }
    assert (E : arrive env (payload p) (id p) t = t).
    { unfold arrive. destruct (update_error env (id p)); [reflexivity|].
      destruct (String.eqb (id t) (id p)) eqn:E; [|reflexivity].
      apply String.eqb_eq in E. contradiction. }
    rewrite E. apply IH; assumption.
Qed.

Lemma NoDup_map_filter {A B} (f : A -> B) (p : A -> bool) l :
  NoDup (map f l) -> NoDup (map f (filter p l)).
Proof.
  induction l as [|x r IH]; intros H; [constructor|].
  cbn [map] in H. inversion H as [|? ? Hx Hr]; subst.
  cbn [filter]. destruct (p x); [|auto].
  cbn [map]. constructor; [|auto].
  intros Hin. apply Hx. apply in_map_iff in Hin as [y [Ey Hy]].
  apply filter_In in Hy as [Hy _]. rewrite <- Ey. apply in_map. exact Hy.
Qed.

Lemma arrive_all_rolled env todayStart today user rows :
  NoDup (map id rows) ->
  forall t, In t rows ->
  arrive_all env (rollover env todayStart today) (filter (candidate user today) rows) t
  = rolled env todayStart today user t.
Proof.
  intros Hnd t Hin. unfold rolled.
  destruct (candidate user today t) eqn:Ec.
  - apply arrive_all_self.
    + apply NoDup_map_filter. exact Hnd.
    + apply filter_In. split; assumption.
  - apply arrive_all_other. intros p Hp E.
    apply filter_In in Hp as [Hp Hc].
    assert (p = t) by (apply (same_id_same_row rows); assumption).
    subst p. congruence.
Qed.

(** What one pass does to the database. *)
Lemma pass_db env userTimezone w :
  NoDup (map id (tasks (db w))) ->
  db (run (carryForwardTasks env userTimezone) w)
  = match session env, select_error env,
          startOfTodayInZone (tzdb env) (clock env) userTimezone with
    | Some user, None, Some todayStart =>
        mkDb (profiles (db w))
             (map (rolled env todayStart (toFormat_date todayStart) user)
                  (tasks (db w)))
             (task_images (db w))
    | _, _, _ => db w
    end.
Proof.
  intros Hnd. unfold run, carryForwardTasks, try_catch.
  destruct (session env) as [user|]; [|reflexivity].
  unfold bind at 1. unfold get_db at 1. unfold select_pending_before.
  destruct (select_error env) as [e|]; [reflexivity|].
  destruct (startOfTodayInZone (tzdb env) (clock env) userTimezone) as [todayStart|];
    [|reflexivity].
  cbn [option_map].
  set (today := toFormat_date todayStart).
  pose proof (arrive_all_rolled env todayStart today user (tasks (db w)) Hnd) as Hrows.
  fold (candidate user today) in *.
  change (fun t : Task =>
            (String.eqb (user_id t) user && String.eqb (status t) "pending"
             && date_ltb (task_date t) today)%bool)
    with (candidate user today).
  destruct (filter (candidate user today) (tasks (db w))) as [|p rest] eqn:Ef.
  - cbn. destruct w as [[ps ts imgs] pg cd ev]. cbn [db profiles tasks task_images] in *.
    f_equal. symmetry. rewrite <- (map_id ts) at 2. apply map_ext_in.
    intros t Ht. rewrite <- (Hrows t Ht). reflexivity.
  - unfold bind at 1.
    destruct (Promise_all_updates env (rollover env todayStart today) (p :: rest) w)
      as [errs Hall].
    rewrite Hall. unfold ret. cbn [fst db]. f_equal.
    apply map_ext_in. intros t Ht. apply Hrows. exact Ht.
Qed.

(** A pass touches neither the page state nor the card state. *)
Lemma pass_page env userTimezone w :
  page (run (carryForwardTasks env userTimezone) w) = page w.
Proof.
  unfold run, carryForwardTasks, try_catch.
  destruct (session env) as [user|]; [|reflexivity].
  unfold bind at 1. unfold get_db at 1.
  destruct (select_pending_before env (db w) user _) as [e|pending]; [reflexivity|].
  destruct (startOfTodayInZone (tzdb env) (clock env) userTimezone) as [todayStart|];
    [|reflexivity].
  cbn [option_map]. destruct pending as [|p rest]; [reflexivity|].
  unfold bind at 1.
  destruct (Promise_all_updates env
              (rollover env todayStart (toFormat_date todayStart)) (p :: rest) w)
    as [errs Hall].
  rewrite Hall. reflexivity.
Qed.

Lemma date_eta d : mkDate (year d) (month d) (day d) = d.
Proof. destruct d; reflexivity. Qed.

(** The new start instant in any zone: the wanted wall clock minus one of
    the offsets luxon probes. *)
Lemma new_start_probed z clock today tod :
  exists k,
    probed_offset z (z clock)
      (objToLocalTS (mkObj (year today) (month today) (day today)
                           (hour tod) (minute tod) (second tod) 0)) k
    /\ toISO (toUTC (fromFormat clock today tod z)) = wall_clock_instant today tod k.
Proof.
  unfold toISO, toUTC, setZone, fromFormat, fromObject, objToTS, wall_clock_instant.
  set (l := objToLocalTS _).
  destruct (fixOffset_probes l (z clock) z) as (k & Hk & E).
  exists k. split; [exact Hk|].
  destruct (fixOffset l (z clock) z) as [tsFinal offsetFinal]. exact E.
Qed.

(** The new start instant on a settled day: today's date, the old wall
    clock, today's offset. *)
Lemma new_start_settled z D k clock s :
  settled z D k -> on_day clock k D ->
  let tod := local_time z s in
  let new := toISO (toUTC (fromFormat clock (civil_from_days D) tod z)) in
  new = wall_clock_instant (civil_from_days D) tod k
  /\ z new = k
  /\ local_date z new = civil_from_days D
  /\ local_time z new = tod.
Proof.
  intros Hs Hc tod new.
  pose proof (settled_at _ _ _ _ Hs Hc) as Hk.
  set (r := (s + z s * 60 * 1000) mod msPerDay).
  assert (Hr : 0 <= r < msPerDay) by (apply Z.mod_pos_bound; unfold msPerDay; lia).
  assert (Htod : tod = mkTime (r / 3600000) ((r / 60000) mod 60) ((r / 1000) mod 60))
    by reflexivity.
  destruct (wall_clock_rebuilt r D Hr) as (Hin & Hh & Hm & Hsec & Hms).
  set (T := D * msPerDay + r / 3600000 * 3600000 + (r / 60000) mod 60 * 60000
            + (r / 1000) mod 60 * 1000 + 0) in *.
  assert (HL : objToLocalTS
                 (mkObj (year (civil_from_days D)) (month (civil_from_days D))
                        (day (civil_from_days D)) (hour tod) (minute tod) (second tod) 0)
               = T).
  { unfold objToLocalTS. cbn [c_year c_month c_day c_hour c_minute c_second c_millisecond].
    rewrite date_eta, days_from_civil_from_days, Htod. reflexivity. }
  assert (Hnew : new = T - k * msPerMinute).
  { subst new. unfold toISO, toUTC, setZone, fromFormat, fromObject, objToTS.
    rewrite HL, Hk.
    rewrite (fixOffset_settled z D k) by (auto; lia). reflexivity. }
  assert (Hz : z new = k).
  { apply Hs. rewrite Hnew. unfold msPerDay in *. lia. }
  assert (HT : new + k * 60 * 1000 = T) by (rewrite Hnew; unfold msPerMinute; lia).
  split; [unfold wall_clock_instant; rewrite HL; exact Hnew|].
  split; [exact Hz|].
  assert (HTd : T / msPerDay = D).
  { symmetry. apply Z.div_unique with (r := T - D * msPerDay); unfold msPerDay in *; lia. }
  split.
  - unfold local_date, toFormat_date, setZone, fromISO_instant, c, tsToObj.
    cbn [ts o c_year c_month c_day]. rewrite Hz, HT, HTd. apply date_eta.
  - unfold local_time, toFormat_time, setZone, fromISO_instant, c, tsToObj.
    cbn [ts o c_hour c_minute c_second]. rewrite Hz, HT, Hh, Hm, Hsec. symmetry. exact Htod.
Qed.

(** The payload of a rollover on a settled day. *)
Lemma rollover_settled env z D k t :
  settled z D k -> on_day (clock env) k D ->
  calm z k (days_from_civil (task_date t)) ->
  days_from_civil (task_date t) < D ->
  rollover env (mkDT (D * msPerDay - k * msPerMinute) z k) (civil_from_days D) t
  = mkUpdate (Some (civil_from_days D))
             (Some (wall_clock_instant (civil_from_days D)
                                       (local_time z (start_time t)) k))
             (Some (consecutive_missed_days t + (D - days_from_civil (task_date t))))
             None None None None.
Proof.
  intros Hs Hc (k' & Hs' & Hk') Hlt.
  pose proof (settled_at _ _ _ _ Hs Hc) as Hk.
  destruct (new_start_settled z D k (clock env) (start_time t) Hs Hc) as (Hnew & _).
  unfold rollover. cbn [zone].
  rewrite (fromISO_date_settled z (clock env) (task_date t) k') by (auto; lia).
  rewrite (diff_settled z D k (days_from_civil (task_date t)) k') by (auto; lia).
  rewrite or_zero_id.
  fold (local_time z (start_time t)). cbv zeta in Hnew. rewrite Hnew. reflexivity.
Qed.

Lemma today_settled env userTimezone z D k :
  normalizeZone (tzdb env) userTimezone = Some z ->
  settled z D k -> on_day (clock env) k D ->
  startOfTodayInZone (tzdb env) (clock env) userTimezone
  = Some (mkDT (D * msPerDay - k * msPerMinute) z k)
  /\ resolved_today env userTimezone = Some (civil_from_days D).
Proof.
  intros Hz Hs Hc.
  assert (E : startOfTodayInZone (tzdb env) (clock env) userTimezone
              = Some (mkDT (D * msPerDay - k * msPerMinute) z k)).
  { unfold startOfTodayInZone. rewrite Hz. f_equal. apply startOfDay_now; assumption. }
  split; [exact E|].
  unfold resolved_today. rewrite E. cbn [option_map]. f_equal.
  apply toFormat_date_at_midnight.
Qed.

(** The row at each position after a pass. *)
Lemma pass_row_any env userTimezone z user w i t :
  session env = Some user -> select_error env = None ->
  normalizeZone (tzdb env) userTimezone = Some z ->
  NoDup (map id (tasks (db w))) ->
  nth_error (tasks (db w)) i = Some t ->
  let todayStart := startOfDay (setZone (now (clock env)) z) in
  resolved_today env userTimezone = Some (toFormat_date todayStart)
  /\ nth_error (tasks (db (run (carryForwardTasks env userTimezone) w))) i
     = Some (rolled env todayStart (toFormat_date todayStart) user t).
Proof.
  intros Hu Hsel Hz Hnd Hi todayStart.
  assert (Ets : startOfTodayInZone (tzdb env) (clock env) userTimezone = Some todayStart).
  { unfold startOfTodayInZone. rewrite Hz. reflexivity. }
  split; [unfold resolved_today; rewrite Ets; reflexivity|].
  rewrite (pass_db env userTimezone w Hnd), Hu, Hsel, Ets. cbn [tasks].
  rewrite nth_error_map, Hi. reflexivity.
Qed.

(** The row at each position after a pass on a settled day. *)
Lemma pass_row env userTimezone z D k user w i t :
  session env = Some user -> select_error env = None ->
  normalizeZone (tzdb env) userTimezone = Some z ->
  settled z D k -> on_day (clock env) k D ->
  NoDup (map id (tasks (db w))) ->
  nth_error (tasks (db w)) i = Some t ->
  nth_error (tasks (db (run (carryForwardTasks env userTimezone) w))) i
  = Some (rolled env (mkDT (D * msPerDay - k * msPerMinute) z k)
                 (civil_from_days D) user t).
Proof.
  intros Hu Hsel Hz Hs Hc Hnd Hi.
  destruct (today_settled env userTimezone z D k Hz Hs Hc) as [Ets _].
  rewrite (pass_db env userTimezone w Hnd), Hu, Hsel, Ets. cbn [tasks].
  rewrite toFormat_date_at_midnight.
  rewrite nth_error_map, Hi. reflexivity.
Qed.

Lemma rolled_id env todayStart today user t :
  id (rolled env todayStart today user t) = id t.
Proof.
  unfold rolled. destruct (candidate user today t); [|reflexivity].
  destruct (update_error env (id t)); reflexivity.
Qed.

Lemma rolled_not_candidate env todayStart today user t :
  candidate user today t = false -> rolled env todayStart today user t = t.
Proof. intros H. unfold rolled. rewrite H. reflexivity. Qed.

(** Once rolled, a row is no candidate on the same day. *)
Lemma candidate_after_roll env todayStart today user t :
  update_error env (id t) = None ->
  candidate user today (rolled env todayStart today user t) = false.
Proof.
  intros Hupd. unfold rolled.
  destruct (candidate user today t) eqn:Ec; [|exact Ec].
  rewrite Hupd. unfold candidate, date_ltb.
  cbn [apply_update rollover task_date override set_task_date].
  rewrite Z.ltb_irrefl. apply andb_false_r.
Qed.

Lemma Forall2_map_rows {A} (R : A -> A -> Prop) (f : A -> A) l :
  (forall x, In x l -> R x (f x)) -> Forall2 R l (map f l).
Proof.
  induction l as [|x r IH]; intros H; cbn [map]; constructor.
  - apply H. left. reflexivity.
  - apply IH. intros y Hy. apply H. right. exact Hy.
Qed.

Lemma Forall2_same {A} (R : A -> A -> Prop) l :
  (forall x, In x l -> R x x) -> Forall2 R l l.
Proof.
  intros H. rewrite <- (map_id l) at 2. apply Forall2_map_rows. exact H.
Qed.

(** In every case a pass maps the rows one by one. *)
Lemma pass_rows_cases env userTimezone w :
  NoDup (map id (tasks (db w))) ->
  tasks (db (run (carryForwardTasks env userTimezone) w)) = tasks (db w)
  \/ exists user todayStart,
       session env = Some user /\ select_error env = None
       /\ startOfTodayInZone (tzdb env) (clock env) userTimezone = Some todayStart
       /\ tasks (db (run (carryForwardTasks env userTimezone) w))
          = map (rolled env todayStart (toFormat_date todayStart) user) (tasks (db w)).
Proof.
  intros Hnd. rewrite (pass_db env userTimezone w Hnd).
  destruct (session env) as [user|]; [|left; reflexivity].
  destruct (select_error env); [left; reflexivity|].
  destruct (startOfTodayInZone (tzdb env) (clock env) userTimezone) as [todayStart|];
    [|left; reflexivity].
  right. exists user, todayStart. repeat split; reflexivity.
Qed.

Lemma civil_from_days_inj a b : civil_from_days a = civil_from_days b -> a = b.
Proof.
  intros H. apply (f_equal days_from_civil) in H.
  rewrite !days_from_civil_from_days in H. exact H.
Qed.

(** In a zone of one fixed offset every instant falls on a settled day. *)
Lemma fixed_offset_today (z : Zone) c clock :
  (forall t, z t = c) ->
  let D := (clock + c * msPerMinute) / msPerDay in
  settled z D c /\ on_day clock c D.
Proof.
  intros Hz D. split; [apply fixed_offset_settled; exact Hz|].
  subst D. unfold on_day, msPerDay. 
  pose proof (Z.div_mod (clock + c * msPerMinute) 86400000 ltac:(lia)).
  pose proof (Z.mod_pos_bound (clock + c * msPerMinute) 86400000 ltac:(lia)). lia.
Qed.

End PassFacts.

(** ** The sample zones *)

Module ExamplesFacts.
Import Civil Luxon Timezone Supabase React Tasks Pass Completion Examples LuxonFacts.

Lemma new_york_winter d : d <= 20154 -> settled America_New_York d (-300).
Proof.
  intros Hd t Ht. unfold America_New_York.
  change (instant 2025 3 9 7 0 0) with 1741503600000.
  unfold msPerDay, msPerMinute in Ht.
  replace (t <? 1741503600000) with true by (symmetry; apply Z.ltb_lt; lia).
  reflexivity.
Qed.

Lemma new_york_summer d : 20158 <= d <= 20392 -> settled America_New_York d (-240).
Proof.
  intros Hd t Ht. unfold America_New_York.
  change (instant 2025 3 9 7 0 0) with 1741503600000.
  change (instant 2025 11 2 6 0 0) with 1762063200000.
  unfold msPerDay, msPerMinute in Ht.
  replace (t <? 1741503600000) with false by (symmetry; apply Z.ltb_ge; lia).
  replace (t <? 1762063200000) with true by (symmetry; apply Z.ltb_lt; lia).
  reflexivity.
Qed.

Lemma new_york_rows_distinct : NoDup (map id (tasks (db new_york_world))).
Proof.
  cbn. repeat (constructor; [cbn; intuition discriminate|]). constructor.
Qed.

End ExamplesFacts.

(** ** The claims about the reconciliation pass *)

Module PassClaims.
Import Civil Luxon Timezone Supabase React Tasks Pass Examples.
Import CivilFacts LuxonFacts PassFacts ExamplesFacts.

(** X27.  The rollover of one overdue task.  For a pending task of the
    signed-in user dated before today (the date the pass resolves) whose
    update the backend accepts, the row afterwards is dated today, its
    start_time is rebuilt from today's date and the old local time of day,
    and its counter is the old value plus [daysMissed], the floor of
    luxon's difference in days between the start of today and the old
    date.  Where the zone has no offset transition within a day of today
    or of the old date, [daysMissed] is the number of local calendar days
    from the old date to today, at least 1, and the new start_time shows
    today's date and the old wall-clock time. *)
Theorem carry_forward_rolls_overdue_task :
  forall env userTimezone z user w i t,
    session env = Some user -> select_error env = None ->
    update_error env (id t) = None ->
    normalizeZone (tzdb env) userTimezone = Some z ->
    NoDup (map id (tasks (db w))) ->
    nth_error (tasks (db w)) i = Some t ->
    user_id t = user -> status t = "pending" ->
    let todayStart := startOfDay (setZone (now (clock env)) z) in
    let today := toFormat_date todayStart in
    let daysMissed :=
      floorDays (diff todayStart (fromISO_date (clock env) (task_date t) z)) in
    date_ltb (task_date t) today = true ->
    resolved_today env userTimezone = Some today
    /\ exists t',
         nth_error (tasks (db (run (carryForwardTasks env userTimezone) w))) i = Some t'
         /\ task_date t' = today
         /\ start_time t'
            = toISO (toUTC (fromFormat (clock env) today
                                       (local_time z (start_time t)) z))
         /\ consecutive_missed_days t' = consecutive_missed_days t + daysMissed
         /\ forall D k,
              settled z D k -> on_day (clock env) k D ->
              calm z k (days_from_civil (task_date t)) ->
              today = civil_from_days D
              /\ daysMissed = days_from_civil today - days_from_civil (task_date t)
              /\ 1 <= daysMissed
              /\ local_date z (start_time t') = today
              /\ local_time z (start_time t') = local_time z (start_time t).
Proof.
  intros env userTimezone z user w i t Hu Hsel Hupd Hz Hnd Hi Huser Hst
         todayStart today daysMissed Hlt.
  destruct (pass_row_any env userTimezone z user w i t Hu Hsel Hz Hnd Hi)
    as [Htoday Hrow].
  split; [exact Htoday|].
  exists (rolled env todayStart today user t). split; [exact Hrow|].
  unfold rolled, candidate. rewrite Huser, Hst, !String.eqb_refl, Hlt, Hupd.
  cbn [andb apply_update override rollover set_task_date set_start_time
       set_consecutive_missed_days task_date start_time consecutive_missed_days].
  rewrite or_zero_id.
  assert (Hzone : zone todayStart = z) by apply zone_startOfDay.
  rewrite Hzone. fold (local_time z (start_time t)).
  do 3 (split; [reflexivity|]).
  intros D k Hs Hc (k' & Hs' & Hk').
  pose proof (settled_at _ _ _ _ Hs Hc) as Hk.
  assert (Hstart : todayStart = mkDT (D * msPerDay - k * msPerMinute) z k)
    by (apply startOfDay_now; assumption).
  assert (Ed : today = civil_from_days D).
  { unfold today. rewrite Hstart. apply toFormat_date_at_midnight. }
  assert (HltD : days_from_civil (task_date t) < D).
  { rewrite Ed in Hlt. unfold date_ltb in Hlt.
    rewrite days_from_civil_from_days in Hlt. apply Z.ltb_lt. exact Hlt. }
  assert (Hdays : daysMissed = D - days_from_civil (task_date t)).
  { unfold daysMissed. rewrite Hstart.
    rewrite (fromISO_date_settled z (clock env) (task_date t) k') by (auto; lia).
    apply diff_settled; auto; lia. }
  destruct (new_start_settled z D k (clock env) (start_time t) Hs Hc)
    as (_ & _ & Hdate & Htime).
  cbv zeta in Hdate, Htime. rewrite <- Ed in Hdate, Htime.
  split; [exact Ed|]. split; [rewrite Hdays, Ed, days_from_civil_from_days; reflexivity|].
  split; [lia|]. split; assumption.
Qed.

(** A case that the page cannot reach as long as its pass holds "UTC":
    with a zone that skips a local midnight, a task dated on that day
    loses a day of [daysMissed].  In Sao Paulo the day 2018-11-04 began
    at 01:00; for the pending task of that day, on 2018-11-05, luxon's
    difference between the start of today and the start of the old date
    is 23 of 24 hours, its floor is 0, and a pass in America/Sao_Paulo
    writes task_date 2018-11-05 with the counter still 0. *)
Lemma skipped_midnight_loses_a_missed_day :
  resolved_today sao_paulo_env "America/Sao_Paulo" = Some (mkDate 2018 11 5)
  /\ select_pending_before sao_paulo_env (db sao_paulo_world) "user-3"
        (Some (mkDate 2018 11 5))
     = inr [task_of_november_4]
  /\ days_from_civil (mkDate 2018 11 5) - days_from_civil (mkDate 2018 11 4) = 1
  /\ ts (fromISO_date (clock sao_paulo_env) (mkDate 2018 11 4) America_Sao_Paulo)
     = instant 2018 11 4 3 0 0
  /\ ts (startOfDay (setZone (now (clock sao_paulo_env)) America_Sao_Paulo))
     = instant 2018 11 5 2 0 0
  /\ diff (startOfDay (setZone (now (clock sao_paulo_env)) America_Sao_Paulo))
          (fromISO_date (clock sao_paulo_env) (mkDate 2018 11 4) America_Sao_Paulo)
     = mkDays 0 (23 * 3600000) (24 * 3600000)
  /\ floorDays
       (diff (startOfDay (setZone (now (clock sao_paulo_env)) America_Sao_Paulo))
             (fromISO_date (clock sao_paulo_env) (mkDate 2018 11 4)
                           America_Sao_Paulo))
     = 0
  /\ tasks (db (run (carryForwardTasks sao_paulo_env "America/Sao_Paulo")
                    sao_paulo_world))
     = [task_of_november_4_after].
Proof.
  split; [vm_compute; reflexivity|].
  split; [vm_compute; reflexivity|].
  split; [vm_compute; reflexivity|].
  split; [vm_compute; reflexivity|].
  split; [vm_compute; reflexivity|].
  split; [vm_compute; reflexivity|].
  split; vm_compute; reflexivity.
Qed.

(** Another case that the page cannot reach as long as its pass holds
    "UTC": a wall-clock time that the zone skips today cannot be kept.
    In New York on 2025-03-09 there is no 02:30; for the pending task of
    7 March, 02:30, a pass in America/New_York writes the start_time
    2025-03-09T07:30:00Z, which is 03:30 there. *)
Lemma skipped_hour_moves_the_time_of_day :
  resolved_today new_york_change_day "America/New_York" = Some (mkDate 2025 3 9)
  /\ local_time America_New_York (start_time task_at_half_past_two) = mkTime 2 30 0
  /\ tasks (db (run (carryForwardTasks new_york_change_day "America/New_York")
                    change_day_world))
     = [task_at_half_past_two_rolled]
  /\ local_date America_New_York (start_time task_at_half_past_two_rolled)
     = mkDate 2025 3 9
  /\ local_time America_New_York (start_time task_at_half_past_two_rolled)
     = mkTime 3 30 0.
Proof.
  repeat split; vm_compute; reflexivity.
Qed.


(** C9.  A rollover is one update of exactly task_date, start_time and
    consecutive_missed_days.  Row by row, a pass leaves title,
    description, status, end_time, total_time_minutes and image_path (and
    id, user_id, original_date) as they were, and the three rolled fields
    are either all as before or all as the one payload of that task has
    them; the payload names these three columns and no other. *)
Theorem rollover_writes_three_fields_together :
  forall env userTimezone w,
    NoDup (map id (tasks (db w))) ->
    (forall todayStart today t,
        names_rolled_columns_only (rollover env todayStart today t))
    /\ Forall2
         (fun t t' =>
            same_frame t t'
            /\ (kept_fields t t'
                \/ exists todayStart,
                     startOfTodayInZone (tzdb env) (clock env) userTimezone
                     = Some todayStart
                     /\ written_fields
                          (rollover env todayStart (toFormat_date todayStart) t) t'))
         (tasks (db w))
         (tasks (db (run (carryForwardTasks env userTimezone) w))).
Proof.
  intros env userTimezone w Hnd. split.
  - intros todayStart today t. unfold names_rolled_columns_only, rollover.
    cbn [set_task_date set_start_time set_consecutive_missed_days set_status
         set_end_time set_total_time_minutes set_image_path].
    repeat split; discriminate.
  - destruct (pass_rows_cases env userTimezone w Hnd)
      as [E | (user & todayStart & Hu & Hsel & Hts & E)]; rewrite E.
    + apply Forall2_same. intros t _.
      split; [unfold same_frame; repeat split | left; unfold kept_fields; repeat split].
    + apply Forall2_map_rows. intros t _. unfold rolled.
      destruct (candidate user (toFormat_date todayStart) t);
        [destruct (update_error env (id t))|].
      * split; [unfold same_frame; repeat split | left; unfold kept_fields; repeat split].
      * split; [unfold same_frame; repeat split|].
        right. exists todayStart. split; [exact Hts|].
        unfold written_fields. repeat split.
      * split; [unfold same_frame; repeat split | left; unfold kept_fields; repeat split].
Qed.

Lemma carry_forward_rolls_overdue_task_in_new_york :
  (session new_york_env = Some "user-2"
   /\ select_error new_york_env = None
   /\ update_error new_york_env (id task_of_march_7) = None
   /\ normalizeZone (tzdb new_york_env) "America/New_York" = Some America_New_York
   /\ NoDup (map id (tasks (db new_york_world)))
   /\ nth_error (tasks (db new_york_world)) 0 = Some task_of_march_7
   /\ user_id task_of_march_7 = "user-2"
   /\ status task_of_march_7 = "pending"
   /\ date_ltb (task_date task_of_march_7)
               (toFormat_date (startOfDay (setZone (now (clock new_york_env))
                                                   America_New_York)))
      = true)
  /\ (settled America_New_York 20158 (-240)
      /\ on_day (clock new_york_env) (-240) 20158
      /\ calm America_New_York (-240) (days_from_civil (task_date task_of_march_7)))
  /\ exists t',
       nth_error (tasks (db (run (carryForwardTasks new_york_env "America/New_York")
                                 new_york_world))) 0 = Some t'
       /\ task_date t' = mkDate 2025 3 11
       /\ consecutive_missed_days t' = 1 + 4
       /\ local_date America_New_York (start_time t') = mkDate 2025 3 11
       /\ local_time America_New_York (start_time t') = mkTime 19 0 0.
Proof.
  assert (h1 : session new_york_env = Some "user-2") by reflexivity.
  assert (h2 : select_error new_york_env = None) by reflexivity.
  assert (h3 : update_error new_york_env (id task_of_march_7) = None) by reflexivity.
  assert (h4 : normalizeZone (tzdb new_york_env) "America/New_York"
               = Some America_New_York) by reflexivity.
  pose proof new_york_rows_distinct as h5.
  assert (h6 : nth_error (tasks (db new_york_world)) 0 = Some task_of_march_7)
    by reflexivity.
  assert (h7 : user_id task_of_march_7 = "user-2") by reflexivity.
  assert (h8 : status task_of_march_7 = "pending") by reflexivity.
  assert (h9 : date_ltb (task_date task_of_march_7)
                 (toFormat_date (startOfDay (setZone (now (clock new_york_env))
                                                     America_New_York)))
               = true) by (vm_compute; reflexivity).
  assert (r1 : settled America_New_York 20158 (-240)) by (apply new_york_summer; lia).
  assert (r2 : on_day (clock new_york_env) (-240) 20158)
    by (vm_compute; split; congruence).
  assert (r3 : calm America_New_York (-240)
                    (days_from_civil (task_date task_of_march_7))).
  { exists (-300). split; [apply new_york_winter; vm_compute; congruence | lia]. }
  split; [exact (conj h1 (conj h2 (conj h3 (conj h4 (conj h5 (conj h6 (conj h7
                   (conj h8 h9))))))))|].
  split; [exact (conj r1 (conj r2 r3))|].
  destruct (carry_forward_rolls_overdue_task new_york_env "America/New_York"
              America_New_York "user-2" new_york_world 0%nat task_of_march_7
              h1 h2 h3 h4 h5 h6 h7 h8 h9)
    as (_ & t' & Hrow & Hdate & _ & Hcount & Hregular).
  destruct (Hregular 20158 (-240) r1 r2 r3) as (Etoday & Edays & _ & Hld & Hlt).
  exists t'. split; [exact Hrow|].
  rewrite Etoday in Hdate, Edays, Hld. rewrite Edays in Hcount.
  split; [exact Hdate|]. split; [exact Hcount|]. split; [exact Hld | exact Hlt].
Defined.


Lemma rollover_writes_three_fields_together_witness :
  NoDup (map id (tasks (db new_york_world)))
  /\ ((forall todayStart today t,
          names_rolled_columns_only (rollover new_york_env todayStart today t))
      /\ Forall2
           (fun t t' =>
              same_frame t t'
              /\ (kept_fields t t'
                  \/ exists todayStart,
                       startOfTodayInZone (tzdb new_york_env) (clock new_york_env)
                                          "America/New_York"
                       = Some todayStart
                       /\ written_fields
                            (rollover new_york_env todayStart
                                      (toFormat_date todayStart) t) t'))
           (tasks (db new_york_world))
           (tasks (db (run (carryForwardTasks new_york_env "America/New_York")
                           new_york_world)))).
Proof.
  exact (conj new_york_rows_distinct
              (rollover_writes_three_fields_together new_york_env "America/New_York"
                 new_york_world new_york_rows_distinct)).
Defined.

End PassClaims.

(** ** The completion flow *)

Module CompletionClaims.
Import Civil Luxon Timezone Supabase React Tasks Pass Completion Examples.
Import CivilFacts LuxonFacts PassFacts ExamplesFacts.

(** C7.  A completion instant before the start instant is refused with a
    ValidationError, the handler returns after reporting it, and the
    database is as it was: no task row is mutated and nothing is
    uploaded. *)
Theorem completion_before_start_is_rejected :
  forall formatDuration env task onRefresh userTimezone completionTime
         completionImage w endInstant,
    localToUtcISO (tzdb env) (clock env) completionTime userTimezone
    = Some endInstant ->
    endInstant < start_time task ->
    TaskDuration.calculateTaskDuration (start_time task) (Some endInstant) userTimezone
    = inl TaskDuration.validation_error
    /\ error_name TaskDuration.validation_error = "ValidationError"
    /\ TaskCard.handleComplete TaskDuration.calculateTaskDuration formatDuration
         env task onRefresh userTimezone completionTime completionImage w
       = (abandoned w TaskDuration.validation_error, inr tt).
Proof.
  intros formatDuration env task onRefresh userTimezone completionTime completionImage
         w endInstant Hend Hlt.
  assert (Hcalc : TaskDuration.calculateTaskDuration (start_time task) (Some endInstant)
                    userTimezone = inl TaskDuration.validation_error).
  { unfold TaskDuration.calculateTaskDuration.
    apply Z.ltb_lt in Hlt. rewrite Hlt. reflexivity. }
  split; [exact Hcalc|]. split; [reflexivity|].
  unfold TaskCard.handleComplete, finally, try_catch. rewrite Hend, Hcalc.
  reflexivity.
Qed.

(** C10.  When a completion photo is supplied and its upload fails, the
    handler stops before it writes the task row and reports an error: the
    database is as it was, so status, end_time, total_time_minutes and
    image_path of every task are unchanged and the task is not marked
    completed. *)
Theorem failed_upload_aborts_completion :
  forall calculateTaskDuration formatDuration env task onRefresh userTimezone
         completionTime image w user e,
    session env = Some user ->
    upload_error env (completion_path user task (clock env) image) = Some e ->
    exists err,
      TaskCard.handleComplete calculateTaskDuration formatDuration env task
        onRefresh userTimezone completionTime (Some image) w
      = (abandoned w err, inr tt).
Proof.
  intros calc fmt env task onRefresh userTimezone completionTime image w user e Hu Hup.
  unfold TaskCard.handleComplete, finally, try_catch.
  destruct (calc (start_time task) _ userTimezone) as [thrown|minutes].
  - exists thrown. reflexivity.
  - exists e. rewrite Hu. unfold bind at 1. unfold bind at 1.
    cbn [setUploadingImage set_card]. unfold bind at 1. unfold send_upload, upload.
    fold (completion_path user task (clock env) image). cbn [db]. rewrite Hup.
    reflexivity.
Qed.

(** The list fetch reads and never writes. *)
Lemma fetchTasks_db env userTimezone w :
  db (fst (fetchTasks env userTimezone w)) = db w.
Proof.
  unfold fetchTasks, finally, try_catch.
  destruct (session env) as [user|]; [|reflexivity].
  unfold bind, get_db.
  destruct (select_for_day env (db w) user _) as [e|data]; reflexivity.
Qed.

Section Keeps.
Variable R : Database -> Database -> Prop.
Hypothesis R_refl : forall d, R d d.
Hypothesis R_trans : forall a b c, R a b -> R b c -> R a c.

Lemma keeps_ret {A} (a : A) : keeps R (ret a).
Proof. intros w. apply R_refl. Qed.

Lemma keeps_throw {A} e : keeps R (@throw A e).
Proof. intros w. apply R_refl. Qed.

Lemma keeps_emit ev : keeps R (emit ev).
Proof. intros w. apply R_refl. Qed.

Lemma keeps_set_card f : keeps R (set_card f).
Proof. intros w. apply R_refl. Qed.

Lemma keeps_bind {A B} (m : Action A) (k : A -> Action B) :
  keeps R m -> (forall a, keeps R (k a)) -> keeps R (bind m k).
Proof.
  intros Hm Hk w. unfold bind. specialize (Hm w).
  destruct (m w) as [w1 [e|a]]; cbn [fst] in *; [exact Hm|].
  eapply R_trans; [exact Hm | apply Hk].
Qed.

Lemma keeps_try_catch {A} (body : Action A) handler :
  keeps R body -> (forall e, keeps R (handler e)) -> keeps R (try_catch body handler).
Proof.
  intros Hb Hh w. unfold try_catch. specialize (Hb w).
  destruct (body w) as [w1 [e|a]]; cbn [fst] in *; [|exact Hb].
  eapply R_trans; [exact Hb | apply Hh].
Qed.

Lemma keeps_finally {A} (body : Action A) cleanup :
  keeps R body -> keeps R cleanup -> keeps R (finally body cleanup).
Proof.
  intros Hb Hc w. unfold finally. specialize (Hb w).
  destruct (body w) as [w1 r]. specialize (Hc w1).
  destruct (cleanup w1) as [w2 [e|u]]; cbn [fst] in *; eapply R_trans; eauto.
Qed.

End Keeps.

Lemma kept_refl d : rolled_fields_kept d d.
Proof.
  unfold rolled_fields_kept. apply Forall2_same. intros t _.
  unfold kept_fields. repeat split.
Qed.

Lemma Forall2_kept_trans (a : list Task) :
  forall b c, Forall2 kept_fields a b -> Forall2 kept_fields b c ->
              Forall2 kept_fields a c.
Proof.
  induction a as [|x a IH]; intros b c Hab Hbc.
  - inversion Hab; subst. inversion Hbc; subst. constructor.
  - inversion Hab as [|? y ? b' Hxy Hab']; subst.
    inversion Hbc as [|? z ? c' Hyz Hbc']; subst.
    constructor; [|eapply IH; eauto].
    unfold kept_fields in *. intuition congruence.
Qed.

Lemma kept_trans a b c :
  rolled_fields_kept a b -> rolled_fields_kept b c -> rolled_fields_kept a c.
Proof. apply Forall2_kept_trans. Qed.

Lemma keeps_upload env path f : keeps rolled_fields_kept (send_upload env path f).
Proof.
  intros w. unfold send_upload, upload.
  destruct (upload_error env path); cbn [fst db]; [apply kept_refl|].
  unfold rolled_fields_kept. cbn [tasks]. apply (kept_refl (db w)).
Qed.

Lemma keeps_completion_update env e m p key :
  keeps rolled_fields_kept
        (send_update env (mkUpdate None None None (Some "completed") e m p) key).
Proof.
  intros w. unfold send_update, update_task.
  destruct (update_error env key); cbn [fst db]; [apply kept_refl|].
  unfold rolled_fields_kept. cbn [tasks]. apply Forall2_map_rows. intros t _.
  destruct (String.eqb (id t) key); unfold kept_fields; repeat split.
Qed.

(** A completion never writes the rolled fields of any row. *)
Lemma handleComplete_keeps calc fmt env task onRefresh userTimezone completionTime
      completionImage :
  keeps rolled_fields_kept onRefresh ->
  keeps rolled_fields_kept
        (TaskCard.handleComplete calc fmt env task onRefresh userTimezone
                                 completionTime completionImage).
Proof.
  intros Hrefresh.
  pose proof kept_refl as Hr. pose proof kept_trans as Ht.
  unfold TaskCard.handleComplete.
  apply keeps_finally; auto; [|apply keeps_set_card; auto].
  apply keeps_try_catch; auto; [|intros; apply keeps_emit; auto].
  destruct (calc (start_time task) _ userTimezone) as [thrown|minutes];
    [apply keeps_throw; auto|].
  apply keeps_bind; auto.
  - destruct completionImage as [image|]; [|apply keeps_ret; auto].
    apply keeps_bind; auto; [apply keeps_set_card; auto|]. intros _.
    destruct (session env) as [user|]; [|apply keeps_throw; auto].
    apply keeps_bind; auto; [apply keeps_upload|].
    intros [e|]; [apply keeps_throw | apply keeps_ret]; auto.
  - intros imagePath. apply keeps_bind; auto; [apply keeps_completion_update|].
    intros [e|]; [apply keeps_throw; auto|].
    apply keeps_bind; auto; [apply keeps_emit; auto|]. intros _.
    apply keeps_bind; auto. apply keeps_set_card; auto.
Qed.

Lemma fetchTasks_keeps env userTimezone :
  keeps rolled_fields_kept (fetchTasks env userTimezone).
Proof. intros w. rewrite fetchTasks_db. apply kept_refl. Qed.

Lemma completion_before_start_is_rejected_witness :
  (localToUtcISO (tzdb new_york_env) (clock new_york_env)
                 (mkLocal (mkDate 2025 3 11) 17 30) "America/New_York"
   = Some (instant 2025 3 11 21 30 0)
   /\ instant 2025 3 11 21 30 0 < start_time task_for_today)
  /\ (TaskDuration.calculateTaskDuration (start_time task_for_today)
        (Some (instant 2025 3 11 21 30 0)) "America/New_York"
      = inl TaskDuration.validation_error
      /\ error_name TaskDuration.validation_error = "ValidationError"
      /\ TaskCard.handleComplete TaskDuration.calculateTaskDuration
           TaskDuration.formatDuration new_york_env task_for_today
           (fetchTasks new_york_env "America/New_York") "America/New_York"
           (mkLocal (mkDate 2025 3 11) 17 30) (Some photo) new_york_world
         = (abandoned new_york_world TaskDuration.validation_error, inr tt)).
Proof.
  assert (h1 : localToUtcISO (tzdb new_york_env) (clock new_york_env)
                 (mkLocal (mkDate 2025 3 11) 17 30) "America/New_York"
               = Some (instant 2025 3 11 21 30 0)) by (vm_compute; reflexivity).
  assert (h2 : instant 2025 3 11 21 30 0 < start_time task_for_today)
    by (vm_compute; reflexivity).
  exact (conj (conj h1 h2)
              (completion_before_start_is_rejected TaskDuration.formatDuration
                 new_york_env task_for_today
                 (fetchTasks new_york_env "America/New_York") "America/New_York"
                 (mkLocal (mkDate 2025 3 11) 17 30) (Some photo) new_york_world
                 (instant 2025 3 11 21 30 0) h1 h2)).
Defined.

Lemma failed_upload_aborts_completion_witness :
  (session new_york_storage_down = Some "user-2"
   /\ upload_error new_york_storage_down
        (completion_path "user-2" task_for_today (clock new_york_storage_down) photo)
      = Some (mkError "StorageError" "upload failed"))
  /\ exists err,
       TaskCard.handleComplete TaskDuration.calculateTaskDuration
         TaskDuration.formatDuration new_york_storage_down task_for_today
         (fetchTasks new_york_storage_down "America/New_York") "America/New_York"
         (mkLocal (mkDate 2025 3 11) 19 30) (Some photo) new_york_world
       = (abandoned new_york_world err, inr tt).
Proof.
  assert (h1 : session new_york_storage_down = Some "user-2") by reflexivity.
  assert (h2 : upload_error new_york_storage_down
                 (completion_path "user-2" task_for_today
                                  (clock new_york_storage_down) photo)
               = Some (mkError "StorageError" "upload failed")) by reflexivity.
  exact (conj (conj h1 h2)
              (failed_upload_aborts_completion TaskDuration.calculateTaskDuration
                 TaskDuration.formatDuration new_york_storage_down task_for_today
                 (fetchTasks new_york_storage_down "America/New_York")
                 "America/New_York" (mkLocal (mkDate 2025 3 11) 19 30) photo
                 new_york_world "user-2" (mkError "StorageError" "upload failed")
                 h1 h2)).
Defined.

End CompletionClaims.

(** ** The classifier, the duration helpers and the mount effect *)

Module PageClaims.
Import Civil Luxon Timezone Supabase React Tasks Pass Examples.

(** C5.  The status classifier is total with exact integer boundaries: a
    completed task is Completed whatever its counter; a pending task is
    Overdue(n) from a counter of 3 on, Carried(n) at exactly 1 and exactly
    2, and Pending at 0; and there is no fifth outcome. *)
Theorem status_classifier_boundaries :
  forall task,
    let n := consecutive_missed_days task in
    let info := getTaskStatusInfo task in
    (status task = "completed" ->
     label info = "Completed" /\ badgeVariant info = default)
    /\ (status task = "pending" -> 3 <= n ->
        label info = "Overdue " ++ show n ++ " days"
        /\ badgeVariant info = destructive)
    /\ (status task = "pending" -> n = 1 ->
        label info = "Carried 1 day" /\ badgeVariant info = secondary)
    /\ (status task = "pending" -> n = 2 ->
        label info = "Carried 2 days" /\ badgeVariant info = secondary)
    /\ (status task = "pending" -> n = 0 ->
        label info = "Pending" /\ badgeVariant info = outline)
    /\ ((status task = "completed" /\ badgeVariant info = default)
        \/ (status task <> "completed" /\ 3 <= n /\ badgeVariant info = destructive)
        \/ (status task <> "completed" /\ 1 <= n <= 2 /\ badgeVariant info = secondary)
        \/ (status task <> "completed" /\ n <= 0 /\ badgeVariant info = outline)).
Proof.
  intros task n info. subst info. unfold getTaskStatusInfo. fold n.
  destruct (String.eqb (status task) "completed") eqn:Es.
  - apply String.eqb_eq in Es.
    assert (Hno : status task = "pending" -> False)
      by (intros Hp; rewrite Hp in Es; discriminate).
    split; [intros _; split; reflexivity|].
    split; [intros Hp; destruct (Hno Hp)|].
    split; [intros Hp; destruct (Hno Hp)|].
    split; [intros Hp; destruct (Hno Hp)|].
    split; [intros Hp; destruct (Hno Hp)|].
    left. split; [exact Es | reflexivity].
  - apply String.eqb_neq in Es.
    split; [intros Hc; destruct (Es Hc)|].
    destruct (n >=? 3) eqn:E3.
    + apply Z.geb_le in E3.
      split; [intros _ _; split; reflexivity|].
      split; [intros _ H1; lia|].
      split; [intros _ H2; lia|].
      split; [intros _ H0; lia|].
      right. left. split; [exact Es|]. split; [exact E3 | reflexivity].
    + rewrite Z.geb_leb in E3. apply Z.leb_gt in E3.
      split; [intros _ H3; lia|].
      destruct (n >? 0) eqn:E0; rewrite Z.gtb_ltb in E0.
      * apply Z.ltb_lt in E0.
        split; [intros _ H1; rewrite H1; split; reflexivity|].
        split; [intros _ H2; rewrite H2; split; reflexivity|].
        split; [intros _ H0; lia|].
        right. right. left. split; [exact Es|]. split; [lia | reflexivity].
      * apply Z.ltb_ge in E0.
        split; [intros _ H1; lia|].
        split; [intros _ H2; lia|].
        split; [intros _ _; split; reflexivity|].
        right. right. right. split; [exact Es|]. split; [exact E0 | reflexivity].
Qed.

(** C6.  computeDuration returns the whole minutes elapsed between the
    two instants, floor(elapsed seconds / 60); the result does not depend
    on the time zone passed along and is non-negative when the end is not
    before the start.  From 2025-01-10T09:00:00Z to 2025-01-10T10:15:00Z
    it is 75, which formatDuration renders as "1h 15m"; below 60 minutes
    formatDuration renders minutes only. *)
Theorem duration_is_elapsed_whole_minutes :
  (forall startInstant endInstant timezone,
      startInstant <= endInstant ->
      exists minutes,
        TaskDuration.calculateTaskDuration startInstant (Some endInstant) timezone
        = inr minutes
        /\ 60 * 1000 * minutes <= endInstant - startInstant < 60 * 1000 * (minutes + 1)
        /\ minutes = (endInstant - startInstant) / 1000 / 60
        /\ 0 <= minutes
        /\ forall timezone',
             TaskDuration.calculateTaskDuration startInstant (Some endInstant) timezone'
             = inr minutes)
  /\ (forall timezone,
         TaskDuration.calculateTaskDuration
           (instant 2025 1 10 9 0 0) (Some (instant 2025 1 10 10 15 0)) timezone
         = inr 75)
  /\ TaskDuration.formatDuration 75 = "1h 15m"
  /\ (forall minutes, minutes < 60 ->
         TaskDuration.formatDuration minutes = show minutes ++ "m").
Proof.
  split; [|split; [|split]].
  - intros s e tz Hle. exists ((e - s) / 1000 / 60).
    assert (Hcalc : forall tz', TaskDuration.calculateTaskDuration s (Some e) tz'
                                = inr ((e - s) / 1000 / 60)).
    { intros tz'. unfold TaskDuration.calculateTaskDuration.
      replace (e <? s) with false by (symmetry; apply Z.ltb_ge; lia). reflexivity. }
    split; [apply Hcalc|]. split; [|split; [reflexivity|split; [|exact Hcalc]]].
    + Z.to_euclidean_division_equations. lia.
    + Z.to_euclidean_division_equations. lia.
  - intros tz. reflexivity.
  - reflexivity.
  - intros m Hm. unfold TaskDuration.formatDuration.
    apply Z.ltb_lt in Hm. rewrite Hm. reflexivity.
Qed.

(** C8 (what the code does).  The effect that runs on mount calls the
    functions of the first render, so the pass and the list fetch run with
    the initial "UTC" whatever the profile holds.  For the Kolkata user at
    01:30 local time on 13 January: the profile resolves to Asia/Kolkata,
    where today is 2025-01-13, and the page state ends up holding
    Asia/Kolkata; yet the task of the 12th is not rolled by the mount
    effect, while a pass run in Asia/Kolkata rolls it. *)
Theorem mount_pass_runs_in_UTC :
  (forall env d,
      mount env (mkWorld d initialState fresh_card [])
      = initializeTasks env "UTC" (mkWorld d initialState fresh_card []))
  /\ getUserTimezone (Some "Asia/Kolkata") = "Asia/Kolkata"
  /\ resolved_today kolkata_night (getUserTimezone (Some "Asia/Kolkata"))
     = Some (mkDate 2025 1 13)
  /\ resolved_today kolkata_night "UTC" = Some (mkDate 2025 1 12)
  /\ st_userTimezone (page (run (mount kolkata_night) kolkata_world))
     = "Asia/Kolkata"
  /\ tasks (db (run (mount kolkata_night) kolkata_world)) = [task_of_the_12th]
  /\ tasks (db (run (carryForwardTasks kolkata_night "Asia/Kolkata") kolkata_world))
     = [task_of_the_12th_rolled].
Proof.
  split; [|repeat split; vm_compute; reflexivity].
  intros env d. reflexivity.
Qed.

Lemma status_classifier_boundaries_witness :
  (status task_done = "completed"
   /\ status task_of_march_7 = "pending" /\ consecutive_missed_days task_of_march_7 = 1
   /\ status scenarioA_rolled = "pending" /\ 3 <= consecutive_missed_days scenarioA_rolled
   /\ status task_for_today = "pending" /\ consecutive_missed_days task_for_today = 0)
  /\ (label (getTaskStatusInfo task_done) = "Completed"
      /\ badgeVariant (getTaskStatusInfo task_done) = default)
  /\ (label (getTaskStatusInfo task_of_march_7) = "Carried 1 day"
      /\ badgeVariant (getTaskStatusInfo task_of_march_7) = secondary)
  /\ (label (getTaskStatusInfo scenarioA_rolled)
      = "Overdue " ++ show (consecutive_missed_days scenarioA_rolled) ++ " days"
      /\ badgeVariant (getTaskStatusInfo scenarioA_rolled) = destructive)
  /\ (label (getTaskStatusInfo task_for_today) = "Pending"
      /\ badgeVariant (getTaskStatusInfo task_for_today) = outline).
Proof.
  assert (h1 : status task_done = "completed") by reflexivity.
  assert (h2 : status task_of_march_7 = "pending") by reflexivity.
  assert (h3 : consecutive_missed_days task_of_march_7 = 1) by reflexivity.
  assert (h4 : status scenarioA_rolled = "pending") by reflexivity.
  assert (h5 : 3 <= consecutive_missed_days scenarioA_rolled) by (cbn; lia).
  assert (h6 : status task_for_today = "pending") by reflexivity.
  assert (h7 : consecutive_missed_days task_for_today = 0) by reflexivity.
  exact (conj (conj h1 (conj h2 (conj h3 (conj h4 (conj h5 (conj h6 h7))))))
          (conj (proj1 (status_classifier_boundaries task_done) h1)
            (conj (proj1 (proj2 (proj2 (status_classifier_boundaries task_of_march_7)))
                         h2 h3)
              (conj (proj1 (proj2 (status_classifier_boundaries scenarioA_rolled)) h4 h5)
                    (proj1 (proj2 (proj2 (proj2 (proj2
                       (status_classifier_boundaries task_for_today))))) h6 h7))))).
Defined.

Lemma duration_is_elapsed_whole_minutes_witness :
  (instant 2025 1 10 9 0 0 <= instant 2025 1 10 10 15 0 /\ 45 < 60)
  /\ (exists minutes,
        TaskDuration.calculateTaskDuration (instant 2025 1 10 9 0 0)
          (Some (instant 2025 1 10 10 15 0)) "Asia/Kolkata" = inr minutes
        /\ 60 * 1000 * minutes
           <= instant 2025 1 10 10 15 0 - instant 2025 1 10 9 0 0
           < 60 * 1000 * (minutes + 1)
        /\ minutes = (instant 2025 1 10 10 15 0 - instant 2025 1 10 9 0 0) / 1000 / 60
        /\ 0 <= minutes
        /\ forall timezone',
             TaskDuration.calculateTaskDuration (instant 2025 1 10 9 0 0)
               (Some (instant 2025 1 10 10 15 0)) timezone' = inr minutes)
  /\ TaskDuration.formatDuration 45 = show 45 ++ "m".
Proof.
  assert (h1 : instant 2025 1 10 9 0 0 <= instant 2025 1 10 10 15 0)
    by (vm_compute; congruence).
  assert (h2 : 45 < 60) by lia.
  exact (conj (conj h1 h2)
          (conj (proj1 duration_is_elapsed_whole_minutes (instant 2025 1 10 9 0 0)
                   (instant 2025 1 10 10 15 0) "Asia/Kolkata" h1)
                (proj2 (proj2 (proj2 duration_is_elapsed_whole_minutes)) 45 h2))).
Defined.

End PageClaims.

(** ** Dates of the calendar *)

Module CalendarFacts.
Import Civil Luxon CivilFacts.

Lemma year_of_era_recovered yoe doy :
  0 <= yoe < 400 -> 0 <= doy ->
  doy <= 364
  \/ (doy = 365 /\ (yoe + 1) mod 4 = 0 /\ ((yoe + 1) mod 100 <> 0 \/ yoe = 399)) ->
  let doe := yoe * 365 + yoe / 4 - yoe / 100 + doy in
  0 <= doe < 146097
  /\ (doe - doe / 1460 + doe / 36524 - doe / 146096) / 365 = yoe.
Proof.
  intros Hy Hd Hleap doe. subst doe.
  Z.to_euclidean_division_equations; lia.
Qed.

Lemma isLeapYear_mod y :
  isLeapYear y = ((y mod 4 =? 0) && (negb (y mod 100 =? 0) || (y mod 400 =? 0)))%bool.
Proof.
  unfold isLeapYear.
  assert (H : forall n, 0 < n -> (Z.rem y n =? 0) = (y mod n =? 0)).
  { intros n Hn. destruct (Z.rem y n =? 0) eqn:E1, (y mod n =? 0) eqn:E2; auto.
    - apply Z.eqb_eq in E1. apply Z.eqb_neq in E2. exfalso. apply E2.
      apply Z.rem_divide in E1; [|lia]. apply Z.mod_divide; [lia|exact E1].
    - apply Z.eqb_neq in E1. apply Z.eqb_eq in E2. exfalso. apply E1.
      apply Z.mod_divide in E2; [|lia]. apply Z.rem_divide; [lia|exact E2]. }
  rewrite !H by lia. reflexivity.
Qed.

Lemma february y dd :
  1 <= dd <= daysInMonth y 2 ->
  dd <= 28 \/ (dd = 29 /\ y mod 4 = 0 /\ (y mod 100 <> 0 \/ y mod 400 = 0)).
Proof.
  unfold daysInMonth. cbn -[isLeapYear Z.div]. rewrite Z.div_0_l by lia.
  replace (y + 0) with y by lia. rewrite isLeapYear_mod.
  destruct (y mod 4 =? 0) eqn:E4; cbn [andb]; [|lia].
  destruct (y mod 100 =? 0) eqn:E100; cbn [negb orb].
  - destruct (y mod 400 =? 0) eqn:E400; [|lia].
    apply Z.eqb_eq in E4, E400. lia.
  - apply Z.eqb_eq in E4. apply Z.eqb_neq in E100. lia.
Qed.

(** The day number undone: a calendar date that exists. *)
Lemma civil_from_days_from_civil d :
  1 <= month d <= 12 -> 1 <= day d <= daysInMonth (year d) (month d) ->
  civil_from_days (days_from_civil d) = d.
Proof.
  destruct d as [y m dd]. cbn [year month day]. intros Hm Hd.
  unfold days_from_civil, doe_of_civ. cbn [year month day].
  set (y' := if m <=? 2 then y - 1 else y).
  set (era := y' / 400). set (yoe := y' - era * 400).
  set (mp := (m + 9) mod 12).
  set (doy := (153 * mp + 2) / 5 + dd - 1).
  assert (Hyoe : 0 <= yoe < 400).
  { subst yoe era. pose proof (Z.div_mod y' 400 ltac:(lia)).
    pose proof (Z.mod_pos_bound y' 400 ltac:(lia)). lia. }
  assert (Hmp : (m <= 2 /\ mp = m + 9 /\ y' = y - 1) \/ (3 <= m /\ mp = m - 3 /\ y' = y)).
  { subst mp y'. destruct (m <=? 2) eqn:E.
    - apply Z.leb_le in E. left. repeat split; try lia. apply Z.mod_small. lia.
    - apply Z.leb_gt in E. right. repeat split; try lia.
      replace (m + 9) with (m - 3 + 1 * 12) by lia. rewrite Z.mod_add by lia.
      apply Z.mod_small. lia. }
  assert (Hdoy : 0 <= doy /\ (5 * doy + 2) / 153 = mp
                 /\ doy - (153 * mp + 2) / 5 + 1 = dd
                 /\ (doy <= 364
                     \/ (doy = 365 /\ (yoe + 1) mod 4 = 0
                         /\ ((yoe + 1) mod 100 <> 0 \/ yoe = 399)))).
  { assert (Hcase : m = 1 \/ m = 2 \/ m = 3 \/ m = 4 \/ m = 5 \/ m = 6 \/ m = 7
                    \/ m = 8 \/ m = 9 \/ m = 10 \/ m = 11 \/ m = 12) by lia.
    assert (Hfeb : m = 2 -> dd <= 28 \/ (dd = 29 /\ (yoe + 1) mod 4 = 0
                                         /\ ((yoe + 1) mod 100 <> 0 \/ yoe = 399))).
    { intros ->. destruct (february y dd Hd) as [H|(H1 & H2 & H3)]; [left; exact H|].
      right. split; [exact H1|].
      destruct Hmp as [(_ & _ & Ey)|(H & _)]; [|lia].
      assert (Ey' : y = yoe + 1 + era * 400) by (subst yoe; lia).
      rewrite Ey' in H2, H3.
      clear - H2 H3 Hyoe. Z.to_euclidean_division_equations. lia. }
    assert (Hlen : (m = 2 /\ dd <= 29) \/ (m <> 2 /\ dd <= 31 /\
                     (m = 4 \/ m = 6 \/ m = 9 \/ m = 11 -> dd <= 30))).
    { destruct Hcase as [->|[->|[->|[->|[->|[->|[->|[->|[->|[->|[->| ->]]]]]]]]]]];
        try (right; split; [lia|]);
        try (destruct (february y dd Hd); left; lia).
      all: try (change (daysInMonth y 1) with 31 in Hd).
      all: try (change (daysInMonth y 3) with 31 in Hd).
      all: try (change (daysInMonth y 4) with 30 in Hd).
      all: try (change (daysInMonth y 5) with 31 in Hd).
      all: try (change (daysInMonth y 6) with 30 in Hd).
      all: try (change (daysInMonth y 7) with 31 in Hd).
      all: try (change (daysInMonth y 8) with 31 in Hd).
      all: try (change (daysInMonth y 9) with 30 in Hd).
      all: try (change (daysInMonth y 10) with 31 in Hd).
      all: try (change (daysInMonth y 11) with 30 in Hd).
      all: try (change (daysInMonth y 12) with 31 in Hd).
      all: lia. }
    assert (Hdd1 : 1 <= dd) by lia. clear Hd. subst doy.
    destruct Hcase as [->|[->|[->|[->|[->|[->|[->|[->|[->|[->|[->| ->]]]]]]]]]]];
      destruct Hmp as [(Hle & Emp & _)|(Hle & Emp & _)]; try lia;
      rewrite Emp; clear Emp;
      try (specialize (Hfeb eq_refl));
      (split; [|split; [|split]]);
      try (Z.to_euclidean_division_equations; lia). }
  destruct Hdoy as (Hdoy0 & Emp & Edd & Hleap).
  destruct (year_of_era_recovered yoe doy Hyoe Hdoy0 Hleap) as [Hdoe Eyoe].
  set (doe := yoe * 365 + yoe / 4 - yoe / 100 + doy) in *.
  unfold civil_from_days.
  replace (era * 146097 + doe - 719468 + 719468) with (doe + era * 146097) by lia.
  rewrite Z.div_add by lia. rewrite (Z.div_small doe) by lia.
  replace (doe + era * 146097 - (0 + era) * 146097) with doe by lia.
  unfold civ_of_doe. rewrite Eyoe.
  replace (doe - (365 * yoe + yoe / 4 - yoe / 100)) with doy by (subst doe; lia).
  rewrite Emp, Edd.
  destruct Hmp as [(Hle & Emp' & Ey)|(Hle & Emp' & Ey)].
  - replace (mp <? 10) with false by (symmetry; apply Z.ltb_ge; lia).
    replace (mp - 9) with m by lia.
    replace (m <=? 2) with true by (symmetry; apply Z.leb_le; lia).
    f_equal. subst yoe. lia.
  - replace (mp <? 10) with true by (symmetry; apply Z.ltb_lt; lia).
    replace (mp + 3) with m by lia.
    replace (m <=? 2) with false by (symmetry; apply Z.leb_gt; lia).
    f_equal. subst yoe. lia.
Qed.

End CalendarFacts.

(** ** The helpers of [timezone.ts] *)

Module TimezoneFacts.
Import Civil Luxon Timezone Behaviour CivilFacts LuxonFacts CalendarFacts.

(** [fixOffset] stops at an offset that the zone has at both instants it
    looks at. *)
Lemma fixOffset_agree z l o0 k :
  z (l - o0 * 60 * 1000) = k -> z (l - k * 60 * 1000) = k ->
  fixOffset l o0 z = (l - k * msPerMinute, k).
Proof.
  intros H2 H3. unfold fixOffset. cbv zeta. rewrite H2.
  destruct (o0 =? k) eqn:E.
  - apply Z.eqb_eq in E. subst o0. f_equal. unfold msPerMinute. lia.
  - replace (l - o0 * 60 * 1000 - (k - o0) * 60 * 1000) with (l - k * 60 * 1000) by lia.
    rewrite H3, Z.eqb_refl. f_equal. unfold msPerMinute. lia.
Qed.

Lemma utc_settled d : settled utcInstance d 0.
Proof. intros t _. reflexivity. Qed.

Lemma normalizeZone_UTC tzdb : normalizeZone tzdb "UTC" = Some utcInstance.
Proof. reflexivity. Qed.

Lemma on_day_of t k : on_day t k ((t + k * msPerMinute) / msPerDay).
Proof.
  unfold on_day, msPerDay.
  pose proof (Z.div_mod (t + k * msPerMinute) 86400000 ltac:(lia)).
  pose proof (Z.mod_pos_bound (t + k * msPerMinute) 86400000 ltac:(lia)). lia.
Qed.

Lemma fixOffset_window z D k l :
  settled z D k -> (D - 1) * msPerDay <= l < (D + 2) * msPerDay ->
  fixOffset l k z = (l - k * msPerMinute, k).
Proof.
  intros Hs Hl. apply fixOffset_agree; apply Hs; unfold msPerMinute; lia.
Qed.

Lemma objToLocalTS_next_day t k :
  objToLocalTS
    (mkObj (c_year (tsToObj t k)) (c_month (tsToObj t k)) (c_day (tsToObj t k) + 1)
           (c_hour (tsToObj t k)) (c_minute (tsToObj t k)) (c_second (tsToObj t k))
           (c_millisecond (tsToObj t k)))
  = t + k * msPerMinute + msPerDay.
Proof.
  rewrite <- objToLocalTS_tsToObj.
  unfold objToLocalTS at 1 2.
  cbn [c_year c_month c_day c_hour c_minute c_second c_millisecond].
  rewrite days_from_civil_plus. lia.
Qed.

(** [plus({ days: 1 })] away from a transition. *)
Lemma plusDays_one z D k t :
  settled z D k -> on_day t k D ->
  plusDays (mkDT t z k) 1 = mkDT (t + msPerDay) z k.
Proof.
  intros Hs Hc. unfold plusDays, c. cbn [ts zone o].
  rewrite objToLocalTS_next_day.
  rewrite (fixOffset_window z D k)
    by (auto; unfold on_day in Hc; unfold msPerDay in *; lia).
  unfold clone. cbn [ts zone].
  replace (t + k * msPerMinute + msPerDay - k * msPerMinute) with (t + msPerDay) by lia.
  replace (t + msPerDay =? t) with false
    by (symmetry; apply Z.eqb_neq; unfold msPerDay; lia).
  f_equal. apply Hs. unfold on_day in Hc. unfold msPerDay, msPerMinute in *. lia.
Qed.

(** [startOf('day')] away from a transition. *)
Lemma startOfDay_window z D k t d :
  settled z D k -> on_day t k d -> D - 1 <= d <= D + 1 ->
  startOfDay (mkDT t z k) = mkDT (d * msPerDay - k * msPerMinute) z k.
Proof.
  intros Hs Hc Hd. unfold startOfDay, c, objToTS. cbn [ts zone o].
  rewrite objToLocalTS_midnight, (on_day_div _ _ _ Hc).
  rewrite (fixOffset_window z D k) by (auto; unfold msPerDay; lia).
  unfold clone. cbn [ts zone].
  destruct (d * msPerDay - k * msPerMinute =? t) eqn:E.
  - apply Z.eqb_eq in E. f_equal. lia.
  - f_equal. apply Hs. unfold msPerDay, msPerMinute. lia.
Qed.

(** [DateTime.now().setZone(z).plus({ days: 1 }).startOf('day')] *)
Lemma startOfDay_tomorrow z D k clock :
  settled z D k -> on_day clock k D ->
  startOfDay (plusDays (setZone (now clock) z) 1)
  = mkDT ((D + 1) * msPerDay - k * msPerMinute) z k.
Proof.
  intros Hs Hc. pose proof (settled_at _ _ _ _ Hs Hc) as Hk.
  unfold setZone, now. cbn [ts]. rewrite Hk.
  rewrite (plusDays_one z D k) by assumption.
  apply (startOfDay_window z D k); [assumption | | lia].
  unfold on_day in *. unfold msPerDay in *. lia.
Qed.

Lemma toFormat_time_at_midnight z d k :
  toFormat_time (mkDT (d * msPerDay - k * msPerMinute) z k) = mkTime 0 0 0.
Proof.
  unfold toFormat_time, c, tsToObj. cbn [ts o c_hour c_minute c_second].
  replace (d * msPerDay - k * msPerMinute + k * 60 * 1000) with (d * msPerDay)
    by (unfold msPerMinute; lia).
  rewrite Z.mod_mul by (unfold msPerDay; lia). reflexivity.
Qed.

(** The local wall clock of an instant, to the minute. *)
Lemma toFormat_local_at z t k D :
  z t = k -> on_day t k D ->
  let r := (t + k * msPerMinute) mod msPerDay in
  toFormat_local (setZone (fromISO_instant t) z)
  = mkLocal (civil_from_days D) (r / 3600000) ((r / 60000) mod 60).
Proof.
  intros Hk Hd r.
  unfold toFormat_local, toFormat_date, setZone, fromISO_instant, c, tsToObj.
  cbn [ts o c_year c_month c_day c_hour c_minute]. rewrite Hk.
  replace (t + k * 60 * 1000) with (t + k * msPerMinute) by (unfold msPerMinute; lia).
  rewrite (on_day_div _ _ _ Hd). fold r. destruct (civil_from_days D); reflexivity.
Qed.

(** The wall clock of an instant, read to the minute and converted back. *)
Lemma local_minute_to_utc tzdb clock timezone z D k t :
  normalizeZone tzdb timezone = Some z ->
  settled z D k -> on_day t k D -> -1440 <= k - z clock <= 1440 ->
  let r := (t + k * msPerMinute) mod msPerDay in
  localToUtcISO tzdb clock
    (mkLocal (civil_from_days D) (r / 3600000) ((r / 60000) mod 60)) timezone
  = Some (t / 60000 * 60000).
Proof.
  intros Hz Hs Hd Hk r.
  unfold localToUtcISO. rewrite Hz. f_equal.
  unfold toISO, toUTC, setZone, fromISO_local, fromObject, objToTS.
  cbn [li_date li_hour li_minute].
  assert (Hr : 0 <= r < msPerDay) by (apply Z.mod_pos_bound; unfold msPerDay; lia).
  assert (HL : objToLocalTS
                 (mkObj (year (civil_from_days D)) (month (civil_from_days D))
                        (day (civil_from_days D)) (r / 3600000) ((r / 60000) mod 60) 0 0)
               = D * msPerDay + r / 60000 * 60000).
  { unfold objToLocalTS. cbn [c_year c_month c_day c_hour c_minute c_second c_millisecond].
    rewrite PassFacts.date_eta, days_from_civil_from_days.
    unfold msPerDay in *. Z.to_euclidean_division_equations. lia. }
  rewrite HL.
  rewrite (fixOffset_settled z D k)
    by (auto; unfold msPerDay in *; Z.to_euclidean_division_equations; lia).
  cbn [ts fst].
  assert (Et : t + k * msPerMinute = D * msPerDay + r).
  { subst r. rewrite <- (on_day_div _ _ _ Hd) at 1.
    pose proof (Z.div_mod (t + k * msPerMinute) msPerDay ltac:(unfold msPerDay; lia)). lia. }
  unfold msPerDay, msPerMinute in *. Z.to_euclidean_division_equations. lia.
Qed.

End TimezoneFacts.

(** ** Properties of [timezone.ts] and of the completion time of the card *)

Module TimezoneProps.
Import Civil Luxon Timezone Supabase React Tasks Pass Behaviour Examples.
Import CivilFacts LuxonFacts PassFacts ExamplesFacts CalendarFacts TimezoneFacts.

(** X1.  [getUserTimezone] never returns the empty string: it returns the
    profile's value when there is one, and "UTC" for a missing or empty
    one.  "UTC" is a zone in every runtime, whatever its zone database
    holds, so with a missing or empty profile value [startOfTodayInZone]
    is the valid DateTime at the last UTC midnight, not after now and less
    than a day before it. *)
Theorem missing_profile_timezone_means_UTC :
  forall tzdb clock profileTimezone,
    getUserTimezone profileTimezone <> ""
    /\ (forall s, profileTimezone = Some s -> s <> "" ->
                  getUserTimezone profileTimezone = s)
    /\ (profileTimezone = None \/ profileTimezone = Some "" ->
        getUserTimezone profileTimezone = "UTC"
        /\ startOfTodayInZone tzdb clock (getUserTimezone profileTimezone)
           = Some (mkDT (clock / msPerDay * msPerDay) utcInstance 0)
        /\ clock / msPerDay * msPerDay <= clock < clock / msPerDay * msPerDay + msPerDay).
Proof.
  intros tzdb clock p. split; [|split].
  - unfold getUserTimezone. destruct p as [s|]; [|discriminate].
    destruct (String.eqb s "") eqn:E; [discriminate|].
    apply String.eqb_neq. exact E.
  - intros s -> Hs. unfold getUserTimezone.
    apply String.eqb_neq in Hs. rewrite Hs. reflexivity.
  - intros Hp.
    assert (E : getUserTimezone p = "UTC") by (destruct Hp as [-> | ->]; reflexivity).
    rewrite E. split; [reflexivity|]. split.
    + unfold startOfTodayInZone. rewrite normalizeZone_UTC. f_equal.
      pose proof (on_day_of clock 0) as Hd.
      rewrite (startOfDay_now utcInstance _ 0 clock (utc_settled _) Hd).
      f_equal. unfold msPerMinute. replace (clock + 0 * 60000) with clock by lia. lia.
    + unfold msPerDay.
      pose proof (Z.div_mod clock 86400000 ltac:(lia)).
      pose proof (Z.mod_pos_bound clock 86400000 ltac:(lia)). lia.
Qed.

(** X2.  Where the zone has no offset transition within a day of today,
    [startOfTodayInZone] and [startOfTomorrowInZone] are the two local
    midnights around now: today's start is not after now, tomorrow's is
    after now and exactly 24 hours after today's, and they show today's
    date and the next one. *)
Theorem today_and_tomorrow_bracket_now :
  forall tzdb clock timezone z D k,
    normalizeZone tzdb timezone = Some z ->
    settled z D k -> on_day clock k D ->
    exists today tomorrow,
      startOfTodayInZone tzdb clock timezone = Some today
      /\ startOfTomorrowInZone tzdb clock timezone = Some tomorrow
      /\ ts today <= clock < ts tomorrow
      /\ ts tomorrow = ts today + msPerDay
      /\ toFormat_date today = civil_from_days D
      /\ toFormat_date tomorrow = civil_from_days (D + 1)
      /\ toFormat_time today = mkTime 0 0 0
      /\ toFormat_time tomorrow = mkTime 0 0 0.
Proof.
  intros tzdb clock timezone z D k Hz Hs Hc.
  exists (mkDT (D * msPerDay - k * msPerMinute) z k),
         (mkDT ((D + 1) * msPerDay - k * msPerMinute) z k).
  split; [unfold startOfTodayInZone; rewrite Hz; f_equal; apply startOfDay_now; assumption|].
  split; [unfold startOfTomorrowInZone; rewrite Hz; f_equal;
          apply startOfDay_tomorrow; assumption|].
  cbn [ts]. split; [unfold on_day in Hc; lia|]. split; [lia|].
  split; [apply toFormat_date_at_midnight|]. split; [apply toFormat_date_at_midnight|].
  split; apply toFormat_time_at_midnight.
Qed.

(** X3.  From UTC to the local form value and back.  Where the zone has
    no offset transition within a day of the instant, [utcToLocalISO]
    followed by [localToUtcISO] in the same zone gives the instant rounded
    down to the whole minute: seconds and milliseconds are dropped, and
    nothing else changes.  (The offset the zone has now, from which luxon
    starts its search, is within a day of the offset found, as in every
    zone of the database.) *)
Theorem utc_to_local_and_back_drops_the_seconds :
  forall tzdb clock timezone z D k t,
    normalizeZone tzdb timezone = Some z ->
    settled z D k -> on_day t k D -> -1440 <= k - z clock <= 1440 ->
    exists localInput,
      utcToLocalISO tzdb t timezone = Some localInput
      /\ localToUtcISO tzdb clock localInput timezone = Some (t / 60000 * 60000)
      /\ t - 60000 < t / 60000 * 60000 <= t.
Proof.
  intros tzdb clock timezone z D k t Hz Hs Hd Hk.
  pose proof (settled_at _ _ _ _ Hs Hd) as Hzt.
  set (r := (t + k * msPerMinute) mod msPerDay).
  exists (mkLocal (civil_from_days D) (r / 3600000) ((r / 60000) mod 60)).
  split; [unfold utcToLocalISO; rewrite Hz; f_equal; apply toFormat_local_at; assumption|].
  split; [|Z.to_euclidean_division_equations; lia].
  apply (local_minute_to_utc tzdb clock timezone z D k); assumption.
Qed.

(** X4.  From the local form value to UTC and back.  For a form value
    that is a date of the calendar with a time of day, in a zone with no
    offset transition within a day of that date, [localToUtcISO] followed
    by [utcToLocalISO] in the same zone gives the form value back. *)
Theorem local_to_utc_and_back_is_the_input :
  forall tzdb clock timezone z k localInput,
    normalizeZone tzdb timezone = Some z ->
    well_formed localInput ->
    settled z (days_from_civil (li_date localInput)) k ->
    -1440 <= k - z clock <= 1440 ->
    exists t,
      localToUtcISO tzdb clock localInput timezone = Some t
      /\ utcToLocalISO tzdb t timezone = Some localInput.
Proof.
  intros tzdb clock timezone z k [d h mi] Hz (Hm & Hday & Hh & Hmi) Hs Hk.
  cbn [li_date li_hour li_minute] in *.
  set (D := days_from_civil d) in *.
  set (L := D * msPerDay + h * 3600000 + mi * 60000).
  assert (HL : objToLocalTS (mkObj (year d) (month d) (day d) h mi 0 0) = L).
  { unfold objToLocalTS. cbn [c_year c_month c_day c_hour c_minute c_second c_millisecond].
    rewrite date_eta. subst L D. lia. }
  assert (Hin : D * msPerDay <= L < (D + 1) * msPerDay) by (subst L; unfold msPerDay; lia).
  exists (L - k * msPerMinute). split.
  - unfold localToUtcISO. rewrite Hz. f_equal.
    unfold toISO, toUTC, setZone, fromISO_local, fromObject, objToTS.
    cbn [li_date li_hour li_minute]. rewrite HL.
    rewrite (fixOffset_settled z D k) by (auto; lia). reflexivity.
  - unfold utcToLocalISO. rewrite Hz. f_equal.
    assert (Hd : on_day (L - k * msPerMinute) k D) by (unfold on_day; lia).
    rewrite (toFormat_local_at z _ k D (settled_at _ _ _ _ Hs Hd) Hd).
    replace (L - k * msPerMinute + k * msPerMinute) with L by lia.
    assert (Er : L mod msPerDay = h * 3600000 + mi * 60000).
    { symmetry. apply Z.mod_unique with (q := D); [left; unfold msPerDay; lia|].
      subst L. lia. }
    rewrite Er. subst D. rewrite civil_from_days_from_civil by assumption.
    f_equal; Z.to_euclidean_division_equations; lia.
Qed.

(** X5.  The completion time a card opens with is the current instant in
    the user's zone, to the minute.  Submitted as it is, [localToUtcISO]
    turns it into the instant at which the card was created rounded down
    to the whole minute (in a zone with no offset transition within a day
    of that instant): never an instant after the card was created. *)
Theorem default_completion_time_is_now_to_the_minute :
  forall tzdb created clock userTimezone z D k,
    normalizeZone tzdb userTimezone = Some z ->
    settled z D k -> on_day created k D -> -1440 <= k - z clock <= 1440 ->
    exists completionTime,
      TaskCard.initialCompletionTime tzdb created userTimezone = Some completionTime
      /\ li_date completionTime = local_date z created
      /\ li_hour completionTime = hour (local_time z created)
      /\ li_minute completionTime = minute (local_time z created)
      /\ localToUtcISO tzdb clock completionTime userTimezone
         = Some (created / 60000 * 60000)
      /\ created / 60000 * 60000 <= created.
Proof.
  intros tzdb created clock userTimezone z D k Hz Hs Hd Hk.
  pose proof (settled_at _ _ _ _ Hs Hd) as Hzt.
  exists (toFormat_local (setZone (now created) z)).
  split; [unfold TaskCard.initialCompletionTime; rewrite Hz; reflexivity|].
  split; [reflexivity|]. split; [reflexivity|]. split; [reflexivity|].
  split; [|Z.to_euclidean_division_equations; lia].
  change (setZone (now created) z) with (setZone (fromISO_instant created) z).
  rewrite (toFormat_local_at z created k D Hzt Hd).
  apply (local_minute_to_utc tzdb clock userTimezone z D k); assumption.
Qed.

Lemma missing_profile_timezone_means_UTC_witness :
  (Some "Asia/Kolkata" = Some "Asia/Kolkata" /\ "Asia/Kolkata" <> ""
   /\ (@None string = None \/ @None string = Some ""))
  /\ getUserTimezone (Some "Asia/Kolkata") = "Asia/Kolkata"
  /\ getUserTimezone None = "UTC"
  /\ startOfTodayInZone zones (instant 2025 1 12 20 0 0) (getUserTimezone None)
     = Some (mkDT (instant 2025 1 12 20 0 0 / msPerDay * msPerDay) utcInstance 0).
Proof.
  assert (h1 : Some "Asia/Kolkata" = Some "Asia/Kolkata") by reflexivity.
  assert (h2 : "Asia/Kolkata" <> "") by discriminate.
  assert (h3 : @None string = None \/ @None string = Some "") by (left; reflexivity).
  exact (conj (conj h1 (conj h2 h3))
          (conj (proj1 (proj2 (missing_profile_timezone_means_UTC zones
                                 (instant 2025 1 12 20 0 0) (Some "Asia/Kolkata")))
                       "Asia/Kolkata" h1 h2)
            (conj (proj1 (proj2 (proj2 (missing_profile_timezone_means_UTC zones
                                          (instant 2025 1 12 20 0 0) None)) h3))
                  (proj1 (proj2 (proj2 (proj2 (missing_profile_timezone_means_UTC zones
                                          (instant 2025 1 12 20 0 0) None)) h3)))))).
Defined.

Lemma today_and_tomorrow_bracket_now_witness :
  (normalizeZone zones "America/New_York" = Some America_New_York
   /\ settled America_New_York 20158 (-240)
   /\ on_day (instant 2025 3 11 15 0 0) (-240) 20158)
  /\ exists today tomorrow,
       startOfTodayInZone zones (instant 2025 3 11 15 0 0) "America/New_York"
       = Some today
       /\ startOfTomorrowInZone zones (instant 2025 3 11 15 0 0) "America/New_York"
          = Some tomorrow
       /\ ts today <= instant 2025 3 11 15 0 0 < ts tomorrow
       /\ ts tomorrow = ts today + msPerDay
       /\ toFormat_date today = civil_from_days 20158
       /\ toFormat_date tomorrow = civil_from_days (20158 + 1)
       /\ toFormat_time today = mkTime 0 0 0
       /\ toFormat_time tomorrow = mkTime 0 0 0.
Proof.
  assert (h1 : normalizeZone zones "America/New_York" = Some America_New_York)
    by reflexivity.
  assert (h2 : settled America_New_York 20158 (-240)) by (apply new_york_summer; lia).
  assert (h3 : on_day (instant 2025 3 11 15 0 0) (-240) 20158)
    by (vm_compute; split; congruence).
  exact (conj (conj h1 (conj h2 h3))
              (today_and_tomorrow_bracket_now zones (instant 2025 3 11 15 0 0)
                 "America/New_York" America_New_York 20158 (-240) h1 h2 h3)).
Defined.

Lemma utc_to_local_and_back_drops_the_seconds_witness :
  (normalizeZone zones "America/New_York" = Some America_New_York
   /\ settled America_New_York 20158 (-240)
   /\ on_day (instant 2025 3 11 15 0 37 + 123) (-240) 20158
   /\ -1440 <= -240 - America_New_York (instant 2025 3 11 21 0 0) <= 1440)
  /\ exists localInput,
       utcToLocalISO zones (instant 2025 3 11 15 0 37 + 123) "America/New_York"
       = Some localInput
       /\ localToUtcISO zones (instant 2025 3 11 21 0 0) localInput "America/New_York"
          = Some ((instant 2025 3 11 15 0 37 + 123) / 60000 * 60000)
       /\ instant 2025 3 11 15 0 37 + 123 - 60000
          < (instant 2025 3 11 15 0 37 + 123) / 60000 * 60000
          <= instant 2025 3 11 15 0 37 + 123.
Proof.
  assert (h1 : normalizeZone zones "America/New_York" = Some America_New_York)
    by reflexivity.
  assert (h2 : settled America_New_York 20158 (-240)) by (apply new_york_summer; lia).
  assert (h3 : on_day (instant 2025 3 11 15 0 37 + 123) (-240) 20158)
    by (vm_compute; split; congruence).
  assert (h4 : -1440 <= -240 - America_New_York (instant 2025 3 11 21 0 0) <= 1440)
    by (vm_compute; split; congruence).
  exact (conj (conj h1 (conj h2 (conj h3 h4)))
              (utc_to_local_and_back_drops_the_seconds zones (instant 2025 3 11 21 0 0)
                 "America/New_York" America_New_York 20158 (-240)
                 (instant 2025 3 11 15 0 37 + 123) h1 h2 h3 h4)).
Defined.

Lemma local_to_utc_and_back_is_the_input_witness :
  (normalizeZone zones "America/New_York" = Some America_New_York
   /\ well_formed (mkLocal (mkDate 2025 3 11) 17 30)
   /\ settled America_New_York (days_from_civil (mkDate 2025 3 11)) (-240)
   /\ -1440 <= -240 - America_New_York (instant 2025 3 11 21 0 0) <= 1440)
  /\ exists t,
       localToUtcISO zones (instant 2025 3 11 21 0 0) (mkLocal (mkDate 2025 3 11) 17 30)
                     "America/New_York" = Some t
       /\ utcToLocalISO zones t "America/New_York"
          = Some (mkLocal (mkDate 2025 3 11) 17 30).
Proof.
  assert (h1 : normalizeZone zones "America/New_York" = Some America_New_York)
    by reflexivity.
  assert (h2 : well_formed (mkLocal (mkDate 2025 3 11) 17 30))
    by (unfold well_formed; vm_compute; intuition congruence).
  assert (h3 : settled America_New_York (days_from_civil (mkDate 2025 3 11)) (-240))
    by (apply new_york_summer; vm_compute; split; congruence).
  assert (h4 : -1440 <= -240 - America_New_York (instant 2025 3 11 21 0 0) <= 1440)
    by (vm_compute; split; congruence).
  exact (conj (conj h1 (conj h2 (conj h3 h4)))
              (local_to_utc_and_back_is_the_input zones (instant 2025 3 11 21 0 0)
                 "America/New_York" America_New_York (-240)
                 (mkLocal (mkDate 2025 3 11) 17 30) h1 h2 h3 h4)).
Defined.

Lemma default_completion_time_is_now_to_the_minute_witness :
  (normalizeZone zones "America/New_York" = Some America_New_York
   /\ settled America_New_York 20158 (-240)
   /\ on_day (instant 2025 3 11 15 0 37) (-240) 20158
   /\ -1440 <= -240 - America_New_York (instant 2025 3 11 21 0 0) <= 1440)
  /\ exists completionTime,
       TaskCard.initialCompletionTime zones (instant 2025 3 11 15 0 37)
                                      "America/New_York" = Some completionTime
       /\ li_date completionTime
          = local_date America_New_York (instant 2025 3 11 15 0 37)
       /\ li_hour completionTime
          = hour (local_time America_New_York (instant 2025 3 11 15 0 37))
       /\ li_minute completionTime
          = minute (local_time America_New_York (instant 2025 3 11 15 0 37))
       /\ localToUtcISO zones (instant 2025 3 11 21 0 0) completionTime
                        "America/New_York"
          = Some (instant 2025 3 11 15 0 37 / 60000 * 60000)
       /\ instant 2025 3 11 15 0 37 / 60000 * 60000 <= instant 2025 3 11 15 0 37.
Proof.
  assert (h1 : normalizeZone zones "America/New_York" = Some America_New_York)
    by reflexivity.
  assert (h2 : settled America_New_York 20158 (-240)) by (apply new_york_summer; lia).
  assert (h3 : on_day (instant 2025 3 11 15 0 37) (-240) 20158)
    by (vm_compute; split; congruence).
  assert (h4 : -1440 <= -240 - America_New_York (instant 2025 3 11 21 0 0) <= 1440)
    by (vm_compute; split; congruence).
  exact (conj (conj h1 (conj h2 (conj h3 h4)))
              (default_completion_time_is_now_to_the_minute zones
                 (instant 2025 3 11 15 0 37) (instant 2025 3 11 21 0 0)
                 "America/New_York" America_New_York 20158 (-240) h1 h2 h3 h4)).
Defined.

End TimezoneProps.

(** ** The page: profile, pass and list, step by step *)

Module PageFacts.
Import Civil Luxon Timezone Supabase React Tasks Pass Behaviour.
Import CivilFacts LuxonFacts PassFacts.

Lemma date_eqb_eq a b : date_eqb a b = true <-> a = b.
Proof.
  unfold date_eqb. destruct a as [y m d], b as [y' m' d']. cbn [year month day].
  rewrite !andb_true_iff, !Z.eqb_eq. split.
  - intros [[-> ->] ->]. reflexivity.
  - intros E. injection E as -> -> ->. auto.
Qed.

Lemma insert_by_start_perm t l : Permutation (insert_by_start t l) (t :: l).
Proof.
  induction l as [|x r IH]; cbn [insert_by_start]; [reflexivity|].
  destruct (start_time t <? start_time x); [reflexivity|].
  rewrite IH. apply perm_swap.
Qed.

Lemma order_perm l : Permutation (fold_right insert_by_start [] l) l.
Proof.
  induction l as [|x r IH]; cbn [fold_right]; [reflexivity|].
  rewrite insert_by_start_perm. constructor. exact IH.
Qed.

Lemma insert_by_start_hd t x l :
  by_start_time x t -> HdRel by_start_time x l ->
  HdRel by_start_time x (insert_by_start t l).
Proof.
  intros Hxt Hl. destruct l as [|y r]; cbn [insert_by_start]; [constructor; exact Hxt|].
  destruct (start_time t <? start_time y); constructor; [exact Hxt|].
  inversion Hl; assumption.
Qed.

Lemma insert_by_start_sorted t l :
  Sorted by_start_time l -> Sorted by_start_time (insert_by_start t l).
Proof.
  induction l as [|x r IH]; intros Hs; cbn [insert_by_start].
  - repeat constructor.
  - inversion Hs as [|? ? Hr Hx]; subst.
    destruct (start_time t <? start_time x) eqn:E.
    + constructor; [exact Hs|]. constructor.
      apply Z.ltb_lt in E. unfold by_start_time. lia.
    + constructor; [apply IH; exact Hr|].
      apply insert_by_start_hd; [|exact Hx].
      apply Z.ltb_ge in E. exact E.
Qed.

Lemma order_sorted l : Sorted by_start_time (fold_right insert_by_start [] l).
Proof.
  induction l as [|x r IH]; cbn [fold_right]; [constructor|].
  apply insert_by_start_sorted. exact IH.
Qed.

(** The list query of the page, when the backend answers. *)
Lemma select_for_day_ok env d user today :
  select_error env = None ->
  select_for_day env d user (Some today)
  = inr (fold_right insert_by_start [] (filter (listed user today) (tasks d))).
Proof. intros H. unfold select_for_day. rewrite H. reflexivity. Qed.

(** What [fetchUserTimezone] does to the world. *)
Lemma fetchUserTimezone_world env w :
  fetchUserTimezone env w
  = (mkWorld (db w)
       (mkPage (st_tasks (page w)) (st_loading (page w))
          (match session env with
           | Some user =>
               match select_profile (db w) user with
               | Some profile =>
                   match timezone profile with
                   | Some tz => if String.eqb tz "" then st_userTimezone (page w) else tz
                   | None => st_userTimezone (page w)
                   end
               | None => st_userTimezone (page w)
               end
           | None => st_userTimezone (page w)
           end))
       (card w) (events w), inr tt).
Proof.
  unfold fetchUserTimezone. destruct w as [d [l b tz] cd ev].
  cbn [db page card events st_tasks st_loading st_userTimezone].
  destruct (session env) as [user|]; [|reflexivity].
  unfold bind, get_db. cbn [db].
  destruct (select_profile d user) as [p|]; [|reflexivity].
  destruct (timezone p) as [s|]; [|reflexivity].
  destruct (String.eqb s ""); reflexivity.
Qed.

(** What [fetchTasks] does to the world. *)
Lemma fetchTasks_world env userTimezone w :
  fetchTasks env userTimezone w
  = match session env with
    | None =>
        (mkWorld (db w) (mkPage (st_tasks (page w)) false (st_userTimezone (page w)))
                 (card w) (events w), inr tt)
    | Some user =>
        match select_for_day env (db w) user (resolved_today env userTimezone) with
        | inl e =>
            (mkWorld (db w) (mkPage (st_tasks (page w)) false (st_userTimezone (page w)))
                     (card w) (events w ++ [Toast "Error" (message e) true]), inr tt)
        | inr data =>
            (mkWorld (db w) (mkPage data false (st_userTimezone (page w)))
                     (card w) (events w), inr tt)
        end
    end.
Proof.
  unfold fetchTasks, finally, try_catch, resolved_today.
  destruct (session env) as [user|]; [|reflexivity].
  unfold bind, get_db.
  destruct (select_for_day env (db w) user _) as [e|data]; reflexivity.
Qed.

Lemma pass_world_some env userTimezone w :
  exists d', carryForwardTasks env userTimezone w
             = (mkWorld d' (page w) (card w)
                        (events w ++ pass_events env userTimezone), inr tt)
             /\ profiles d' = profiles (db w)
             /\ task_images d' = task_images (db w)
             /\ (session env = None \/ select_error env <> None
                 \/ normalizeZone (tzdb env) userTimezone = None -> d' = db w).
Proof.
  unfold pass_events, carryForwardTasks, try_catch, startOfTodayInZone.
  destruct w as [d pg cd ev]. cbn [db page card events].
  destruct (session env) as [user|];
    [|exists d; cbn; rewrite app_nil_r; repeat split; reflexivity].
  unfold bind at 1. unfold get_db at 1. cbn [db]. unfold select_pending_before.
  destruct (select_error env) as [e|]; [exists d; repeat split; reflexivity|].
  destruct (normalizeZone (tzdb env) userTimezone) as [z|];
    [|exists d; repeat split; reflexivity].
  cbn [option_map].
  destruct (filter _ (tasks d)) as [|p rest];
    [exists d; cbn; rewrite app_nil_r; repeat split; reflexivity|].
  destruct (Promise_all_updates env
              (rollover env (startOfDay (setZone (now (clock env)) z))
                        (toFormat_date (startOfDay (setZone (now (clock env)) z))))
              (p :: rest) (mkWorld d pg cd ev)) as [errs Hall].
  unfold bind at 1. rewrite Hall. unfold ret. cbn [db page card events].
  rewrite app_nil_r. eexists. split; [reflexivity|].
  split; [reflexivity|]. split; [reflexivity|].
  intros [H|[H|H]]; [discriminate | contradiction | discriminate].
Qed.

(** [fetchTasks] returns, with the loading flag cleared and the
    database and the card as they were. *)
Lemma fetchTasks_returns env userTimezone w :
  exists w', fetchTasks env userTimezone w = (w', inr tt)
             /\ st_loading (page w') = false /\ db w' = db w /\ card w' = card w.
Proof.
  rewrite fetchTasks_world.
  destruct (session env) as [user|]; [destruct (select_for_day _ _ _ _)|];
    eexists; repeat split; reflexivity.
Qed.

(** The three steps of [initializeTasks], none of which throws. *)
Lemma initializeTasks_steps env userTimezone w :
  initializeTasks env userTimezone w
  = fetchTasks env userTimezone
      (run (carryForwardTasks env userTimezone) (run (fetchUserTimezone env) w)).
Proof.
  unfold initializeTasks. unfold bind at 1.
  destruct (fetchUserTimezone env w) as [w0 r0] eqn:E0.
  assert (Hr0 : r0 = inr tt) by (rewrite fetchUserTimezone_world in E0; congruence).
  subst r0. unfold bind at 1.
  destruct (pass_world_some env userTimezone w0) as (d' & H & _).
  unfold run. rewrite E0. cbn [fst]. rewrite H. reflexivity.
Qed.

Lemma candidate_rows env d user today :
  select_error env = None ->
  select_pending_before env d user (Some today)
  = inr (filter (candidate user today) (tasks d)).
Proof. intros H. unfold select_pending_before. rewrite H. reflexivity. Qed.

Lemma filter_nothing {A} (p : A -> bool) l :
  (forall x, In x l -> p x = false) -> filter p l = [].
Proof.
  induction l as [|x r IH]; intros H; [reflexivity|].
  cbn [filter]. rewrite (H x (or_introl eq_refl)). apply IH.
  intros y Hy. apply H. right. exact Hy.
Qed.

(** The rebuilt wall clock as one number: the seconds of the local day,
    on day [D]. *)
Lemma wall_clock_of_day z k D s :
  z s = k ->
  wall_clock_instant (civil_from_days D) (local_time z s) k
  = D * msPerDay - k * msPerMinute
    + (s + k * msPerMinute) mod msPerDay / 1000 * 1000.
Proof.
  intros Hk.
  unfold wall_clock_instant, local_time, toFormat_time, setZone, fromISO_instant, c,
         tsToObj, objToLocalTS.
  cbn [ts o hour minute second c_year c_month c_day c_hour c_minute c_second
       c_millisecond].
  rewrite date_eta, days_from_civil_from_days, Hk.
  replace (s + k * 60 * 1000) with (s + k * msPerMinute) by (unfold msPerMinute; lia).
  set (r := (s + k * msPerMinute) mod msPerDay).
  assert (Hr : 0 <= r < msPerDay) by (apply Z.mod_pos_bound; unfold msPerDay; lia).
  unfold msPerDay in *. Z.to_euclidean_division_equations. lia.
Qed.

(** What a pass makes of one row in a zone of one offset. *)
Lemma rolled_fixed env z k D user t :
  (forall x, z x = k) -> on_day (clock env) k D ->
  update_error env (id t) = None ->
  rolled env (mkDT (D * msPerDay - k * msPerMinute) z k) (civil_from_days D) user t
  = if candidate user (civil_from_days D) t then rolled_to D k t else t.
Proof.
  intros Hz Hc Hupd. unfold rolled.
  destruct (candidate user (civil_from_days D) t) eqn:Ec; [|reflexivity].
  rewrite Hupd.
  assert (Hlt : days_from_civil (task_date t) < D).
  { unfold candidate in Ec. apply andb_true_iff in Ec as [_ Hlt].
    unfold date_ltb in Hlt. rewrite days_from_civil_from_days in Hlt.
    apply Z.ltb_lt. exact Hlt. }
  rewrite (rollover_settled env z D k t); auto.
  - unfold apply_update, rolled_to, override.
    cbn [set_task_date set_start_time set_consecutive_missed_days set_status
         set_end_time set_total_time_minutes set_image_path].
    rewrite wall_clock_of_day by apply Hz. reflexivity.
  - apply fixed_offset_settled. exact Hz.
  - exists k. split; [apply fixed_offset_settled; exact Hz | lia].
Qed.

(** The rows after a pass in a zone of one offset. *)
Lemma pass_rows_fixed env userTimezone z k user w :
  session env = Some user -> select_error env = None ->
  (forall key, update_error env key = None) ->
  normalizeZone (tzdb env) userTimezone = Some z -> (forall x, z x = k) ->
  NoDup (map id (tasks (db w))) ->
  let D := (clock env + k * msPerMinute) / msPerDay in
  tasks (db (run (carryForwardTasks env userTimezone) w))
  = map (fun t => if candidate user (civil_from_days D) t then rolled_to D k t else t)
        (tasks (db w)).
Proof.
  intros Hu Hsel Hupd Hn Hz Hnd D.
  destruct (fixed_offset_today z k (clock env) Hz) as [Hs Hc]. fold D in Hs, Hc.
  destruct (today_settled env userTimezone z D k Hn Hs Hc) as [Ets _].
  rewrite (pass_db env userTimezone w Hnd), Hu, Hsel, Ets. cbn [tasks].
  rewrite toFormat_date_at_midnight. apply map_ext. intros t.
  apply rolled_fixed; auto.
Qed.

(** One overdue row after a pass in a zone of one offset. *)
Lemma pass_row_fixed env userTimezone z k user w i t :
  session env = Some user -> select_error env = None ->
  update_error env (id t) = None ->
  normalizeZone (tzdb env) userTimezone = Some z -> (forall x, z x = k) ->
  NoDup (map id (tasks (db w))) ->
  nth_error (tasks (db w)) i = Some t ->
  user_id t = user -> status t = "pending" ->
  let D := (clock env + k * msPerMinute) / msPerDay in
  days_from_civil (task_date t) < D ->
  nth_error (tasks (db (run (carryForwardTasks env userTimezone) w))) i
  = Some (rolled_to D k t).
Proof.
  intros Hu Hsel Hupd Hn Hz Hnd Hi Huser Hst D Hlt.
  destruct (fixed_offset_today z k (clock env) Hz) as [Hs Hc]. fold D in Hs, Hc.
  assert (Hcand : candidate user (civil_from_days D) t = true).
  { unfold candidate, date_ltb. rewrite Huser, Hst, !String.eqb_refl.
    rewrite days_from_civil_from_days. cbn [andb]. apply Z.ltb_lt. exact Hlt. }
  rewrite (pass_row env userTimezone z D k user w i t) by assumption.
  rewrite rolled_fixed by assumption. rewrite Hcand. reflexivity.
Qed.

(** Rolling a rolled row further is rolling the row at once. *)
Lemma rolled_to_twice D1 D2 k t :
  days_from_civil (task_date t) < D1 ->
  rolled_to D2 k (rolled_to D1 k t) = rolled_to D2 k t.
Proof.
  intros Hlt. unfold rolled_to.
  cbn [id user_id title description start_time end_time total_time_minutes status
       image_path consecutive_missed_days task_date original_date].
  rewrite days_from_civil_from_days.
  set (r := (start_time t + k * msPerMinute) mod msPerDay).
  assert (Hr : 0 <= r < msPerDay) by (apply Z.mod_pos_bound; unfold msPerDay; lia).
  assert (E : (D1 * msPerDay - k * msPerMinute + r / 1000 * 1000 + k * msPerMinute)
              mod msPerDay = r / 1000 * 1000).
  { symmetry. apply Z.mod_unique with (q := D1).
    - left. unfold msPerDay in *. Z.to_euclidean_division_equations. lia.
    - lia. }
  rewrite E.
  replace (r / 1000 * 1000 / 1000 * 1000) with (r / 1000 * 1000)
    by (rewrite Z.div_mul by lia; reflexivity).
  f_equal. lia.
Qed.

End PageFacts.

(** ** Properties of the page: profile, pass, list and mount *)

Module PageProps.
Import Civil Luxon Timezone Supabase React Tasks Pass Behaviour Examples.
Import CivilFacts LuxonFacts PassFacts ExamplesFacts TimezoneFacts PageFacts.
Local Open Scope action_scope.
Local Open Scope list_scope.


(** X7.  A pass never throws to its caller, touches neither the page
    state nor the card, and reports only a failed candidate query.  With
    no session it does nothing at all.  When the query is refused, or when
    the time zone is not a valid one (today is then no date, and the
    query is refused for it), no row changes and one "Carry-forward
    error:" goes to the console.  When the query is answered nothing is
    reported, whatever the backend does with the updates: a refused
    update leaves no trace. *)
Theorem pass_reports_only_a_failed_query :
  forall env userTimezone w,
    exists w',
      carryForwardTasks env userTimezone w = (w', inr tt)
      /\ page w' = page w /\ card w' = card w
      /\ (session env = None -> w' = w)
      /\ (forall user e,
             session env = Some user -> select_error env = Some e ->
             db w' = db w
             /\ events w' = events w ++ [ConsoleError "Carry-forward error:" e])
      /\ (forall user,
             session env = Some user -> select_error env = None ->
             normalizeZone (tzdb env) userTimezone = None ->
             db w' = db w
             /\ events w' = events w
                            ++ [ConsoleError "Carry-forward error:" invalid_date_literal])
      /\ (forall z,
             select_error env = None ->
             normalizeZone (tzdb env) userTimezone = Some z ->
             events w' = events w).
Proof.
  intros env userTimezone w.
  destruct (pass_world_some env userTimezone w) as (d' & H & _ & _ & Hsame).
  eexists. split; [exact H|]. cbn [page card db events].
  split; [reflexivity|]. split; [reflexivity|]. unfold pass_events.
  split; [|split; [|split]].
  - intros Hu. rewrite Hu, app_nil_r, (Hsame (or_introl Hu)).
    destruct w; reflexivity.
  - intros user e Hu He. rewrite Hu, He. split; [|reflexivity].
    apply Hsame. right. left. rewrite He. discriminate.
  - intros user Hu Hsel Hz. rewrite Hu, Hsel, Hz. split; [|reflexivity].
    apply Hsame. right. right. exact Hz.
  - intros z Hsel Hz. rewrite Hsel, Hz.
    destruct (session env); apply app_nil_r.
Qed.

(** X8.  A pass writes task rows of the signed-in user only.  Every row
    of another user (every row, without a session) is the same row at the
    same position afterwards; no row is added, removed or moved and no id
    changes; profiles and stored images are as they were. *)
Theorem pass_leaves_other_users_rows_alone :
  forall env userTimezone w,
    NoDup (map id (tasks (db w))) ->
    let w' := run (carryForwardTasks env userTimezone) w in
    profiles (db w') = profiles (db w)
    /\ task_images (db w') = task_images (db w)
    /\ map id (tasks (db w')) = map id (tasks (db w))
    /\ forall i t,
         nth_error (tasks (db w)) i = Some t ->
         session env <> Some (user_id t) ->
         nth_error (tasks (db w')) i = Some t.
Proof.
  intros env userTimezone w Hnd w'. subst w'.
  destruct (pass_world_some env userTimezone w) as (d' & H & Hp & Hi & _).
  assert (Ed : db (run (carryForwardTasks env userTimezone) w) = d')
    by (unfold run; rewrite H; reflexivity).
  split; [rewrite Ed; exact Hp|]. split; [rewrite Ed; exact Hi|].
  destruct (pass_rows_cases env userTimezone w Hnd)
    as [E | (user & todayStart & Hu & _ & _ & E)]; rewrite E.
  - split; [reflexivity|]. intros i t Ht _. exact Ht.
  - split.
    + rewrite map_map. apply map_ext. intros t. apply rolled_id.
    + intros i t Ht Hother. rewrite nth_error_map, Ht. cbn [option_map]. f_equal.
      apply rolled_not_candidate. unfold candidate.
      destruct (String.eqb (user_id t) user) eqn:Eu; [|reflexivity].
      apply String.eqb_eq in Eu. exfalso. apply Hother. rewrite Hu, Eu. reflexivity.
Qed.

(** X9.  After a pass in which the backend refused nothing, the candidate
    query of the same day comes back empty: every pending task of the
    user is dated today or later.  This holds in every valid zone,
    transitions included. *)
Theorem no_overdue_task_remains_after_a_pass :
  forall env userTimezone z user w,
    session env = Some user -> select_error env = None ->
    (forall key, update_error env key = None) ->
    normalizeZone (tzdb env) userTimezone = Some z ->
    NoDup (map id (tasks (db w))) ->
    let w' := run (carryForwardTasks env userTimezone) w in
    exists today,
      resolved_today env userTimezone = Some today
      /\ select_pending_before env (db w') user (Some today) = inr []
      /\ forall t',
           In t' (tasks (db w')) -> user_id t' = user -> status t' = "pending" ->
           days_from_civil today <= days_from_civil (task_date t').
Proof.
  intros env userTimezone z user w Hu Hsel Hupd Hz Hnd w'. subst w'.
  set (todayStart := startOfDay (setZone (now (clock env)) z)).
  assert (Ets : startOfTodayInZone (tzdb env) (clock env) userTimezone = Some todayStart)
    by (unfold startOfTodayInZone; rewrite Hz; reflexivity).
  exists (toFormat_date todayStart).
  split; [unfold resolved_today; rewrite Ets; reflexivity|].
  rewrite (pass_db env userTimezone w Hnd), Hu, Hsel, Ets.
  assert (Hnone : forall t', In t' (map (rolled env todayStart (toFormat_date todayStart)
                                                  user) (tasks (db w))) ->
                             candidate user (toFormat_date todayStart) t' = false).
  { intros t' Ht'. apply in_map_iff in Ht' as (t & <- & _).
    apply candidate_after_roll. apply Hupd. }
  split.
  - rewrite candidate_rows by exact Hsel. cbn [tasks]. f_equal.
    apply filter_nothing. exact Hnone.
  - cbn [tasks]. intros t' Ht' Huser Hst. specialize (Hnone t' Ht').
    unfold candidate in Hnone. rewrite Huser, Hst, !String.eqb_refl in Hnone.
    cbn [andb] in Hnone. unfold date_ltb in Hnone. apply Z.ltb_ge in Hnone. exact Hnone.
Qed.

(** X10.  When the list query is answered, [fetchTasks] puts into the
    page state exactly the rows of the signed-in user that are dated today
    (the date resolved in the time zone it holds), each once, in ascending
    order of start_time; it clears the loading flag and changes nothing
    else, the database included. *)
Theorem list_fetch_shows_today_in_start_order :
  forall env userTimezone w user today,
    session env = Some user -> select_error env = None ->
    resolved_today env userTimezone = Some today ->
    let w' := run (fetchTasks env userTimezone) w in
    Permutation (st_tasks (page w')) (filter (listed user today) (tasks (db w)))
    /\ Sorted by_start_time (st_tasks (page w'))
    /\ (forall t, In t (st_tasks (page w'))
                  <-> In t (tasks (db w)) /\ user_id t = user /\ task_date t = today)
    /\ st_loading (page w') = false
    /\ st_userTimezone (page w') = st_userTimezone (page w)
    /\ db w' = db w /\ card w' = card w /\ events w' = events w.
Proof.
  intros env userTimezone w user today Hu Hsel Htoday w'. subst w'.
  unfold run. rewrite fetchTasks_world, Hu, Htoday, select_for_day_ok by exact Hsel.
  cbn [fst db page card events st_tasks st_loading st_userTimezone].
  split; [apply order_perm|]. split; [apply order_sorted|].
  split; [|repeat split].
  intros t. split.
  - intros Hin. apply (Permutation_in _ (order_perm _)) in Hin.
    apply filter_In in Hin as [Hin Hl]. unfold listed in Hl.
    apply andb_true_iff in Hl as [Hl1 Hl2].
    apply String.eqb_eq in Hl1. apply date_eqb_eq in Hl2. auto.
  - intros (Hin & Hl1 & Hl2).
    apply (Permutation_in _ (Permutation_sym (order_perm _))).
    apply filter_In. split; [exact Hin|]. unfold listed.
    apply andb_true_iff. split; [apply String.eqb_eq | apply date_eqb_eq]; assumption.
Qed.

(** X11.  [fetchTasks] never throws, never writes to the database and
    always clears the loading flag.  Without a session it leaves the list
    as it was and reports nothing.  When the query is refused, or the
    time zone is not a valid one (today is then no date), it leaves the
    list as it was and shows one destructive toast with the error's
    message. *)
Theorem failed_list_fetch_keeps_the_old_list :
  forall env userTimezone w,
    exists w',
      fetchTasks env userTimezone w = (w', inr tt)
      /\ st_loading (page w') = false /\ db w' = db w /\ card w' = card w
      /\ (session env = None ->
          st_tasks (page w') = st_tasks (page w) /\ events w' = events w)
      /\ (forall user e,
             session env = Some user -> select_error env = Some e ->
             st_tasks (page w') = st_tasks (page w)
             /\ events w' = events w ++ [Toast "Error" (message e) true])
      /\ (forall user,
             session env = Some user -> select_error env = None ->
             normalizeZone (tzdb env) userTimezone = None ->
             st_tasks (page w') = st_tasks (page w)
             /\ events w' = events w
                            ++ [Toast "Error" (message invalid_date_literal) true]).
Proof.
  intros env userTimezone w. rewrite fetchTasks_world.
  destruct (session env) as [user|] eqn:Hu.
  - destruct (select_for_day env (db w) user (resolved_today env userTimezone))
      as [e|data] eqn:Hq; eexists; (split; [reflexivity|]);
      cbn [db page card events st_tasks st_loading];
      (do 3 (split; [reflexivity|])); (split; [discriminate|]); split.
    + intros user' e' _ He'. unfold select_for_day in Hq. rewrite He' in Hq.
      injection Hq as <-. split; reflexivity.
    + intros user' _ Hsel Hz. unfold select_for_day, resolved_today, startOfTodayInZone in Hq.
      rewrite Hsel, Hz in Hq. cbn [option_map] in Hq. injection Hq as <-.
      split; reflexivity.
    + intros user' e' _ He'. unfold select_for_day in Hq. rewrite He' in Hq. discriminate.
    + intros user' _ Hsel Hz. unfold select_for_day, resolved_today, startOfTodayInZone in Hq.
      rewrite Hsel, Hz in Hq. discriminate.
  - eexists. split; [reflexivity|]. cbn [db page card events st_tasks st_loading].
    do 3 (split; [reflexivity|]). split; [intros _; split; reflexivity|].
    split; [intros user e Hu'; discriminate | intros user Hu'; discriminate].
Qed.

(** X12.  [initializeTasks] brings every overdue task onto today's list.
    Run in a valid time zone with a signed-in user and nothing refused,
    it leaves on the list each row of the user that was pending and dated
    before today, or was dated today, now dated today; the list holds rows
    of the database after the pass only, all of the user and dated today,
    in ascending order of start_time.  Today is the date in the time zone
    that this run of [initializeTasks] holds, whatever the profile says. *)
Theorem overdue_tasks_reach_the_list_of_today :
  forall env userTimezone z user w,
    session env = Some user -> select_error env = None ->
    (forall key, update_error env key = None) ->
    normalizeZone (tzdb env) userTimezone = Some z ->
    NoDup (map id (tasks (db w))) ->
    let today := toFormat_date (startOfDay (setZone (now (clock env)) z)) in
    let w' := run (initializeTasks env userTimezone) w in
    (forall t,
        In t (tasks (db w)) -> user_id t = user ->
        task_date t = today
        \/ (status t = "pending" /\ date_ltb (task_date t) today = true) ->
        exists t', In t' (st_tasks (page w')) /\ id t' = id t /\ task_date t' = today)
    /\ (forall t', In t' (st_tasks (page w')) ->
                   In t' (tasks (db w')) /\ user_id t' = user /\ task_date t' = today)
    /\ Sorted by_start_time (st_tasks (page w')).
Proof.
  intros env userTimezone z user w Hu Hsel Hupd Hz Hnd today w'.
  set (todayStart := startOfDay (setZone (now (clock env)) z)) in *.
  assert (Ets : startOfTodayInZone (tzdb env) (clock env) userTimezone = Some todayStart)
    by (unfold startOfTodayInZone; rewrite Hz; reflexivity).
  assert (Htoday : resolved_today env userTimezone = Some today)
    by (unfold resolved_today; rewrite Ets; reflexivity).
  set (w0 := run (fetchUserTimezone env) w).
  assert (Hdb0 : db w0 = db w)
    by (subst w0; unfold run; rewrite fetchUserTimezone_world; reflexivity).
  set (w1 := run (carryForwardTasks env userTimezone) w0).
  assert (Hrows : tasks (db w1) = map (rolled env todayStart today user) (tasks (db w))).
  { subst w1. rewrite <- Hdb0 in Hnd.
    rewrite (pass_db env userTimezone w0 Hnd), Hu, Hsel, Ets, Hdb0. reflexivity. }
  assert (Ew' : w' = run (fetchTasks env userTimezone) w1).
  { subst w' w1 w0. unfold run at 1. rewrite initializeTasks_steps. reflexivity. }
  assert (Hlist : forall t', In t' (st_tasks (page w'))
                             <-> In t' (tasks (db w1)) /\ listed user today t' = true).
  { intros t'. rewrite Ew'. unfold run.
    rewrite fetchTasks_world, Hu, Htoday, select_for_day_ok by exact Hsel.
    cbn [fst page st_tasks]. rewrite <- filter_In.
    split; apply Permutation_in;
      [apply order_perm | apply Permutation_sym, order_perm]. }
  assert (Hdb : db w' = db w1).
  { rewrite Ew'. unfold run. rewrite fetchTasks_world.
    destruct (session env); [destruct (select_for_day _ _ _ _)|]; reflexivity. }
  split; [|split].
  - intros t Hin Huser Hcase. exists (rolled env todayStart today user t).
    assert (Hdate : task_date (rolled env todayStart today user t) = today).
    { unfold rolled. destruct (candidate user today t) eqn:Ec.
      - rewrite Hupd. reflexivity.
      - destruct Hcase as [E|[Hst Hlt]]; [exact E|].
        unfold candidate in Ec. rewrite Huser, Hst, !String.eqb_refl, Hlt in Ec.
        discriminate. }
    split; [|split; [apply rolled_id | exact Hdate]].
    apply Hlist. split; [rewrite Hrows; apply in_map; exact Hin|].
    unfold listed. apply andb_true_iff. split.
    + apply String.eqb_eq.
      assert (E : user_id (rolled env todayStart today user t) = user_id t).
      { unfold rolled. destruct (candidate user today t); [rewrite Hupd|]; reflexivity. }
      rewrite E. exact Huser.
    + apply date_eqb_eq. exact Hdate.
  - intros t' Hin. apply Hlist in Hin as [Hin Hl]. rewrite Hdb.
    split; [exact Hin|]. unfold listed in Hl. apply andb_true_iff in Hl as [H1 H2].
    split; [apply String.eqb_eq; exact H1 | apply date_eqb_eq; exact H2].
  - rewrite Ew'. unfold run.
    rewrite fetchTasks_world, Hu, Htoday, select_for_day_ok by exact Hsel.
    apply order_sorted.
Qed.

(** X13.  The effect that runs on mount always comes to its end: it never
    throws, and whatever the session, the profile, the time zone or the
    backend's answers, the loading flag is cleared afterwards; the card
    state, the profiles and the stored images are as they were. *)
Theorem mount_always_ends_loading :
  forall env w,
    exists w',
      mount env w = (w', inr tt)
      /\ st_loading (page w') = false
      /\ card w' = card w
      /\ profiles (db w') = profiles (db w)
      /\ task_images (db w') = task_images (db w).
Proof.
  intros env w. unfold mount. rewrite initializeTasks_steps.
  set (tz := st_userTimezone (page w)).
  set (w1 := run (fetchUserTimezone env) w).
  assert (H1 : db w1 = db w /\ card w1 = card w)
    by (subst w1; unfold run; rewrite fetchUserTimezone_world; split; reflexivity).
  destruct H1 as [Hd1 Hc1].
  destruct (pass_world_some env tz w1) as (d2 & H2 & Hp & Hi & _).
  set (w2 := run (carryForwardTasks env tz) w1).
  assert (E2 : db w2 = d2 /\ card w2 = card w1)
    by (subst w2; unfold run; rewrite H2; split; reflexivity).
  destruct E2 as [Hd2 Hc2].
  destruct (fetchTasks_returns env tz w2) as (w3 & H3 & Hl & Hd & Hc).
  exists w3. split; [exact H3|]. split; [exact Hl|].
  split; [congruence|]. rewrite Hd, Hd2, Hp, Hi, Hd1. split; reflexivity.
Qed.

(** X14.  The rolled row in closed form, for a zone of one fixed offset
    [k] (UTC, in which the pass of the mount effect runs, or Asia/Kolkata).
    With [D] the local day of now, a pending task of the user dated before
    [D] becomes the row with task_date [D], start_time at the same local
    wall-clock second on day [D], the milliseconds dropped, and the
    counter raised by the number of days from its old date to [D], which
    is at least 1; the other fields are as they were. *)
Theorem rollover_in_a_fixed_offset_zone :
  forall env userTimezone z k user w i t,
    session env = Some user -> select_error env = None ->
    update_error env (id t) = None ->
    normalizeZone (tzdb env) userTimezone = Some z -> (forall x, z x = k) ->
    NoDup (map id (tasks (db w))) ->
    nth_error (tasks (db w)) i = Some t ->
    user_id t = user -> status t = "pending" ->
    let D := (clock env + k * msPerMinute) / msPerDay in
    days_from_civil (task_date t) < D ->
    nth_error (tasks (db (run (carryForwardTasks env userTimezone) w))) i
    = Some (rolled_to D k t)
    /\ start_time (rolled_to D k t)
       = D * msPerDay - k * msPerMinute
         + (start_time t + k * msPerMinute) mod msPerDay / 1000 * 1000
    /\ local_date z (start_time (rolled_to D k t)) = civil_from_days D
    /\ local_time z (start_time (rolled_to D k t)) = local_time z (start_time t)
    /\ consecutive_missed_days (rolled_to D k t)
       = consecutive_missed_days t + (D - days_from_civil (task_date t))
    /\ consecutive_missed_days t < consecutive_missed_days (rolled_to D k t).
Proof.
  intros env userTimezone z k user w i t Hu Hsel Hupd Hn Hz Hnd Hi Huser Hst D Hlt.
  destruct (fixed_offset_today z k (clock env) Hz) as [Hs Hc]. fold D in Hs, Hc.
  split; [apply (pass_row_fixed env userTimezone z k user); assumption|].
  split; [reflexivity|].
  destruct (new_start_settled z D k (clock env) (start_time t) Hs Hc)
    as (Hnew & _ & Hdate & Htime).
  cbv zeta in Hnew, Hdate, Htime.
  rewrite Hnew, wall_clock_of_day in Hdate, Htime by apply Hz.
  split; [exact Hdate|]. split; [exact Htime|].
  cbn [rolled_to consecutive_missed_days]. split; [reflexivity | lia].
Qed.

(** X15.  Catching up in two passes is catching up in one.  In a zone of
    one fixed offset, with the same user and nothing refused, a pass at
    one instant followed by a pass at a later instant leaves exactly the
    rows that the later pass alone would have left: the days counted by
    the first pass and by the second add up, and the local time of day
    comes out the same. *)
Theorem catching_up_in_two_passes_equals_one :
  forall env1 env2 userTimezone z k w,
    session env2 = session env1 ->
    select_error env1 = None -> select_error env2 = None ->
    (forall key, update_error env1 key = None) ->
    (forall key, update_error env2 key = None) ->
    normalizeZone (tzdb env1) userTimezone = Some z ->
    normalizeZone (tzdb env2) userTimezone = Some z ->
    (forall x, z x = k) ->
    clock env1 <= clock env2 ->
    NoDup (map id (tasks (db w))) ->
    tasks (db (run (carryForwardTasks env2 userTimezone)
                   (run (carryForwardTasks env1 userTimezone) w)))
    = tasks (db (run (carryForwardTasks env2 userTimezone) w)).
Proof.
  intros env1 env2 userTimezone z k w Hsess Hsel1 Hsel2 Hupd1 Hupd2 Hn1 Hn2 Hz Hclock Hnd.
  destruct (session env1) as [user|] eqn:Hu1.
  - set (D1 := (clock env1 + k * msPerMinute) / msPerDay).
    set (D2 := (clock env2 + k * msPerMinute) / msPerDay).
    assert (HD : D1 <= D2).
    { subst D1 D2. apply Z.div_le_mono; [unfold msPerDay; lia | lia]. }
    pose proof (pass_rows_fixed env1 userTimezone z k user w Hu1 Hsel1 Hupd1 Hn1 Hz Hnd)
      as E1. cbv zeta in E1. fold D1 in E1.
    assert (Hnd1 : NoDup (map id (tasks (db (run (carryForwardTasks env1 userTimezone) w))))).
    { rewrite E1, map_map. erewrite map_ext; [exact Hnd|].
      intros t. cbv beta. destruct (candidate user (civil_from_days D1) t); reflexivity. }
    rewrite (pass_rows_fixed env2 userTimezone z k user _ Hsess Hsel2 Hupd2 Hn2 Hz Hnd1).
    rewrite (pass_rows_fixed env2 userTimezone z k user w Hsess Hsel2 Hupd2 Hn2 Hz Hnd).
    fold D2. rewrite E1, map_map. apply map_ext. intros t.
    unfold candidate, date_ltb. rewrite !days_from_civil_from_days.
    destruct (String.eqb (user_id t) user && String.eqb (status t) "pending")%bool eqn:Eb;
      cbn [andb]; [|rewrite Eb; reflexivity].
    destruct (days_from_civil (task_date t) <? D1) eqn:L1.
    + apply Z.ltb_lt in L1.
      cbn [rolled_to user_id status task_date]. rewrite Eb. cbn [andb].
      rewrite days_from_civil_from_days.
      replace (days_from_civil (task_date t) <? D2) with true
        by (symmetry; apply Z.ltb_lt; lia).
      destruct (D1 <? D2) eqn:L12.
      * apply rolled_to_twice. exact L1.
      * apply Z.ltb_ge in L12. replace D2 with D1 by lia. reflexivity.
    + rewrite Eb. reflexivity.
  - assert (Hidle : forall env w0, session env = None ->
                       db (run (carryForwardTasks env userTimezone) w0) = db w0).
    { intros env w0 Hnone.
      destruct (pass_world_some env userTimezone w0) as (d0 & H0 & _ & _ & Hsame).
      unfold run. rewrite H0. apply Hsame. left. exact Hnone. }
    rewrite !Hidle by assumption. reflexivity.
Qed.

(** X16.  The funny message follows the counter alone.  It is absent
    below 3 missed days and one of the five messages from 3 on, whatever
    the status: a task shown with the Overdue badge always carries one,
    and so does a completed task whose counter is 3 or more, under its
    Completed badge. *)
Theorem funny_message_follows_the_counter_only :
  forall pick task,
    (pick < 5)%nat ->
    let days := consecutive_missed_days task in
    (days < 3 -> getFunnyMessage pick days = None)
    /\ (3 <= days ->
        exists m, getFunnyMessage pick days = Some m /\ In m messages)
    /\ (badgeVariant (getTaskStatusInfo task) = destructive ->
        getFunnyMessage pick days <> None)
    /\ (status task = "completed" -> 3 <= days ->
        label (getTaskStatusInfo task) = "Completed"
        /\ getFunnyMessage pick days <> None).
Proof.
  intros pick task Hpick days.
  assert (Hsome : 3 <= days -> exists m, getFunnyMessage pick days = Some m
                                         /\ In m messages).
  { intros Hd. unfold getFunnyMessage.
    replace (days >=? 3) with true by (symmetry; apply Z.geb_le; lia).
    destruct (nth_error messages pick) as [m|] eqn:E.
    - exists m. split; [reflexivity|]. apply (nth_error_In _ _ E).
    - apply nth_error_None in E. unfold messages in E. cbn [List.length] in E. lia. }
  split; [|split; [exact Hsome|split]].
  - intros Hd. unfold getFunnyMessage.
    replace (days >=? 3) with false; [reflexivity|].
    symmetry. rewrite Z.geb_leb. apply Z.leb_gt. lia.
  - intros Hb. unfold getTaskStatusInfo in Hb. fold days in Hb.
    destruct (String.eqb (status task) "completed"); [discriminate|].
    destruct (days >=? 3) eqn:E3.
    + apply Z.geb_le in E3. destruct (Hsome E3) as (m & -> & _). discriminate.
    + destruct (days >? 0); discriminate.
  - intros Hst Hd. split.
    + unfold getTaskStatusInfo. rewrite Hst. reflexivity.
    + destruct (Hsome Hd) as (m & -> & _). discriminate.
Qed.


Lemma pass_reports_only_a_failed_query_witness :
  (session kolkata_night = Some "user-1" /\ select_error kolkata_night = None
   /\ normalizeZone (tzdb kolkata_night) "Mars/Olympus" = None)
  /\ exists w',
       carryForwardTasks kolkata_night "Mars/Olympus" kolkata_world = (w', inr tt)
       /\ db w' = db kolkata_world
       /\ events w'
          = events kolkata_world
            ++ [ConsoleError "Carry-forward error:" invalid_date_literal].
Proof.
  assert (h1 : session kolkata_night = Some "user-1") by reflexivity.
  assert (h2 : select_error kolkata_night = None) by reflexivity.
  assert (h3 : normalizeZone (tzdb kolkata_night) "Mars/Olympus" = None) by reflexivity.
  split; [exact (conj h1 (conj h2 h3))|].
  destruct (pass_reports_only_a_failed_query kolkata_night "Mars/Olympus" kolkata_world)
    as (w' & H & _ & _ & _ & _ & Hzone & _).
  exists w'. split; [exact H|]. exact (Hzone "user-1" h1 h2 h3).
Defined.

Lemma pass_leaves_other_users_rows_alone_witness :
  (NoDup (map id (tasks (db shared_world)))
   /\ nth_error (tasks (db shared_world)) 1 = Some task_of_the_12th
   /\ session new_york_env <> Some (user_id task_of_the_12th))
  /\ nth_error (tasks (db (run (carryForwardTasks new_york_env "America/New_York")
                               shared_world))) 1
     = Some task_of_the_12th.
Proof.
  assert (h1 : NoDup (map id (tasks (db shared_world)))).
  { cbn. repeat (constructor; [cbn; intuition discriminate|]). constructor. }
  assert (h2 : nth_error (tasks (db shared_world)) 1 = Some task_of_the_12th)
    by reflexivity.
  assert (h3 : session new_york_env <> Some (user_id task_of_the_12th))
    by discriminate.
  exact (conj (conj h1 (conj h2 h3))
              (proj2 (proj2 (proj2
                 (pass_leaves_other_users_rows_alone new_york_env "America/New_York"
                    shared_world h1)))
                 1%nat task_of_the_12th h2 h3)).
Defined.

Lemma no_overdue_task_remains_after_a_pass_witness :
  (session new_york_env = Some "user-2" /\ select_error new_york_env = None
   /\ (forall key, update_error new_york_env key = None)
   /\ normalizeZone (tzdb new_york_env) "America/New_York" = Some America_New_York
   /\ NoDup (map id (tasks (db new_york_world))))
  /\ exists today,
       resolved_today new_york_env "America/New_York" = Some today
       /\ select_pending_before new_york_env
            (db (run (carryForwardTasks new_york_env "America/New_York")
                     new_york_world))
            "user-2" (Some today)
          = inr []
       /\ forall t',
            In t' (tasks (db (run (carryForwardTasks new_york_env "America/New_York")
                                  new_york_world))) ->
            user_id t' = "user-2" -> status t' = "pending" ->
            days_from_civil today <= days_from_civil (task_date t').
Proof.
  assert (h1 : session new_york_env = Some "user-2") by reflexivity.
  assert (h2 : select_error new_york_env = None) by reflexivity.
  assert (h3 : forall key, update_error new_york_env key = None)
    by (intros key; reflexivity).
  assert (h4 : normalizeZone (tzdb new_york_env) "America/New_York"
               = Some America_New_York) by reflexivity.
  pose proof new_york_rows_distinct as h5.
  exact (conj (conj h1 (conj h2 (conj h3 (conj h4 h5))))
              (no_overdue_task_remains_after_a_pass new_york_env "America/New_York"
                 America_New_York "user-2" new_york_world h1 h2 h3 h4 h5)).
Defined.

Lemma list_fetch_shows_today_in_start_order_witness :
  (session new_york_env = Some "user-2" /\ select_error new_york_env = None
   /\ resolved_today new_york_env "America/New_York" = Some (mkDate 2025 3 11))
  /\ Permutation
       (st_tasks (page (run (fetchTasks new_york_env "America/New_York")
                            new_york_world)))
       (filter (listed "user-2" (mkDate 2025 3 11)) (tasks (db new_york_world)))
  /\ Sorted by_start_time
       (st_tasks (page (run (fetchTasks new_york_env "America/New_York")
                            new_york_world)))
  /\ st_loading (page (run (fetchTasks new_york_env "America/New_York")
                           new_york_world)) = false.
Proof.
  assert (h1 : session new_york_env = Some "user-2") by reflexivity.
  assert (h2 : select_error new_york_env = None) by reflexivity.
  assert (h3 : resolved_today new_york_env "America/New_York" = Some (mkDate 2025 3 11))
    by (vm_compute; reflexivity).
  pose proof (list_fetch_shows_today_in_start_order new_york_env "America/New_York"
                new_york_world "user-2" (mkDate 2025 3 11) h1 h2 h3) as H.
  exact (conj (conj h1 (conj h2 h3))
              (conj (proj1 H) (conj (proj1 (proj2 H))
                                    (proj1 (proj2 (proj2 (proj2 H))))))).
Defined.

Lemma failed_list_fetch_keeps_the_old_list_witness :
  (session new_york_offline = Some "user-2"
   /\ select_error new_york_offline = Some failed_to_fetch)
  /\ exists w',
       fetchTasks new_york_offline "America/New_York" new_york_world = (w', inr tt)
       /\ st_loading (page w') = false
       /\ st_tasks (page w') = st_tasks (page new_york_world)
       /\ events w'
          = events new_york_world ++ [Toast "Error" (message failed_to_fetch) true].
Proof.
  assert (h1 : session new_york_offline = Some "user-2") by reflexivity.
  assert (h2 : select_error new_york_offline = Some failed_to_fetch) by reflexivity.
  split; [exact (conj h1 h2)|].
  destruct (failed_list_fetch_keeps_the_old_list new_york_offline "America/New_York"
              new_york_world) as (w' & H & Hl & _ & _ & _ & Herr & _).
  exists w'. split; [exact H|]. split; [exact Hl|].
  exact (Herr "user-2" failed_to_fetch h1 h2).
Defined.

Lemma overdue_tasks_reach_the_list_of_today_witness :
  (session new_york_env = Some "user-2" /\ select_error new_york_env = None
   /\ (forall key, update_error new_york_env key = None)
   /\ normalizeZone (tzdb new_york_env) "America/New_York" = Some America_New_York
   /\ NoDup (map id (tasks (db new_york_world))))
  /\ (In task_of_march_7 (tasks (db new_york_world))
      /\ user_id task_of_march_7 = "user-2"
      /\ status task_of_march_7 = "pending"
      /\ date_ltb (task_date task_of_march_7)
                  (toFormat_date (startOfDay (setZone (now (clock new_york_env))
                                                      America_New_York)))
         = true)
  /\ exists t',
       In t' (st_tasks (page (run (initializeTasks new_york_env "America/New_York")
                                  new_york_world)))
       /\ id t' = id task_of_march_7
       /\ task_date t'
          = toFormat_date (startOfDay (setZone (now (clock new_york_env))
                                               America_New_York)).
Proof.
  assert (h1 : session new_york_env = Some "user-2") by reflexivity.
  assert (h2 : select_error new_york_env = None) by reflexivity.
  assert (h3 : forall key, update_error new_york_env key = None)
    by (intros key; reflexivity).
  assert (h4 : normalizeZone (tzdb new_york_env) "America/New_York"
               = Some America_New_York) by reflexivity.
  pose proof new_york_rows_distinct as h5.
  assert (r1 : In task_of_march_7 (tasks (db new_york_world))) by (left; reflexivity).
  assert (r2 : user_id task_of_march_7 = "user-2") by reflexivity.
  assert (r3 : status task_of_march_7 = "pending") by reflexivity.
  assert (r4 : date_ltb (task_date task_of_march_7)
                 (toFormat_date (startOfDay (setZone (now (clock new_york_env))
                                                     America_New_York)))
               = true) by (vm_compute; reflexivity).
  exact (conj (conj h1 (conj h2 (conj h3 (conj h4 h5))))
          (conj (conj r1 (conj r2 (conj r3 r4)))
                (proj1 (overdue_tasks_reach_the_list_of_today new_york_env
                          "America/New_York" America_New_York "user-2" new_york_world
                          h1 h2 h3 h4 h5)
                       task_of_march_7 r1 r2 (or_intror (conj r3 r4))))).
Defined.

Lemma rollover_in_a_fixed_offset_zone_witness :
  (session scenarioA_env = Some "user-1" /\ select_error scenarioA_env = None
   /\ update_error scenarioA_env (id scenarioA_task) = None
   /\ normalizeZone (tzdb scenarioA_env) "Asia/Kolkata" = Some Asia_Kolkata
   /\ (forall x, Asia_Kolkata x = 330)
   /\ NoDup (map id (tasks (db scenarioA_world)))
   /\ nth_error (tasks (db scenarioA_world)) 0 = Some scenarioA_task
   /\ user_id scenarioA_task = "user-1" /\ status scenarioA_task = "pending"
   /\ days_from_civil (task_date scenarioA_task)
      < (clock scenarioA_env + 330 * msPerMinute) / msPerDay)
  /\ rolled_to ((clock scenarioA_env + 330 * msPerMinute) / msPerDay) 330
               scenarioA_task
     = scenarioA_rolled
  /\ nth_error (tasks (db (run (carryForwardTasks scenarioA_env "Asia/Kolkata")
                               scenarioA_world))) 0
     = Some (rolled_to ((clock scenarioA_env + 330 * msPerMinute) / msPerDay) 330
                       scenarioA_task).
Proof.
  assert (h1 : session scenarioA_env = Some "user-1") by reflexivity.
  assert (h2 : select_error scenarioA_env = None) by reflexivity.
  assert (h3 : update_error scenarioA_env (id scenarioA_task) = None) by reflexivity.
  assert (h4 : normalizeZone (tzdb scenarioA_env) "Asia/Kolkata" = Some Asia_Kolkata)
    by reflexivity.
  assert (h5 : forall x, Asia_Kolkata x = 330) by (intros x; reflexivity).
  assert (h6 : NoDup (map id (tasks (db scenarioA_world)))).
  { cbn. repeat (constructor; [cbn; intuition discriminate|]). constructor. }
  assert (h7 : nth_error (tasks (db scenarioA_world)) 0 = Some scenarioA_task)
    by reflexivity.
  assert (h8 : user_id scenarioA_task = "user-1") by reflexivity.
  assert (h9 : status scenarioA_task = "pending") by reflexivity.
  assert (h10 : days_from_civil (task_date scenarioA_task)
                < (clock scenarioA_env + 330 * msPerMinute) / msPerDay)
    by (vm_compute; reflexivity).
  assert (e : rolled_to ((clock scenarioA_env + 330 * msPerMinute) / msPerDay) 330
                        scenarioA_task
              = scenarioA_rolled) by (vm_compute; reflexivity).
  exact (conj (conj h1 (conj h2 (conj h3 (conj h4 (conj h5 (conj h6 (conj h7 (conj h8
                   (conj h9 h10)))))))))
          (conj e
                (proj1 (rollover_in_a_fixed_offset_zone scenarioA_env "Asia/Kolkata"
                          Asia_Kolkata 330 "user-1" scenarioA_world 0%nat scenarioA_task
                          h1 h2 h3 h4 h5 h6 h7 h8 h9 h10)))).
Defined.

Lemma catching_up_in_two_passes_equals_one_witness :
  (session scenarioA_later = session scenarioA_env
   /\ select_error scenarioA_env = None /\ select_error scenarioA_later = None
   /\ (forall key, update_error scenarioA_env key = None)
   /\ (forall key, update_error scenarioA_later key = None)
   /\ normalizeZone (tzdb scenarioA_env) "Asia/Kolkata" = Some Asia_Kolkata
   /\ normalizeZone (tzdb scenarioA_later) "Asia/Kolkata" = Some Asia_Kolkata
   /\ (forall x, Asia_Kolkata x = 330)
   /\ clock scenarioA_env <= clock scenarioA_later
   /\ NoDup (map id (tasks (db scenarioA_world))))
  /\ tasks (db (run (carryForwardTasks scenarioA_later "Asia/Kolkata") scenarioA_world))
     = [scenarioA_rolled_later]
  /\ tasks (db (run (carryForwardTasks scenarioA_later "Asia/Kolkata")
                    (run (carryForwardTasks scenarioA_env "Asia/Kolkata")
                         scenarioA_world)))
     = tasks (db (run (carryForwardTasks scenarioA_later "Asia/Kolkata")
                      scenarioA_world)).
Proof.
  assert (h1 : session scenarioA_later = session scenarioA_env) by reflexivity.
  assert (h2 : select_error scenarioA_env = None) by reflexivity.
  assert (h3 : select_error scenarioA_later = None) by reflexivity.
  assert (h4 : forall key, update_error scenarioA_env key = None)
    by (intros key; reflexivity).
  assert (h5 : forall key, update_error scenarioA_later key = None)
    by (intros key; reflexivity).
  assert (h6 : normalizeZone (tzdb scenarioA_env) "Asia/Kolkata" = Some Asia_Kolkata)
    by reflexivity.
  assert (h7 : normalizeZone (tzdb scenarioA_later) "Asia/Kolkata" = Some Asia_Kolkata)
    by reflexivity.
  assert (h8 : forall x, Asia_Kolkata x = 330) by (intros x; reflexivity).
  assert (h9 : clock scenarioA_env <= clock scenarioA_later)
    by (vm_compute; congruence).
  assert (h10 : NoDup (map id (tasks (db scenarioA_world)))).
  { cbn. repeat (constructor; [cbn; intuition discriminate|]). constructor. }
  assert (e : tasks (db (run (carryForwardTasks scenarioA_later "Asia/Kolkata")
                             scenarioA_world))
              = [scenarioA_rolled_later]) by (vm_compute; reflexivity).
  exact (conj (conj h1 (conj h2 (conj h3 (conj h4 (conj h5 (conj h6 (conj h7 (conj h8
                   (conj h9 h10)))))))))
          (conj e
                (catching_up_in_two_passes_equals_one scenarioA_env scenarioA_later
                   "Asia/Kolkata" Asia_Kolkata 330 scenarioA_world
                   h1 h2 h3 h4 h5 h6 h7 h8 h9 h10))).
Defined.

Lemma funny_message_follows_the_counter_only_witness :
  ((2 < 5)%nat /\ status task_done_late = "completed"
   /\ 3 <= consecutive_missed_days task_done_late
   /\ consecutive_missed_days task_for_today < 3)
  /\ (label (getTaskStatusInfo task_done_late) = "Completed"
      /\ getFunnyMessage 2 (consecutive_missed_days task_done_late) <> None)
  /\ getFunnyMessage 2 (consecutive_missed_days task_for_today) = None.
Proof.
  assert (h1 : (2 < 5)%nat) by (repeat constructor).
  assert (h2 : status task_done_late = "completed") by reflexivity.
  assert (h3 : 3 <= consecutive_missed_days task_done_late) by (cbn; lia).
  assert (h4 : consecutive_missed_days task_for_today < 3) by (cbn; lia).
  exact (conj (conj h1 (conj h2 (conj h3 h4)))
          (conj (proj2 (proj2 (proj2 (funny_message_follows_the_counter_only 2
                                        task_done_late h1))) h2 h3)
                (proj1 (funny_message_follows_the_counter_only 2 task_for_today h1)
                       h4))).
Defined.

End PageProps.

(** ** The completion flow, path by path *)

Module CompletionFacts.
Import Civil Luxon Timezone Supabase React Tasks Pass Completion Behaviour.
Import PassFacts PageFacts.
Local Open Scope list_scope.

(** The accepted update of a completion, on the world. *)
Lemma send_completion_ok env key endInstant minutes imagePath w :
  update_error env key = None ->
  send_update env (mkUpdate None None None (Some "completed") (Some endInstant)
                            (Some (Some minutes)) (Some imagePath)) key w
  = (mkWorld (mkDb (profiles (db w))
                   (map (completed_as key endInstant minutes imagePath) (tasks (db w)))
                   (task_images (db w)))
             (page w) (card w) (events w), inr None).
Proof.
  intros H. unfold send_update, update_task. rewrite H. reflexivity.
Qed.

Lemma send_update_refused env u key e w :
  update_error env key = Some e ->
  send_update env u key w = (w, inr (Some e)).
Proof.
  intros H. unfold send_update, update_task. rewrite H. destruct w; reflexivity.
Qed.

(** The handler after the duration is known, without a photo. *)
Lemma handleComplete_without_photo calc fmt env task onRefresh userTimezone
      completionTime w minutes :
  calc (start_time task)
       (localToUtcISO (tzdb env) (clock env) completionTime userTimezone) userTimezone
  = inr minutes ->
  TaskCard.handleComplete calc fmt env task onRefresh userTimezone completionTime None w
  = finally
      (try_catch
         (error <- send_update env
                     (mkUpdate None None None (Some "completed")
                        (Some (localToUtcISO (tzdb env) (clock env) completionTime
                                             userTimezone))
                        (Some (Some minutes)) (Some (image_path task)))
                     (id task) ;;
          match error with
          | Some e => throw e
          | None =>
              emit (Toast "Task completed!"
                          ("Great job! You took " ++ fmt minutes ++ ".")%string false) ;;;
              setShowCompleteDialog false ;;; onRefresh
          end)%action
         (fun error => emit (Toast "Error" (message error) true)))
      (setUploadingImage false) w.
Proof.
  intros Hcalc. unfold TaskCard.handleComplete. rewrite Hcalc. reflexivity.
Qed.

(** The handler after the duration is known, with a photo and a session,
    once the upload has been answered. *)
Lemma handleComplete_with_photo calc fmt env task onRefresh userTimezone
      completionTime image w minutes user :
  calc (start_time task)
       (localToUtcISO (tzdb env) (clock env) completionTime userTimezone) userTimezone
  = inr minutes ->
  session env = Some user ->
  upload_error env (completion_path user task (clock env) image) = None ->
  TaskCard.handleComplete calc fmt env task onRefresh userTimezone completionTime
                          (Some image) w
  = finally
      (try_catch
         (error <- send_update env
                     (mkUpdate None None None (Some "completed")
                        (Some (localToUtcISO (tzdb env) (clock env) completionTime
                                             userTimezone))
                        (Some (Some minutes))
                        (Some (Some (completion_path user task (clock env) image))))
                     (id task) ;;
          match error with
          | Some e => throw e
          | None =>
              emit (Toast "Task completed!"
                          ("Great job! You took " ++ fmt minutes ++ ".")%string false) ;;;
              setShowCompleteDialog false ;;; onRefresh
          end)%action
         (fun error => emit (Toast "Error" (message error) true)))
      (setUploadingImage false)
      (mkWorld (mkDb (profiles (db w)) (tasks (db w))
                     ((completion_path user task (clock env) image, image)
                        :: task_images (db w)))
               (page w) (mkCard (st_showCompleteDialog (card w)) true) (events w)).
Proof.
  intros Hcalc Hu Hup. unfold TaskCard.handleComplete. rewrite Hcalc, Hu.
  unfold finally, try_catch.
  unfold bind at 1. unfold bind at 1. cbn [setUploadingImage set_card].
  unfold bind at 1. unfold send_upload, upload.
  fold (completion_path user task (clock env) image). cbn [db]. rewrite Hup.
  cbn [db page card events profiles tasks task_images st_showCompleteDialog].
  unfold bind at 2. unfold ret. reflexivity.
Qed.

(** The accepted update, the toast, the dialog, the refresh and the
    cleanup, from the world in which the update is sent. *)
Lemma completion_tail fmt env task pageTimezone endInstant minutes imagePath w0 :
  update_error env (id task) = None ->
  let w3 :=
    mkWorld (mkDb (profiles (db w0))
                  (map (completed_as (id task) endInstant minutes imagePath)
                       (tasks (db w0)))
                  (task_images (db w0)))
            (page w0) (mkCard false (st_uploadingImage (card w0)))
            (events w0 ++ [Toast "Task completed!"
                                 ("Great job! You took " ++ fmt minutes ++ ".")%string
                                 false]) in
  let w4 := run (fetchTasks env pageTimezone) w3 in
  finally
    (try_catch
       (error <- send_update env
                   (mkUpdate None None None (Some "completed") (Some endInstant)
                             (Some (Some minutes)) (Some imagePath))
                   (id task) ;;
        match error with
        | Some e => throw e
        | None =>
            emit (Toast "Task completed!"
                        ("Great job! You took " ++ fmt minutes ++ ".")%string false) ;;;
            setShowCompleteDialog false ;;; fetchTasks env pageTimezone
        end)%action
       (fun error => emit (Toast "Error" (message error) true)))
    (setUploadingImage false) w0
  = (mkWorld (db w3) (page w4) (mkCard false false) (events w4), inr tt).
Proof.
  intros Hupd w3 w4. unfold finally, try_catch.
  unfold bind at 1. rewrite send_completion_ok by exact Hupd.
  unfold bind at 1. unfold emit at 1. cbn [db page card events].
  unfold bind at 1. cbn [setShowCompleteDialog set_card db page card events
                         st_uploadingImage].
  fold w3.
  destruct (fetchTasks_returns env pageTimezone w3) as (w4' & H4 & _ & Hd & Hc).
  assert (E4 : w4 = w4') by (subst w4; unfold run; rewrite H4; reflexivity).
  rewrite H4, <- E4 in *. cbn [setUploadingImage set_card].
  rewrite Hd, Hc. reflexivity.
Qed.

Lemma other_rows_kept_refl key d : other_rows_kept key d d.
Proof.
  split; [reflexivity|]. split; [|exists []; reflexivity].
  apply Forall2_same. intros t _. split; [reflexivity | intros _; reflexivity].
Qed.

Lemma Forall2_other_trans key (a : list Task) :
  forall b c,
    Forall2 (fun t t' => id t' = id t /\ (id t <> key -> t' = t)) a b ->
    Forall2 (fun t t' => id t' = id t /\ (id t <> key -> t' = t)) b c ->
    Forall2 (fun t t' => id t' = id t /\ (id t <> key -> t' = t)) a c.
Proof.
  induction a as [|x a IH]; intros b c Hab Hbc.
  - inversion Hab; subst. inversion Hbc; subst. constructor.
  - inversion Hab as [|? y ? b' [Hxy1 Hxy2] Hab']; subst.
    inversion Hbc as [|? z ? c' [Hyz1 Hyz2] Hbc']; subst.
    constructor; [|eapply IH; eauto].
    split; [congruence|]. intros Hne.
    rewrite <- (Hxy2 Hne). apply Hyz2. rewrite Hxy1. exact Hne.
Qed.

Lemma other_rows_kept_trans key a b c :
  other_rows_kept key a b -> other_rows_kept key b c -> other_rows_kept key a c.
Proof.
  intros (Hp1 & Hr1 & l1 & Hi1) (Hp2 & Hr2 & l2 & Hi2).
  split; [congruence|]. split; [eapply Forall2_other_trans; eauto|].
  exists (l2 ++ l1). rewrite Hi2, Hi1. apply app_assoc.
Qed.

Lemma upload_keeps_rows key env path f :
  keeps (other_rows_kept key) (send_upload env path f).
Proof.
  intros w. unfold send_upload, upload.
  destruct (upload_error env path); cbn [fst db]; [apply other_rows_kept_refl|].
  split; [reflexivity|]. split; [|exists [(path, f)]; reflexivity].
  cbn [tasks]. apply Forall2_same. intros t _. split; [reflexivity | intros _; reflexivity].
Qed.

Lemma update_keeps_other_rows env u key :
  keeps (other_rows_kept key) (send_update env u key).
Proof.
  intros w. unfold send_update, update_task.
  destruct (update_error env key); cbn [fst db]; [apply other_rows_kept_refl|].
  split; [reflexivity|]. split; [|exists []; reflexivity].
  cbn [tasks]. apply Forall2_map_rows. intros t _.
  destruct (String.eqb (id t) key) eqn:E.
  - split; [reflexivity|]. apply String.eqb_eq in E. intros Hne. contradiction.
  - split; [reflexivity | intros _; reflexivity].
Qed.

Lemma fetchTasks_keeps_rows key env userTimezone :
  keeps (other_rows_kept key) (fetchTasks env userTimezone).
Proof.
  intros w. destruct (fetchTasks_returns env userTimezone w) as (w' & H & _ & Hd & _).
  rewrite H. cbn [fst]. rewrite Hd. apply other_rows_kept_refl.
Qed.

(** Whatever relation on databases the requests and the refresh keep,
    the handler keeps. *)
Lemma handleComplete_keeps_relation (R : Database -> Database -> Prop)
      calc fmt env task onRefresh userTimezone completionTime completionImage :
  (forall d, R d d) -> (forall a b c, R a b -> R b c -> R a c) ->
  (forall path f, keeps R (send_upload env path f)) ->
  (forall u, keeps R (send_update env u (id task))) ->
  keeps R onRefresh ->
  keeps R (TaskCard.handleComplete calc fmt env task onRefresh userTimezone
                                   completionTime completionImage).
Proof.
  intros Hr Ht Hupload Hupdate Hrefresh.
  unfold TaskCard.handleComplete.
  apply CompletionClaims.keeps_finally; auto;
    [|apply CompletionClaims.keeps_set_card; auto].
  apply CompletionClaims.keeps_try_catch; auto;
    [|intros; apply CompletionClaims.keeps_emit; auto].
  destruct (calc (start_time task) _ userTimezone) as [thrown|minutes];
    [apply CompletionClaims.keeps_throw; auto|].
  apply CompletionClaims.keeps_bind; auto.
  - destruct completionImage as [image|]; [|apply CompletionClaims.keeps_ret; auto].
    apply CompletionClaims.keeps_bind; auto;
      [apply CompletionClaims.keeps_set_card; auto|]. intros _.
    destruct (session env) as [user|]; [|apply CompletionClaims.keeps_throw; auto].
    apply CompletionClaims.keeps_bind; auto.
    intros [e|]; [apply CompletionClaims.keeps_throw
                 | apply CompletionClaims.keeps_ret]; auto.
  - intros imagePath. apply CompletionClaims.keeps_bind; auto.
    intros [e|]; [apply CompletionClaims.keeps_throw; auto|].
    apply CompletionClaims.keeps_bind; auto;
      [apply CompletionClaims.keeps_emit; auto|]. intros _.
    apply CompletionClaims.keeps_bind; auto. apply CompletionClaims.keeps_set_card; auto.
Qed.

(** The handler returns, with the upload flag cleared. *)
Lemma handleComplete_returns calc fmt env task onRefresh userTimezone completionTime
      completionImage w :
  exists w', TaskCard.handleComplete calc fmt env task onRefresh userTimezone
               completionTime completionImage w = (w', inr tt)
             /\ st_uploadingImage (card w') = false.
Proof.
  unfold TaskCard.handleComplete, finally.
  match goal with |- context [try_catch ?b ?h w] => set (body := try_catch b h) end.
  assert (H : exists w1, body w = (w1, inr tt)).
  { subst body. unfold try_catch.
    match goal with |- context [match ?m w with _ => _ end] => destruct (m w) as [w1 [e|[]]] end.
    - eexists. reflexivity.
    - eexists. reflexivity. }
  destruct H as [w1 H]. rewrite H. eexists. split; reflexivity.
Qed.

Lemma append_empty s : (s ++ "")%string = s.
Proof. induction s as [|a r IH]; cbn; [reflexivity | rewrite IH; reflexivity]. Qed.

Lemma append_assoc a b c : ((a ++ b) ++ c)%string = (a ++ (b ++ c))%string.
Proof. induction a as [|x r IH]; cbn; [reflexivity | rewrite IH; reflexivity]. Qed.

Lemma has_dot_append a b : has_dot (a ++ b)%string = (has_dot a || has_dot b)%bool.
Proof.
  induction a as [|x r IH]; cbn [String.append has_dot]; [reflexivity|].
  rewrite IH. apply orb_assoc.
Qed.

(** Without a dot the segment is never cut. *)
Lemma last_segment_no_dot s :
  forall acc, has_dot s = false -> TaskCard.last_segment s acc = (acc ++ s)%string.
Proof.
  induction s as [|a r IH]; intros acc H; cbn [TaskCard.last_segment].
  - symmetry. apply append_empty.
  - cbn [has_dot] in H. apply orb_false_iff in H as [Ha Hr].
    rewrite Ha, (IH _ Hr), append_assoc. reflexivity.
Qed.

Lemma last_segment_after_dot stem ext :
  forall acc, has_dot ext = false ->
  TaskCard.last_segment (stem ++ "." ++ ext)%string acc = ext.
Proof.
  induction stem as [|a r IH]; intros acc H.
  - cbn [String.append TaskCard.last_segment]. cbn.
    rewrite (last_segment_no_dot ext "" H). reflexivity.
  - cbn [String.append TaskCard.last_segment].
    destruct (Ascii.eqb a "."); apply IH; exact H.
Qed.

Lemma last_segment_has_no_dot s :
  forall acc, has_dot acc = false -> has_dot (TaskCard.last_segment s acc) = false.
Proof.
  induction s as [|a r IH]; intros acc H; cbn [TaskCard.last_segment]; [exact H|].
  destruct (Ascii.eqb a ".") eqn:E; apply IH; [reflexivity|].
  rewrite has_dot_append, H. cbn [has_dot orb]. rewrite E. reflexivity.
Qed.

End CompletionFacts.

(** ** Properties of the completion flow *)

Module CompletionProps.
Import Civil Luxon Timezone Supabase React Tasks Pass Completion Behaviour Examples.
Import PassFacts ExamplesFacts PageFacts CompletionFacts.
Local Open Scope list_scope.

(** X17.  An accepted completion without a photo.  When the duration
    helper returns [minutes] and the backend accepts the update, every row
    with the task's id gets status "completed", end_time the completion
    time converted to UTC, total_time_minutes [minutes] and the
    image_path the card was given; its other fields, the other rows, the
    profiles and the stored images are as they were.  The toast "Great
    job! You took <duration>." is shown, not destructive, the dialog is
    closed and the upload flag is off; the page's [fetchTasks] has run and
    cleared the loading flag.  The handler does not ask for a session on
    this path. *)
Theorem completion_marks_the_task_completed :
  forall calculateTaskDuration formatDuration env task pageTimezone userTimezone
         completionTime w minutes,
    let endInstant :=
      localToUtcISO (tzdb env) (clock env) completionTime userTimezone in
    calculateTaskDuration (start_time task) endInstant userTimezone = inr minutes ->
    update_error env (id task) = None ->
    let w' :=
      run (TaskCard.handleComplete calculateTaskDuration formatDuration env task
             (fetchTasks env pageTimezone) userTimezone completionTime None) w in
    tasks (db w')
    = map (completed_as (id task) endInstant minutes (image_path task)) (tasks (db w))
    /\ profiles (db w') = profiles (db w)
    /\ task_images (db w') = task_images (db w)
    /\ card w' = mkCard false false
    /\ st_loading (page w') = false
    /\ exists title later,
         events w'
         = events w
           ++ Toast title
                    ("Great job! You took " ++ formatDuration minutes ++ ".")%string
                    false
           :: later.
Proof.
  intros calc fmt env task pageTimezone userTimezone completionTime w minutes endInstant
         Hcalc Hupd w'.
  subst w'. unfold run.
  rewrite (handleComplete_without_photo calc fmt env task _ userTimezone completionTime
             w minutes Hcalc).
  fold endInstant.
  rewrite (completion_tail fmt env task pageTimezone endInstant minutes
             (image_path task) w Hupd).
  cbn [fst db page card events tasks profiles task_images].
  do 4 (split; [reflexivity|]).
  match goal with |- context [run (fetchTasks env pageTimezone) ?x] => set (w3 := x) end.
  unfold run. rewrite fetchTasks_world.
  destruct (session env) as [user|];
    [destruct (select_for_day env (db w3) user _) as [e|data]|];
    cbn [fst page events st_loading]; (split; [reflexivity|]);
    subst w3; cbn [events].
  - eexists. exists [Toast "Error" (message e) true]. rewrite <- app_assoc. reflexivity.
  - eexists. exists []. reflexivity.
  - eexists. exists []. reflexivity.
Qed.

(** X18.  The refresh after a completion reads the row that was just
    written.  With a signed-in user and an answered list query, the list
    of the page after an accepted completion is the list of today's rows
    of the updated table: an entry with the task's id has status
    "completed", the new end_time and total_time_minutes; and if the task
    is a row of the user dated today, it is on the list as completed. *)
Theorem refreshed_list_shows_the_completed_task :
  forall calculateTaskDuration formatDuration env task pageTimezone userTimezone
         completionTime w minutes user today,
    let endInstant :=
      localToUtcISO (tzdb env) (clock env) completionTime userTimezone in
    calculateTaskDuration (start_time task) endInstant userTimezone = inr minutes ->
    update_error env (id task) = None ->
    session env = Some user -> select_error env = None ->
    resolved_today env pageTimezone = Some today ->
    let w' :=
      run (TaskCard.handleComplete calculateTaskDuration formatDuration env task
             (fetchTasks env pageTimezone) userTimezone completionTime None) w in
    Permutation (st_tasks (page w')) (filter (listed user today) (tasks (db w')))
    /\ (forall t',
           In t' (st_tasks (page w')) -> id t' = id task ->
           status t' = "completed" /\ end_time t' = endInstant
           /\ total_time_minutes t' = Some minutes)
    /\ (forall t,
           In t (tasks (db w)) -> id t = id task -> user_id t = user ->
           task_date t = today ->
           exists t', In t' (st_tasks (page w')) /\ id t' = id task
                      /\ status t' = "completed").
Proof.
  intros calc fmt env task pageTimezone userTimezone completionTime w minutes user today
         endInstant Hcalc Hupd Hu Hsel Htoday w'.
  assert (Hrows : tasks (db w')
                  = map (completed_as (id task) endInstant minutes (image_path task))
                        (tasks (db w))).
  { subst w'. unfold run.
    rewrite (handleComplete_without_photo calc fmt env task _ userTimezone completionTime
               w minutes Hcalc).
    fold endInstant.
    rewrite (completion_tail fmt env task pageTimezone endInstant minutes
               (image_path task) w Hupd). reflexivity. }
  assert (Hlist : st_tasks (page w')
                  = fold_right insert_by_start []
                      (filter (listed user today) (tasks (db w')))).
  { rewrite Hrows. subst w'. unfold run.
    rewrite (handleComplete_without_photo calc fmt env task _ userTimezone completionTime
               w minutes Hcalc).
    fold endInstant.
    rewrite (completion_tail fmt env task pageTimezone endInstant minutes
               (image_path task) w Hupd).
    cbn [fst page]. unfold run.
    rewrite fetchTasks_world, Hu, Htoday, select_for_day_ok by exact Hsel.
    reflexivity. }
  assert (Hperm : Permutation (st_tasks (page w'))
                              (filter (listed user today) (tasks (db w'))))
    by (rewrite Hlist; apply order_perm).
  split; [exact Hperm|]. split.
  - intros t' Hin Hid. apply (Permutation_in _ Hperm) in Hin.
    apply filter_In in Hin as [Hin _]. rewrite Hrows in Hin.
    apply in_map_iff in Hin as (t & <- & _).
    unfold completed_as in *. destruct (String.eqb (id t) (id task)) eqn:E.
    + repeat split.
    + apply String.eqb_neq in E. contradiction.
  - intros t Hin Hid Huser Hdate.
    set (t' := completed_as (id task) endInstant minutes (image_path task) t).
    assert (Et' : t' = mkTask (id t) (user_id t) (title t) (description t)
                              (start_time t) endInstant (Some minutes) "completed"
                              (image_path task) (consecutive_missed_days t)
                              (task_date t) (original_date t)).
    { subst t'. unfold completed_as. rewrite Hid, String.eqb_refl. reflexivity. }
    exists t'. split; [|rewrite Et'; split; [exact Hid | reflexivity]].
    apply (Permutation_in _ (Permutation_sym Hperm)). apply filter_In. split.
    + rewrite Hrows. apply in_map. exact Hin.
    + rewrite Et'. unfold listed. cbn [user_id task_date].
      rewrite Huser, String.eqb_refl. cbn [andb]. apply date_eqb_eq. exact Hdate.
Qed.

(** X19.  An accepted completion with a photo.  With a session, an
    accepted upload and an accepted update, the photo is stored under
    "<user>/<task id>-completion-<now in ms>.<extension>", and every row
    with the task's id points to it: its image_path is that path, and the
    store holds the photo under that path.  The rows are completed as
    without a photo. *)
Theorem completion_photo_is_stored_where_the_row_points :
  forall calculateTaskDuration formatDuration env task pageTimezone userTimezone
         completionTime image w minutes user,
    let endInstant :=
      localToUtcISO (tzdb env) (clock env) completionTime userTimezone in
    let path := completion_path user task (clock env) image in
    calculateTaskDuration (start_time task) endInstant userTimezone = inr minutes ->
    session env = Some user ->
    upload_error env path = None ->
    update_error env (id task) = None ->
    let w' :=
      run (TaskCard.handleComplete calculateTaskDuration formatDuration env task
             (fetchTasks env pageTimezone) userTimezone completionTime (Some image)) w in
    path = (user ++ "/" ++ id task ++ "-completion-" ++ show (clock env) ++ "."
                 ++ TaskCard.last_segment (file_name image) "")%string
    /\ task_images (db w') = (path, image) :: task_images (db w)
    /\ tasks (db w')
       = map (completed_as (id task) endInstant minutes (Some path)) (tasks (db w))
    /\ (forall t',
           In t' (tasks (db w')) -> id t' = id task ->
           image_path t' = Some path /\ In (path, image) (task_images (db w')))
    /\ profiles (db w') = profiles (db w)
    /\ card w' = mkCard false false.
Proof.
  intros calc fmt env task pageTimezone userTimezone completionTime image w minutes user
         endInstant path Hcalc Hu Hup Hupd w'.
  assert (Hw' : db w' = mkDb (profiles (db w))
                             (map (completed_as (id task) endInstant minutes (Some path))
                                  (tasks (db w)))
                             ((path, image) :: task_images (db w))
                /\ card w' = mkCard false false).
  { subst w'. unfold run.
    rewrite (handleComplete_with_photo calc fmt env task _ userTimezone completionTime
               image w minutes user Hcalc Hu Hup).
    fold endInstant. fold path.
    rewrite (completion_tail fmt env task pageTimezone endInstant minutes (Some path)
               _ Hupd).
    split; reflexivity. }
  destruct Hw' as [Hdb Hcard]. rewrite Hdb. cbn [tasks profiles task_images].
  split; [reflexivity|]. split; [reflexivity|]. split; [reflexivity|].
  split; [|split; [reflexivity | exact Hcard]].
  intros t' Hin Hid. split; [|left; reflexivity].
  apply in_map_iff in Hin as (t & <- & _).
  unfold completed_as in *. destruct (String.eqb (id t) (id task)) eqn:E.
  - reflexivity.
  - apply String.eqb_neq in E. contradiction.
Qed.

(** X20.  A refused update changes no task row.  Without a photo the
    handler ends with the database as it was, the upload flag off and one
    error toast; the refresh is not called and the dialog stays as it is.
    With a photo whose upload was accepted the photo stays in the store,
    under a path that no row points to, and the rest is the same. *)
Theorem refused_completion_update_changes_no_row :
  forall calculateTaskDuration formatDuration env task onRefresh userTimezone
         completionTime w minutes e,
    calculateTaskDuration (start_time task)
      (localToUtcISO (tzdb env) (clock env) completionTime userTimezone) userTimezone
    = inr minutes ->
    update_error env (id task) = Some e ->
    TaskCard.handleComplete calculateTaskDuration formatDuration env task onRefresh
      userTimezone completionTime None w
    = (abandoned w e, inr tt)
    /\ forall image user,
         session env = Some user ->
         upload_error env (completion_path user task (clock env) image) = None ->
         TaskCard.handleComplete calculateTaskDuration formatDuration env task onRefresh
           userTimezone completionTime (Some image) w
         = (mkWorld (mkDb (profiles (db w)) (tasks (db w))
                          ((completion_path user task (clock env) image, image)
                             :: task_images (db w)))
                    (page w) (mkCard (st_showCompleteDialog (card w)) false)
                    (events w ++ [Toast "Error" (message e) true]),
            inr tt).
Proof.
  intros calc fmt env task onRefresh userTimezone completionTime w minutes e Hcalc Hupd.
  split.
  - rewrite (handleComplete_without_photo calc fmt env task onRefresh userTimezone
               completionTime w minutes Hcalc).
    unfold finally, try_catch. unfold bind at 1.
    rewrite (send_update_refused env _ (id task) e w Hupd). reflexivity.
  - intros image user Hu Hup.
    rewrite (handleComplete_with_photo calc fmt env task onRefresh userTimezone
               completionTime image w minutes user Hcalc Hu Hup).
    unfold finally, try_catch. unfold bind at 1.
    rewrite (send_update_refused env _ (id task) e _ Hupd). reflexivity.
Qed.

(** X21.  Whatever happens, a completion touches only the task it is
    for.  On every path, with any duration helper, the handler returns
    (it never throws) with the upload flag off; every row with another id
    is as it was, no row is added, removed or moved and no id changes; the
    profiles are as they were, and the image store has at most grown. *)
Theorem completion_touches_only_its_own_task :
  forall calculateTaskDuration formatDuration env task pageTimezone userTimezone
         completionTime completionImage w,
    exists w',
      TaskCard.handleComplete calculateTaskDuration formatDuration env task
        (fetchTasks env pageTimezone) userTimezone completionTime completionImage w
      = (w', inr tt)
      /\ st_uploadingImage (card w') = false
      /\ other_rows_kept (id task) (db w) (db w').
Proof.
  intros calc fmt env task pageTimezone userTimezone completionTime completionImage w.
  destruct (handleComplete_returns calc fmt env task (fetchTasks env pageTimezone)
              userTimezone completionTime completionImage w) as (w' & H & Hflag).
  exists w'. split; [exact H|]. split; [exact Hflag|].
  pose proof (handleComplete_keeps_relation (other_rows_kept (id task)) calc fmt env task
                (fetchTasks env pageTimezone) userTimezone completionTime completionImage
                (other_rows_kept_refl (id task)) (other_rows_kept_trans (id task))
                (upload_keeps_rows (id task) env)
                (fun u => update_keeps_other_rows env u (id task))
                (fetchTasks_keeps_rows (id task) env pageTimezone) w) as Hk.
  rewrite H in Hk. exact Hk.
Qed.

(** X22.  A photo needs a session.  With a photo and nobody signed in,
    the handler throws "Not authenticated" after switching the upload
    flag on: nothing is uploaded, no row is written, the error is shown
    in a toast and the flag is off again at the end. *)
Theorem photo_needs_a_session :
  forall calculateTaskDuration formatDuration env task onRefresh userTimezone
         completionTime image w minutes,
    calculateTaskDuration (start_time task)
      (localToUtcISO (tzdb env) (clock env) completionTime userTimezone) userTimezone
    = inr minutes ->
    session env = None ->
    TaskCard.handleComplete calculateTaskDuration formatDuration env task onRefresh
      userTimezone completionTime (Some image) w
    = (abandoned w (TaskCard.not_authenticated), inr tt)
    /\ message TaskCard.not_authenticated = "Not authenticated".
Proof.
  intros calc fmt env task onRefresh userTimezone completionTime image w minutes
         Hcalc Hu.
  split; [|reflexivity].
  unfold TaskCard.handleComplete. rewrite Hcalc, Hu. reflexivity.
Qed.

(** X23.  The extension in the storage path is the text after the last
    dot of the file name.  It never contains a dot; for a name
    "<stem>.<ext>" whose [ext] has no dot it is [ext]; and for a name
    without any dot it is the whole name. *)
Theorem file_extension_is_the_text_after_the_last_dot :
  (forall stem ext,
      has_dot ext = false ->
      TaskCard.last_segment (stem ++ "." ++ ext)%string "" = ext)
  /\ (forall name, has_dot name = false -> TaskCard.last_segment name "" = name)
  /\ (forall name, has_dot (TaskCard.last_segment name "") = false).
Proof.
  split; [|split].
  - intros stem ext H. apply last_segment_after_dot. exact H.
  - intros name H. apply (last_segment_no_dot name "" H).
  - intros name. apply last_segment_has_no_dot. reflexivity.
Qed.

(** X24.  The duration is computed before any request is sent.
    Whatever error the duration helper throws, the handler reports it in
    a toast and returns with the database as it was: nothing is uploaded,
    no row is written, the refresh is not called, the dialog stays as it
    is and the upload flag is off. *)
Theorem duration_error_stops_before_any_request :
  forall calculateTaskDuration formatDuration env task onRefresh userTimezone
         completionTime completionImage w e,
    calculateTaskDuration (start_time task)
      (localToUtcISO (tzdb env) (clock env) completionTime userTimezone) userTimezone
    = inl e ->
    TaskCard.handleComplete calculateTaskDuration formatDuration env task onRefresh
      userTimezone completionTime completionImage w
    = (abandoned w e, inr tt).
Proof.
  intros calc fmt env task onRefresh userTimezone completionTime completionImage w e
         Hcalc.
  unfold TaskCard.handleComplete, finally, try_catch. rewrite Hcalc. reflexivity.
Qed.

Lemma completion_marks_the_task_completed_witness :
  (twenty_minutes (start_time task_for_today)
     (localToUtcISO (tzdb new_york_env) (clock new_york_env)
                    (mkLocal (mkDate 2025 3 11) 19 30) "America/New_York")
     "America/New_York"
   = inr 20
   /\ update_error new_york_env (id task_for_today) = None)
  /\ tasks (db (run (TaskCard.handleComplete twenty_minutes in_minutes new_york_env
                       task_for_today (fetchTasks new_york_env "America/New_York")
                       "America/New_York" (mkLocal (mkDate 2025 3 11) 19 30) None)
                    new_york_world))
     = [task_of_march_7; task_done; task_for_today_completed None].
Proof.
  assert (h1 : twenty_minutes (start_time task_for_today)
                 (localToUtcISO (tzdb new_york_env) (clock new_york_env)
                                (mkLocal (mkDate 2025 3 11) 19 30) "America/New_York")
                 "America/New_York"
               = inr 20) by reflexivity.
  assert (h2 : update_error new_york_env (id task_for_today) = None) by reflexivity.
  split; [exact (conj h1 h2)|].
  rewrite (proj1 (completion_marks_the_task_completed twenty_minutes in_minutes
                    new_york_env task_for_today "America/New_York" "America/New_York"
                    (mkLocal (mkDate 2025 3 11) 19 30) new_york_world 20 h1 h2)).
  vm_compute. reflexivity.
Defined.

Lemma refreshed_list_shows_the_completed_task_witness :
  (twenty_minutes (start_time task_for_today)
     (localToUtcISO (tzdb new_york_env) (clock new_york_env)
                    (mkLocal (mkDate 2025 3 11) 19 30) "America/New_York")
     "America/New_York"
   = inr 20
   /\ update_error new_york_env (id task_for_today) = None
   /\ session new_york_env = Some "user-2" /\ select_error new_york_env = None
   /\ resolved_today new_york_env "America/New_York" = Some (mkDate 2025 3 11))
  /\ (In task_for_today (tasks (db new_york_world))
      /\ user_id task_for_today = "user-2"
      /\ task_date task_for_today = mkDate 2025 3 11)
  /\ exists t',
       In t' (st_tasks (page (run (TaskCard.handleComplete twenty_minutes in_minutes
                                     new_york_env task_for_today
                                     (fetchTasks new_york_env "America/New_York")
                                     "America/New_York"
                                     (mkLocal (mkDate 2025 3 11) 19 30) None)
                                  new_york_world)))
       /\ id t' = id task_for_today /\ status t' = "completed".
Proof.
  assert (h1 : twenty_minutes (start_time task_for_today)
                 (localToUtcISO (tzdb new_york_env) (clock new_york_env)
                                (mkLocal (mkDate 2025 3 11) 19 30) "America/New_York")
                 "America/New_York"
               = inr 20) by reflexivity.
  assert (h2 : update_error new_york_env (id task_for_today) = None) by reflexivity.
  assert (h3 : session new_york_env = Some "user-2") by reflexivity.
  assert (h4 : select_error new_york_env = None) by reflexivity.
  assert (h5 : resolved_today new_york_env "America/New_York" = Some (mkDate 2025 3 11))
    by (vm_compute; reflexivity).
  assert (r1 : In task_for_today (tasks (db new_york_world)))
    by (right; right; left; reflexivity).
  assert (r2 : user_id task_for_today = "user-2") by reflexivity.
  assert (r3 : task_date task_for_today = mkDate 2025 3 11) by reflexivity.
  exact (conj (conj h1 (conj h2 (conj h3 (conj h4 h5))))
          (conj (conj r1 (conj r2 r3))
                (proj2 (proj2 (refreshed_list_shows_the_completed_task twenty_minutes
                                 in_minutes new_york_env task_for_today
                                 "America/New_York" "America/New_York"
                                 (mkLocal (mkDate 2025 3 11) 19 30) new_york_world 20
                                 "user-2" (mkDate 2025 3 11) h1 h2 h3 h4 h5))
                       task_for_today r1 eq_refl r2 r3))).
Defined.

Lemma completion_photo_is_stored_where_the_row_points_witness :
  (twenty_minutes (start_time task_for_today)
     (localToUtcISO (tzdb new_york_env) (clock new_york_env)
                    (mkLocal (mkDate 2025 3 11) 19 30) "America/New_York")
     "America/New_York"
   = inr 20
   /\ session new_york_env = Some "user-2"
   /\ upload_error new_york_env
        (completion_path "user-2" task_for_today (clock new_york_env) photo) = None
   /\ update_error new_york_env (id task_for_today) = None)
  /\ completion_path "user-2" task_for_today (clock new_york_env) photo
     = "user-2/task-T-completion-1741705200000.jpg"
  /\ task_images
       (db (run (TaskCard.handleComplete twenty_minutes in_minutes new_york_env
                   task_for_today (fetchTasks new_york_env "America/New_York")
                   "America/New_York" (mkLocal (mkDate 2025 3 11) 19 30) (Some photo))
                new_york_world))
     = (completion_path "user-2" task_for_today (clock new_york_env) photo, photo)
         :: task_images (db new_york_world)
  /\ tasks
       (db (run (TaskCard.handleComplete twenty_minutes in_minutes new_york_env
                   task_for_today (fetchTasks new_york_env "America/New_York")
                   "America/New_York" (mkLocal (mkDate 2025 3 11) 19 30) (Some photo))
                new_york_world))
     = [task_of_march_7; task_done;
        task_for_today_completed (Some "user-2/task-T-completion-1741705200000.jpg")].
Proof.
  assert (h1 : twenty_minutes (start_time task_for_today)
                 (localToUtcISO (tzdb new_york_env) (clock new_york_env)
                                (mkLocal (mkDate 2025 3 11) 19 30) "America/New_York")
                 "America/New_York"
               = inr 20) by reflexivity.
  assert (h2 : session new_york_env = Some "user-2") by reflexivity.
  assert (h3 : upload_error new_york_env
                 (completion_path "user-2" task_for_today (clock new_york_env) photo)
               = None) by reflexivity.
  assert (h4 : update_error new_york_env (id task_for_today) = None) by reflexivity.
  assert (e : completion_path "user-2" task_for_today (clock new_york_env) photo
              = "user-2/task-T-completion-1741705200000.jpg")
    by (vm_compute; reflexivity).
  pose proof (completion_photo_is_stored_where_the_row_points twenty_minutes in_minutes
                new_york_env task_for_today "America/New_York" "America/New_York"
                (mkLocal (mkDate 2025 3 11) 19 30) photo new_york_world 20 "user-2"
                h1 h2 h3 h4) as H.
  split; [exact (conj h1 (conj h2 (conj h3 h4)))|]. split; [exact e|].
  split; [exact (proj1 (proj2 H))|].
  rewrite (proj1 (proj2 (proj2 H))). vm_compute. reflexivity.
Defined.

Lemma refused_completion_update_changes_no_row_witness :
  (twenty_minutes (start_time task_for_today)
     (localToUtcISO (tzdb new_york_read_only) (clock new_york_read_only)
                    (mkLocal (mkDate 2025 3 11) 19 30) "America/New_York")
     "America/New_York"
   = inr 20
   /\ update_error new_york_read_only (id task_for_today) = Some permission_denied
   /\ session new_york_read_only = Some "user-2"
   /\ upload_error new_york_read_only
        (completion_path "user-2" task_for_today (clock new_york_read_only) photo)
      = None)
  /\ TaskCard.handleComplete twenty_minutes in_minutes new_york_read_only
       task_for_today (fetchTasks new_york_read_only "America/New_York")
       "America/New_York" (mkLocal (mkDate 2025 3 11) 19 30) None new_york_world
     = (abandoned new_york_world permission_denied, inr tt)
  /\ TaskCard.handleComplete twenty_minutes in_minutes new_york_read_only
       task_for_today (fetchTasks new_york_read_only "America/New_York")
       "America/New_York" (mkLocal (mkDate 2025 3 11) 19 30) (Some photo)
       new_york_world
     = (mkWorld (mkDb (profiles (db new_york_world)) (tasks (db new_york_world))
                      ((completion_path "user-2" task_for_today
                                        (clock new_york_read_only) photo, photo)
                         :: task_images (db new_york_world)))
                (page new_york_world)
                (mkCard (st_showCompleteDialog (card new_york_world)) false)
                (events new_york_world
                 ++ [Toast "Error" (message permission_denied) true]),
        inr tt).
Proof.
  assert (h1 : twenty_minutes (start_time task_for_today)
                 (localToUtcISO (tzdb new_york_read_only) (clock new_york_read_only)
                                (mkLocal (mkDate 2025 3 11) 19 30) "America/New_York")
                 "America/New_York"
               = inr 20) by reflexivity.
  assert (h2 : update_error new_york_read_only (id task_for_today)
               = Some permission_denied) by reflexivity.
  assert (h3 : session new_york_read_only = Some "user-2") by reflexivity.
  assert (h4 : upload_error new_york_read_only
                 (completion_path "user-2" task_for_today (clock new_york_read_only)
                                  photo)
               = None) by reflexivity.
  pose proof (refused_completion_update_changes_no_row twenty_minutes in_minutes
                new_york_read_only task_for_today
                (fetchTasks new_york_read_only "America/New_York") "America/New_York"
                (mkLocal (mkDate 2025 3 11) 19 30) new_york_world 20 permission_denied
                h1 h2) as H.
  exact (conj (conj h1 (conj h2 (conj h3 h4)))
              (conj (proj1 H) (proj2 H photo "user-2" h3 h4))).
Defined.

Lemma photo_needs_a_session_witness :
  (twenty_minutes (start_time task_for_today)
     (localToUtcISO (tzdb signed_out) (clock signed_out)
                    (mkLocal (mkDate 2025 3 11) 19 30) "America/New_York")
     "America/New_York"
   = inr 20
   /\ session signed_out = None)
  /\ TaskCard.handleComplete twenty_minutes in_minutes signed_out task_for_today
       (fetchTasks signed_out "America/New_York") "America/New_York"
       (mkLocal (mkDate 2025 3 11) 19 30) (Some photo) new_york_world
     = (abandoned new_york_world TaskCard.not_authenticated, inr tt)
  /\ message TaskCard.not_authenticated = "Not authenticated".
Proof.
  assert (h1 : twenty_minutes (start_time task_for_today)
                 (localToUtcISO (tzdb signed_out) (clock signed_out)
                                (mkLocal (mkDate 2025 3 11) 19 30) "America/New_York")
                 "America/New_York"
               = inr 20) by reflexivity.
  assert (h2 : session signed_out = None) by reflexivity.
  exact (conj (conj h1 h2)
              (photo_needs_a_session twenty_minutes in_minutes signed_out task_for_today
                 (fetchTasks signed_out "America/New_York") "America/New_York"
                 (mkLocal (mkDate 2025 3 11) 19 30) photo new_york_world 20 h1 h2)).
Defined.

Lemma file_extension_is_the_text_after_the_last_dot_witness :
  (has_dot "jpg" = false /\ has_dot "photo" = false)
  /\ TaskCard.last_segment ("proof.final" ++ "." ++ "jpg")%string "" = "jpg"
  /\ TaskCard.last_segment "photo" "" = "photo".
Proof.
  assert (h1 : has_dot "jpg" = false) by reflexivity.
  assert (h2 : has_dot "photo" = false) by reflexivity.
  exact (conj (conj h1 h2)
          (conj (proj1 file_extension_is_the_text_after_the_last_dot
                       "proof.final" "jpg" h1)
                (proj1 (proj2 file_extension_is_the_text_after_the_last_dot)
                       "photo" h2))).
Defined.

Lemma duration_error_stops_before_any_request_witness :
  helper_throws (start_time task_for_today)
    (localToUtcISO (tzdb new_york_env) (clock new_york_env)
                   (mkLocal (mkDate 2025 3 11) 19 30) "America/New_York")
    "America/New_York"
  = inl invalid_time_value
  /\ TaskCard.handleComplete helper_throws in_minutes new_york_env task_for_today
       (fetchTasks new_york_env "America/New_York") "America/New_York"
       (mkLocal (mkDate 2025 3 11) 19 30) (Some photo) new_york_world
     = (abandoned new_york_world invalid_time_value, inr tt).
Proof.
  assert (h1 : helper_throws (start_time task_for_today)
                 (localToUtcISO (tzdb new_york_env) (clock new_york_env)
                                (mkLocal (mkDate 2025 3 11) 19 30) "America/New_York")
                 "America/New_York"
               = inl invalid_time_value) by reflexivity.
  exact (conj h1
              (duration_error_stops_before_any_request helper_throws in_minutes
                 new_york_env task_for_today (fetchTasks new_york_env "America/New_York")
                 "America/New_York" (mkLocal (mkDate 2025 3 11) 19 30) (Some photo)
                 new_york_world invalid_time_value h1)).
Defined.

End CompletionProps.

(** ** What the mount effect rolls, and how a rolled task is shown *)

Module MountFacts.
Import Civil Luxon Timezone Supabase React Tasks Pass Behaviour.
Import CivilFacts LuxonFacts PassFacts TimezoneFacts PageFacts.

(** The database after the mount effect is the database after its pass. *)
Lemma mount_db env w :
  db (run (mount env) w)
  = db (run (carryForwardTasks env (st_userTimezone (page w)))
            (run (fetchUserTimezone env) w)).
Proof.
  unfold run at 1. unfold mount. rewrite initializeTasks_steps.
  destruct (fetchTasks_returns env (st_userTimezone (page w))
              (run (carryForwardTasks env (st_userTimezone (page w)))
                   (run (fetchUserTimezone env) w))) as (w3 & H3 & _ & Hd & _).
  rewrite H3. exact Hd.
Qed.

Lemma fetchUserTimezone_db env w : db (run (fetchUserTimezone env) w) = db w.
Proof. unfold run. rewrite fetchUserTimezone_world. reflexivity. Qed.

(** In a zone of one offset a pass raises or keeps the counter of every
    row and leaves a completed row as it was, whatever the backend
    accepts or refuses. *)
Lemma pass_counters_fixed env userTimezone z k w :
  normalizeZone (tzdb env) userTimezone = Some z -> (forall x, z x = k) ->
  NoDup (map id (tasks (db w))) ->
  Forall2 (fun t t' => consecutive_missed_days t <= consecutive_missed_days t'
                       /\ (status t = "completed" -> t' = t))
          (tasks (db w))
          (tasks (db (run (carryForwardTasks env userTimezone) w))).
Proof.
  intros Hn Hz Hnd.
  destruct (pass_rows_cases env userTimezone w Hnd)
    as [E | (user & todayStart & Hu & Hsel & Hts & E)]; rewrite E.
  - apply Forall2_same. intros t _. split; [lia | reflexivity].
  - destruct (fixed_offset_today z k (clock env) Hz) as [Hs Hc].
    set (D := (clock env + k * msPerMinute) / msPerDay) in *.
    destruct (today_settled env userTimezone z D k Hn Hs Hc) as [Ets _].
    assert (todayStart = mkDT (D * msPerDay - k * msPerMinute) z k) by congruence.
    subst todayStart. rewrite toFormat_date_at_midnight.
    apply Forall2_map_rows. intros t _.
    destruct (update_error env (id t)) as [e|] eqn:Eu.
    + unfold rolled. rewrite Eu.
      destruct (candidate user (civil_from_days D) t); split; (lia || reflexivity).
    + rewrite (rolled_fixed env z k D user t Hz Hc Eu).
      destruct (candidate user (civil_from_days D) t) eqn:Ec;
        [|split; [lia | reflexivity]].
      unfold candidate in Ec. apply andb_true_iff in Ec as [Ec Hlt].
      apply andb_true_iff in Ec as [_ Hst]. apply String.eqb_eq in Hst.
      unfold date_ltb in Hlt. rewrite days_from_civil_from_days in Hlt.
      apply Z.ltb_lt in Hlt. split.
      * unfold rolled_to. cbn [consecutive_missed_days]. lia.
      * rewrite Hst. discriminate.
Qed.

End MountFacts.

(** ** Properties of the mount effect and of the badge of a rolled task *)

Module MountProps.
Import Civil Luxon Timezone Supabase React Tasks Pass Behaviour Examples.
Import CivilFacts LuxonFacts PassFacts ExamplesFacts TimezoneFacts PageFacts MountFacts.

(** X25.  What the mount effect rolls.  From the initial page state the
    pass of the mount effect runs in "UTC", so with [D] the UTC day of
    now, a pending task of the signed-in user dated before [D] becomes
    the row with task_date [D], start_time at the same UTC time of day on
    day [D] (milliseconds dropped) and the counter raised by the number of
    days from its old date to [D]; this is so whatever time zone the
    profile holds. *)
Theorem mount_rolls_by_the_UTC_calendar :
  forall env user w i t,
    st_userTimezone (page w) = "UTC" ->
    session env = Some user -> select_error env = None ->
    update_error env (id t) = None ->
    NoDup (map id (tasks (db w))) ->
    nth_error (tasks (db w)) i = Some t ->
    user_id t = user -> status t = "pending" ->
    days_from_civil (task_date t) < clock env / msPerDay ->
    nth_error (tasks (db (run (mount env) w))) i
    = Some (rolled_to (clock env / msPerDay) 0 t)
    /\ task_date (rolled_to (clock env / msPerDay) 0 t)
       = civil_from_days (clock env / msPerDay)
    /\ start_time (rolled_to (clock env / msPerDay) 0 t)
       = clock env / msPerDay * msPerDay + start_time t mod msPerDay / 1000 * 1000
    /\ consecutive_missed_days (rolled_to (clock env / msPerDay) 0 t)
       = consecutive_missed_days t
         + (clock env / msPerDay - days_from_civil (task_date t)).
Proof.
  intros env user w i t Htz Hu Hsel Hupd Hnd Hi Huser Hst Hlt.
  split.
  - rewrite mount_db, Htz.
    pose proof (pass_row_fixed env "UTC" utcInstance 0 user
                  (run (fetchUserTimezone env) w) i t Hu Hsel Hupd
                  (normalizeZone_UTC (tzdb env)) (fun _ => eq_refl)) as H.
    rewrite fetchUserTimezone_db in H. cbv zeta in H.
    replace (clock env + 0 * msPerMinute) with (clock env) in H by lia.
    apply H; assumption.
  - unfold rolled_to. cbn [task_date start_time consecutive_missed_days].
    split; [reflexivity|]. split; [|reflexivity].
    replace (start_time t + 0 * msPerMinute) with (start_time t) by lia. lia.
Qed.

(** X26.  A task that a pass has rolled is never shown as Pending.  In a
    zone of one fixed offset, a pending task of the user with a counter
    that is not negative, dated before today, is after the pass shown
    with the Carried badge, or with the Overdue badge and "Overdue <n>
    days" when its new counter [n] is 3 or more; [n] is the old counter
    plus the days from its old date to today. *)
Theorem rolled_task_is_shown_as_carried_or_overdue :
  forall env userTimezone z k user w i t,
    session env = Some user -> select_error env = None ->
    update_error env (id t) = None ->
    normalizeZone (tzdb env) userTimezone = Some z -> (forall x, z x = k) ->
    NoDup (map id (tasks (db w))) ->
    nth_error (tasks (db w)) i = Some t ->
    user_id t = user -> status t = "pending" ->
    0 <= consecutive_missed_days t ->
    let D := (clock env + k * msPerMinute) / msPerDay in
    days_from_civil (task_date t) < D ->
    exists t',
      nth_error (tasks (db (run (carryForwardTasks env userTimezone) w))) i = Some t'
      /\ consecutive_missed_days t'
         = consecutive_missed_days t + (D - days_from_civil (task_date t))
      /\ (consecutive_missed_days t' < 3 ->
          badgeVariant (getTaskStatusInfo t') = secondary)
      /\ (3 <= consecutive_missed_days t' ->
          badgeVariant (getTaskStatusInfo t') = destructive
          /\ label (getTaskStatusInfo t')
             = ("Overdue " ++ show (consecutive_missed_days t') ++ " days")%string)
      /\ label (getTaskStatusInfo t') <> "Pending".
Proof.
  intros env userTimezone z k user w i t Hu Hsel Hupd Hn Hz Hnd Hi Huser Hst Hc D Hlt.
  exists (rolled_to D k t).
  split; [apply (pass_row_fixed env userTimezone z k user); assumption|].
  split; [reflexivity|].
  unfold getTaskStatusInfo.
  cbn [rolled_to status consecutive_missed_days]. rewrite Hst.
  replace (String.eqb "pending" "completed") with false by reflexivity.
  set (n := consecutive_missed_days t + (D - days_from_civil (task_date t))).
  assert (Hn1 : 1 <= n) by (subst n; lia).
  destruct (n >=? 3) eqn:E3.
  - apply Z.geb_le in E3. cbn [badgeVariant label].
    split; [intros; lia|]. split; [intros _; split; reflexivity|]. discriminate.
  - rewrite Z.geb_leb in E3. apply Z.leb_gt in E3.
    replace (n >? 0) with true by (symmetry; rewrite Z.gtb_ltb; apply Z.ltb_lt; lia).
    cbn [badgeVariant label].
    split; [intros _; reflexivity|]. split; [intros; lia|]. discriminate.
Qed.

Lemma mount_rolls_by_the_UTC_calendar_witness :
  (st_userTimezone (page kolkata_world) = "UTC"
   /\ session scenarioA_env = Some "user-1" /\ select_error scenarioA_env = None
   /\ update_error scenarioA_env (id task_of_the_12th) = None
   /\ NoDup (map id (tasks (db kolkata_world)))
   /\ nth_error (tasks (db kolkata_world)) 0 = Some task_of_the_12th
   /\ user_id task_of_the_12th = "user-1" /\ status task_of_the_12th = "pending"
   /\ days_from_civil (task_date task_of_the_12th) < clock scenarioA_env / msPerDay)
  /\ rolled_to (clock scenarioA_env / msPerDay) 0 task_of_the_12th
     = task_of_the_12th_rolled
  /\ nth_error (tasks (db (run (mount scenarioA_env) kolkata_world))) 0
     = Some (rolled_to (clock scenarioA_env / msPerDay) 0 task_of_the_12th).
Proof.
  assert (h0 : st_userTimezone (page kolkata_world) = "UTC") by reflexivity.
  assert (h1 : session scenarioA_env = Some "user-1") by reflexivity.
  assert (h2 : select_error scenarioA_env = None) by reflexivity.
  assert (h3 : update_error scenarioA_env (id task_of_the_12th) = None) by reflexivity.
  assert (h4 : NoDup (map id (tasks (db kolkata_world)))).
  { cbn. repeat (constructor; [cbn; intuition discriminate|]). constructor. }
  assert (h5 : nth_error (tasks (db kolkata_world)) 0 = Some task_of_the_12th)
    by reflexivity.
  assert (h6 : user_id task_of_the_12th = "user-1") by reflexivity.
  assert (h7 : status task_of_the_12th = "pending") by reflexivity.
  assert (h8 : days_from_civil (task_date task_of_the_12th)
               < clock scenarioA_env / msPerDay) by (vm_compute; reflexivity).
  assert (e : rolled_to (clock scenarioA_env / msPerDay) 0 task_of_the_12th
              = task_of_the_12th_rolled) by (vm_compute; reflexivity).
  exact (conj (conj h0 (conj h1 (conj h2 (conj h3 (conj h4 (conj h5 (conj h6
                   (conj h7 h8))))))))
          (conj e
                (proj1 (mount_rolls_by_the_UTC_calendar scenarioA_env "user-1"
                          kolkata_world 0%nat task_of_the_12th
                          h0 h1 h2 h3 h4 h5 h6 h7 h8)))).
Defined.

Lemma rolled_task_is_shown_as_carried_or_overdue_witness :
  (session scenarioA_env = Some "user-1" /\ select_error scenarioA_env = None
   /\ update_error scenarioA_env (id scenarioA_task) = None
   /\ normalizeZone (tzdb scenarioA_env) "Asia/Kolkata" = Some Asia_Kolkata
   /\ (forall x, Asia_Kolkata x = 330)
   /\ NoDup (map id (tasks (db scenarioA_world)))
   /\ nth_error (tasks (db scenarioA_world)) 0 = Some scenarioA_task
   /\ user_id scenarioA_task = "user-1" /\ status scenarioA_task = "pending"
   /\ 0 <= consecutive_missed_days scenarioA_task
   /\ days_from_civil (task_date scenarioA_task)
      < (clock scenarioA_env + 330 * msPerMinute) / msPerDay)
  /\ exists t',
       nth_error (tasks (db (run (carryForwardTasks scenarioA_env "Asia/Kolkata")
                                 scenarioA_world))) 0 = Some t'
       /\ consecutive_missed_days t'
          = consecutive_missed_days scenarioA_task
            + ((clock scenarioA_env + 330 * msPerMinute) / msPerDay
               - days_from_civil (task_date scenarioA_task))
       /\ (consecutive_missed_days t' < 3 ->
           badgeVariant (getTaskStatusInfo t') = secondary)
       /\ (3 <= consecutive_missed_days t' ->
           badgeVariant (getTaskStatusInfo t') = destructive
           /\ label (getTaskStatusInfo t')
              = ("Overdue " ++ show (consecutive_missed_days t') ++ " days")%string)
       /\ label (getTaskStatusInfo t') <> "Pending".
Proof.
  assert (h1 : session scenarioA_env = Some "user-1") by reflexivity.
  assert (h2 : select_error scenarioA_env = None) by reflexivity.
  assert (h3 : update_error scenarioA_env (id scenarioA_task) = None) by reflexivity.
  assert (h4 : normalizeZone (tzdb scenarioA_env) "Asia/Kolkata" = Some Asia_Kolkata)
    by reflexivity.
  assert (h5 : forall x, Asia_Kolkata x = 330) by (intros x; reflexivity).
  assert (h6 : NoDup (map id (tasks (db scenarioA_world)))).
  { cbn. repeat (constructor; [cbn; intuition discriminate|]). constructor. }
  assert (h7 : nth_error (tasks (db scenarioA_world)) 0 = Some scenarioA_task)
    by reflexivity.
  assert (h8 : user_id scenarioA_task = "user-1") by reflexivity.
  assert (h9 : status scenarioA_task = "pending") by reflexivity.
  assert (h10 : 0 <= consecutive_missed_days scenarioA_task) by (cbn; lia).
  assert (h11 : days_from_civil (task_date scenarioA_task)
                < (clock scenarioA_env + 330 * msPerMinute) / msPerDay)
    by (vm_compute; reflexivity).
  exact (conj (conj h1 (conj h2 (conj h3 (conj h4 (conj h5 (conj h6 (conj h7 (conj h8
                   (conj h9 (conj h10 h11))))))))))
              (rolled_task_is_shown_as_carried_or_overdue scenarioA_env "Asia/Kolkata"
                 Asia_Kolkata 330 "user-1" scenarioA_world 0%nat scenarioA_task
                 h1 h2 h3 h4 h5 h6 h7 h8 h9 h10 h11)).
Defined.

End MountProps.

(** ** The claims that depend on the zone the mount effect holds *)

Module MountClaims.
Import Civil Luxon Timezone Supabase React Tasks Pass Completion Behaviour Examples.
Import CivilFacts LuxonFacts PassFacts ExamplesFacts TimezoneFacts PageFacts MountFacts.
Import CompletionClaims.

(** C1 (where the code departs from it).  The pass that the page runs
    resolves today, and counts the missed days, on the UTC calendar and
    not in the time zone of the user.  A user in Kolkata opens the page
    at 00:30 on 13 January 2025 (2025-01-12T19:00:00Z) with two pending
    tasks, dated 10 and 12 January.  Both are dated before today,
    2025-01-13, and a pass in Asia/Kolkata dates both the 13th, with 3
    and 1 missed days.  The mount effect dates the first the 12th with 2
    missed days and leaves the second as it was, while the page state
    ends up holding Asia/Kolkata; the list it shows is the list of the
    12th. *)
Theorem mount_counts_missed_days_on_the_UTC_calendar :
  getUserTimezone (Some "Asia/Kolkata") = "Asia/Kolkata"
  /\ resolved_today kolkata_after_midnight "Asia/Kolkata" = Some (mkDate 2025 1 13)
  /\ select_pending_before kolkata_after_midnight (db kolkata_first_render) "user-1"
        (Some (mkDate 2025 1 13))
     = inr [scenarioA_task; task_of_the_12th]
  /\ days_from_civil (mkDate 2025 1 13) - days_from_civil (task_date scenarioA_task) = 3
  /\ days_from_civil (mkDate 2025 1 13) - days_from_civil (task_date task_of_the_12th)
     = 1
  /\ tasks (db (run (carryForwardTasks kolkata_after_midnight "Asia/Kolkata")
                    kolkata_first_render))
     = [scenarioA_rolled; task_of_the_12th_rolled]
  /\ resolved_today kolkata_after_midnight "UTC" = Some (mkDate 2025 1 12)
  /\ tasks (db (run (mount kolkata_after_midnight) kolkata_first_render))
     = [scenarioA_rolled_in_UTC; task_of_the_12th]
  /\ st_userTimezone (page (run (mount kolkata_after_midnight) kolkata_first_render))
     = "Asia/Kolkata"
  /\ st_tasks (page (run (mount kolkata_after_midnight) kolkata_first_render))
     = [task_of_the_12th; scenarioA_rolled_in_UTC].
Proof.
  repeat split; vm_compute; reflexivity.
Qed.

(** C3 (where the code departs from it).  The rollover that the page
    runs keeps the UTC time of day of a task, not its wall-clock time in
    the zone of the user.  A user in New York opens the page on
    11 March 2025, two days after the clocks went forward, with a task
    left over from 7 March, 19:00.  A pass in America/New_York moves it
    to 19:00 on 11 March (23:00Z).  The mount effect moves it to
    2025-03-11T00:00:00Z, which in New York is 20:00 on 10 March: another
    time of day, on a day that is not the task_date it writes.  And
    Scenario A through the mount effect: at 06:00Z on 13 January the
    result is the one of the specification; at 19:00Z on 12 January,
    when it is the 13th in Kolkata, the task is dated the 12th, starts at
    2025-01-12T13:30:00Z and has 2 missed days. *)
Theorem mount_rollover_keeps_the_UTC_time_of_day :
  getUserTimezone (Some "America/New_York") = "America/New_York"
  /\ resolved_today new_york_env "America/New_York" = Some (mkDate 2025 3 11)
  /\ local_date America_New_York (start_time task_of_march_7) = mkDate 2025 3 7
  /\ local_time America_New_York (start_time task_of_march_7) = mkTime 19 0 0
  /\ tasks (db (run (carryForwardTasks new_york_env "America/New_York")
                    new_york_first_render))
     = [task_of_march_7_at_19; task_done; task_for_today]
  /\ local_date America_New_York (start_time task_of_march_7_at_19) = mkDate 2025 3 11
  /\ local_time America_New_York (start_time task_of_march_7_at_19) = mkTime 19 0 0
  /\ local_time utcInstance (start_time task_of_march_7) = mkTime 0 0 0
  /\ tasks (db (run (mount new_york_env) new_york_first_render))
     = [task_of_march_7_at_20; task_done; task_for_today]
  /\ task_date task_of_march_7_at_20 = mkDate 2025 3 11
  /\ local_date America_New_York (start_time task_of_march_7_at_20) = mkDate 2025 3 10
  /\ local_time America_New_York (start_time task_of_march_7_at_20) = mkTime 20 0 0
  /\ st_userTimezone (page (run (mount new_york_env) new_york_first_render))
     = "America/New_York"
  /\ tasks (db (run (mount scenarioA_env) scenarioA_world)) = [scenarioA_rolled]
  /\ resolved_today kolkata_after_midnight "Asia/Kolkata" = Some (mkDate 2025 1 13)
  /\ tasks (db (run (mount kolkata_after_midnight) scenarioA_world))
     = [scenarioA_rolled_in_UTC].
Proof.
  repeat split; vm_compute; reflexivity.
Qed.

(** C4.  consecutive_missed_days never decreases.  Row by row, after the
    reconciliation pass the counter is at least what it was and a
    completed row is as it was, whatever the backend accepts or refuses:
    for the pass with "UTC", the zone the page calls it with, and for the
    mount effect as a whole, started in the initial page state.  And the
    completion flow leaves the counter of every row as it was. *)
Theorem missed_days_never_decrease :
  (forall env w,
      NoDup (map id (tasks (db w))) ->
      Forall2 (fun t t' => consecutive_missed_days t <= consecutive_missed_days t'
                           /\ (status t = "completed" -> t' = t))
              (tasks (db w))
              (tasks (db (run (carryForwardTasks env "UTC") w))))
  /\ (forall env w,
         st_userTimezone (page w) = "UTC" ->
         NoDup (map id (tasks (db w))) ->
         Forall2 (fun t t' => consecutive_missed_days t <= consecutive_missed_days t'
                              /\ (status t = "completed" -> t' = t))
                 (tasks (db w))
                 (tasks (db (run (mount env) w))))
  /\ (forall calculateTaskDuration formatDuration env task pageTimezone
             userTimezone completionTime completionImage w,
         Forall2 (fun t t' => consecutive_missed_days t' = consecutive_missed_days t)
                 (tasks (db w))
                 (tasks (db (run (TaskCard.handleComplete
                                    calculateTaskDuration formatDuration env task
                                    (fetchTasks env pageTimezone) userTimezone
                                    completionTime completionImage) w)))).
Proof.
  split; [|split].
  - intros env w Hnd.
    apply (pass_counters_fixed env "UTC" utcInstance 0 w);
      [apply normalizeZone_UTC | reflexivity | exact Hnd].
  - intros env w Htz Hnd. rewrite mount_db, Htz.
    pose proof (pass_counters_fixed env "UTC" utcInstance 0
                  (run (fetchUserTimezone env) w)
                  (normalizeZone_UTC (tzdb env)) (fun _ => eq_refl)) as H.
    rewrite fetchUserTimezone_db in H. apply H. exact Hnd.
  - intros calc fmt env task pageTimezone userTimezone completionTime completionImage w.
    pose proof (handleComplete_keeps calc fmt env task (fetchTasks env pageTimezone)
                  userTimezone completionTime completionImage
                  (fetchTasks_keeps env pageTimezone) w) as H.
    unfold rolled_fields_kept in H. unfold run.
    eapply Forall2_impl; [|exact H].
    intros t t' (_ & _ & Hc). exact Hc.
Qed.

Lemma missed_days_never_decrease_witness :
  (st_userTimezone (page new_york_first_render) = "UTC"
   /\ NoDup (map id (tasks (db new_york_first_render))))
  /\ map consecutive_missed_days (tasks (db new_york_first_render)) = [1; 2; 0]
  /\ map consecutive_missed_days
         (tasks (db (run (mount new_york_env) new_york_first_render)))
     = [5; 2; 0]
  /\ Forall2 (fun t t' => consecutive_missed_days t <= consecutive_missed_days t'
                          /\ (status t = "completed" -> t' = t))
             (tasks (db new_york_first_render))
             (tasks (db (run (carryForwardTasks new_york_env "UTC")
                             new_york_first_render)))
  /\ Forall2 (fun t t' => consecutive_missed_days t <= consecutive_missed_days t'
                          /\ (status t = "completed" -> t' = t))
             (tasks (db new_york_first_render))
             (tasks (db (run (mount new_york_env) new_york_first_render)))
  /\ Forall2 (fun t t' => consecutive_missed_days t' = consecutive_missed_days t)
             (tasks (db new_york_world))
             (tasks (db (run (TaskCard.handleComplete
                                TaskDuration.calculateTaskDuration
                                TaskDuration.formatDuration new_york_env
                                task_for_today
                                (fetchTasks new_york_env "America/New_York")
                                "America/New_York"
                                (mkLocal (mkDate 2025 3 11) 19 30) (Some photo))
                             new_york_world))).
Proof.
  assert (h0 : st_userTimezone (page new_york_first_render) = "UTC") by reflexivity.
  pose proof new_york_rows_distinct as h1.
  assert (e0 : map consecutive_missed_days (tasks (db new_york_first_render))
               = [1; 2; 0]) by reflexivity.
  assert (e1 : map consecutive_missed_days
                   (tasks (db (run (mount new_york_env) new_york_first_render)))
               = [5; 2; 0]) by (vm_compute; reflexivity).
  exact (conj (conj h0 h1)
          (conj e0
             (conj e1
                (conj (proj1 missed_days_never_decrease new_york_env
                         new_york_first_render h1)
                   (conj (proj1 (proj2 missed_days_never_decrease) new_york_env
                            new_york_first_render h0 h1)
                         (proj2 (proj2 missed_days_never_decrease)
                            TaskDuration.calculateTaskDuration
                            TaskDuration.formatDuration new_york_env task_for_today
                            "America/New_York" "America/New_York"
                            (mkLocal (mkDate 2025 3 11) 19 30) (Some photo)
                            new_york_world)))))).
Defined.

End MountClaims.
